(** * Federated averaging: aggregation, client metrics and the stopping estimate

    A shallow embedding of the server side of the federated-averaging code:

    - [plato/servers/fedavg.py], class [Server]: [aggregate_deltas],
      [_process_reports], [get_accuracy_mean_std];
    - [servers/fedavg.py], class [FedAvgServer]: [federated_averaging],
      [accuracy_averaging];
    - [trainers/trainer.py], class [Trainer]: [extract_weights],
      [compute_weight_updates], [load_weights].

    Python floats are idealised as real numbers, Python exceptions are the
    constructors of [exn], and a method that may raise returns a [result].
    A method that assigns to an attribute of [self] takes the server record
    and returns the new one next to its result.  An [async def] is read as
    its body, the [await]s inside it changing no value; [_process_reports],
    whose body raises [StopIteration], is read as its caller receives it. *)

From Stdlib Require Import Reals Lra Lia List String NArith ZArith Bool Arith.
Import ListNotations.

Local Open Scope R_scope.

(** ** Python values and exceptions *)

(** The built-in exceptions the modelled statements can raise. *)
Inductive exn : Set :=
| IndexError
| KeyError
| ZeroDivisionError
| RuntimeError
| ValueError
| TypeError
| StopIteration.

Inductive result (A : Type) : Type :=
| Ok (a : A)
| Raise (e : exn).

Arguments Ok {A} a.
Arguments Raise {A} e.

Definition bind {A B : Type} (c : result A) (k : A -> result B) : result B :=
  match c with
  | Ok a => k a
  | Raise e => Raise e
  end.

Notation "x <- c ;; k" := (bind c (fun x => k))
  (at level 61, c at next level, right associativity).

Definition is_ok {A : Type} (c : result A) : bool :=
  match c with Ok _ => true | Raise _ => false end.

(** [for x in l: s = body(s, x)], stopping at the first exception. *)
Fixpoint for_each {A S : Type} (body : S -> A -> result S) (l : list A) (s : S)
  : result S :=
  match l with
  | [] => Ok s
  | x :: l' => s' <- body s x ;; for_each body l' s'
  end.

(** [enumerate(l)] counted from [start]. *)
Fixpoint enumerate_from {A : Type} (start : nat) (l : list A) : list (nat * A) :=
  match l with
  | [] => []
  | x :: l' => (start, x) :: enumerate_from (S start) l'
  end.

Definition enumerate {A : Type} (l : list A) : list (nat * A) :=
  enumerate_from 0 l.

(** [l[i]] on a Python list. *)
Definition list_index {A : Type} (l : list A) (i : nat) : result A :=
  match nth_error l i with
  | Some x => Ok x
  | None => Raise IndexError
  end.

(** [a / b] on two Python ints (true division). *)
Definition int_truediv (a b : N) : result R :=
  if (b =? 0)%N then Raise ZeroDivisionError
  else Ok (IZR (Z.of_N a) / IZR (Z.of_N b)).

(** [a / b] on two Python floats. *)
Definition float_truediv (a b : R) : result R :=
  if Req_dec_T b 0 then Raise ZeroDivisionError else Ok (a / b).

(** [sum(l)] on floats: Python starts from [0] and adds from the left. *)
Definition float_sum (l : list R) : R := fold_left Rplus l 0.

(** [sum(l)] on ints. *)
Definition int_sum (l : list N) : N := fold_left N.add l 0%N.

(** ** Tensors

    Tensor arithmetic belongs to the tensor library, not to this repository.
    A tensor is a shape and its elements in row-major order.  Elementwise
    operations broadcast their operands as the library does: the shapes are
    aligned at the last dimension, a dimension of size 1 (or a missing one) is
    repeated, and shapes that cannot be aligned raise [RuntimeError]. *)

Record tensor : Type := Tensor { shape : list nat; data : list R }.

Definition numel (sh : list nat) : nat := fold_right Nat.mul 1%nat sh.

Definition tensor_wf (t : tensor) : bool :=
  (List.length (data t) =? numel (shape t))%nat.

Definition shape_eqb (a b : list nat) : bool :=
  if list_eq_dec Nat.eq_dec a b then true else false.

Definition zeros (sh : list nat) : tensor := Tensor sh (repeat 0 (numel sh)).

Fixpoint zip_with (f : R -> R -> R) (a b : list R) : list R :=
  match a, b with
  | x :: a', y :: b' => f x y :: zip_with f a' b'
  | _, _ => []
  end.

(** [t * c] for a Python number [c]. *)
Definition tensor_scale (t : tensor) (c : R) : tensor :=
  Tensor (shape t) (map (fun x => x * c) (data t)).

(** The shape [sh] with leading dimensions of size 1, up to [rank]
    dimensions. *)
Definition pad_shape (rank : nat) (sh : list nat) : list nat :=
  repeat 1%nat (rank - List.length sh) ++ sh.

(** Two shapes of one rank, dimension by dimension: the sizes are equal, or
    one of them is 1. *)
Fixpoint broadcast_dims (a b : list nat) : option (list nat) :=
  match a, b with
  | [], [] => Some []
  | x :: a', y :: b' =>
      match broadcast_dims a' b' with
      | Some sh =>
          if (x =? y)%nat then Some (x :: sh)
          else if (x =? 1)%nat then Some (y :: sh)
          else if (y =? 1)%nat then Some (x :: sh)
          else None
      | None => None
      end
  | _, _ => None
  end.

(** The shape two operands are broadcast to; [None] if they cannot be. *)
Definition broadcast_shapes (a b : list nat) : option (list nat) :=
  let rank := Nat.max (List.length a) (List.length b) in
  broadcast_dims (pad_shape rank a) (pad_shape rank b).

(** [count] consecutive blocks of [size] elements. *)
Fixpoint chunks {A : Type} (count size : nat) (l : list A) : list (list A) :=
  match count with
  | O => []
  | S count' => firstn size l :: chunks count' size (skipn size l)
  end.

(** The elements of a tensor of shape [sh] repeated to the shape [target] of
    the same rank: along a dimension of equal size block by block, along a
    dimension of size 1 the one block again and again. *)
Fixpoint expand_data {A : Type} (sh target : list nat) (l : list A) : list A :=
  match sh, target with
  | s :: sh', e :: target' =>
      if (s =? e)%nat
      then List.concat (map (expand_data sh' target') (chunks s (numel sh') l))
      else List.concat (repeat (expand_data sh' target' l) e)
  | _, _ => l
  end.

(** The elements of [t] broadcast to the shape [target]; a tensor that has
    the shape already is taken as it is. *)
Definition expand (t : tensor) (target : list nat) : list R :=
  if shape_eqb (shape t) target then data t
  else expand_data (pad_shape (List.length target) (shape t)) target (data t).

(** [a + b]. *)
Definition tensor_add (a b : tensor) : result tensor :=
  match broadcast_shapes (shape a) (shape b) with
  | Some sh => Ok (Tensor sh (zip_with Rplus (expand a sh) (expand b sh)))
  | None => Raise RuntimeError
  end.

(** [a - b]. *)
Definition tensor_sub (a b : tensor) : result tensor :=
  match broadcast_shapes (shape a) (shape b) with
  | Some sh => Ok (Tensor sh (zip_with Rminus (expand a sh) (expand b sh)))
  | None => Raise RuntimeError
  end.

(** [b] can be added into a tensor of shape [a] in place: the operands
    broadcast to the shape [a] itself. *)
Definition adds_into (a b : list nat) : bool :=
  match broadcast_shapes a b with
  | Some sh => shape_eqb sh a
  | None => false
  end.

(** The value [a] holds after [a += b]: the object keeps its shape, and an
    operand that does not broadcast to it raises [RuntimeError]. *)
Definition tensor_iadd (a b : tensor) : result tensor :=
  if adds_into (shape a) (shape b)
  then Ok (Tensor (shape a) (zip_with Rplus (data a) (expand b (shape a))))
  else Raise RuntimeError.

(** ** Dictionaries

    A Python [dict] (and an [OrderedDict]) keeps its items in insertion order:
    it is the list of its items, looked up from the front. *)

Definition dict (V : Type) : Type := list (string * V).

Fixpoint dict_get {V : Type} (d : dict V) (k : string) : option V :=
  match d with
  | [] => None
  | (k', v) :: d' => if String.eqb k' k then Some v else dict_get d' k
  end.

(** [d[k]]. *)
Definition getitem {V : Type} (d : dict V) (k : string) : result V :=
  match dict_get d k with
  | Some v => Ok v
  | None => Raise KeyError
  end.

(** [d[k] = v]: an existing key keeps its place, a new one goes last. *)
Fixpoint setitem {V : Type} (d : dict V) (k : string) (v : V) : dict V :=
  match d with
  | [] => [(k, v)]
  | (k', v') :: d' =>
      if String.eqb k' k then (k', v) :: d' else (k', v') :: setitem d' k v
  end.

Definition keys {V : Type} (d : dict V) : list string := map fst d.

(** The names of a weight dictionary with the shape of each tensor. *)
Definition schema (d : dict tensor) : list (string * list nat) :=
  map (fun item => (fst item, shape (snd item))) d.

(** Every item of [d] has, in [d'], a tensor of the same shape. *)
Definition sub_schema (d d' : dict tensor) : bool :=
  forallb (fun item =>
             match dict_get d' (fst item) with
             | Some t' => shape_eqb (shape (snd item)) (shape t')
             | None => false
             end) d.

Definition same_schema (d d' : dict tensor) : bool :=
  sub_schema d d' && sub_schema d' d.

(** No key occurs twice: what every Python [dict] satisfies. *)
Fixpoint unique_keys {V : Type} (d : dict V) : bool :=
  match d with
  | [] => true
  | (k, _) :: d' =>
      match dict_get d' k with
      | None => unique_keys d'
      | Some _ => false
      end
  end.

(** A well-formed weight dictionary: distinct names, and tensors that hold as
    many elements as their shape says. *)
Definition dict_wf (d : dict tensor) : bool :=
  unique_keys d && forallb (fun item => tensor_wf (snd item)) d.

(** ** Client reports *)

(** [report.num_samples] and [report.accuracy] of a client's report.  A number
    of samples is a Python int that is not negative. *)
Record Report : Type := mkReport { num_samples : N; accuracy : R }.

(** One element of [self.updates]: the report and the payload (the weights
    the client sent). *)
Record Update : Type := mkUpdate { report : Report; payload : dict tensor }.

(** [[f(x) for x in l]], stopping at the first exception. *)
Fixpoint map_result {A B : Type} (f : A -> result B) (l : list A)
  : result (list B) :=
  match l with
  | [] => Ok []
  | x :: l' => y <- f x ;; ys <- map_result f l' ;; Ok (y :: ys)
  end.

(** ** [plato.algorithms.fedavg.Algorithm] *)

Module Algorithm.

(** Modelled from the spec: [Algorithm.compute_weight_deltas] is not among
    the sources.  Section 4.2: for each report, [delta_i = payload - baseline];
    section 4.1: [subtract(a, b)] is elementwise [a[name] - b[name]]. *)
Definition compute_weight_deltas (baseline_weights : dict tensor)
    (weights_received : list (dict tensor)) : result (list (dict tensor)) :=
  map_result
    (fun weight =>
       for_each
         (fun delta item =>
            baseline <- getitem baseline_weights (fst item) ;;
            d <- tensor_sub (snd item) baseline ;;
            Ok (setitem delta (fst item) d))
         weight [])
    weights_received.

(** Modelled from the spec: [Algorithm.update_weights] is not among the
    sources.  Section 4.2: [updated = baseline + avg_delta], name by name
    over the baseline. *)
Definition update_weights (baseline_weights deltas : dict tensor)
  : result (dict tensor) :=
  for_each
    (fun updated_weights item =>
       delta <- getitem deltas (fst item) ;;
       w <- tensor_add (snd item) delta ;;
       Ok (setitem updated_weights (fst item) w))
    baseline_weights [].

End Algorithm.

(** ** [plato/servers/fedavg.py]: class [Server] *)

Module Server.

(** The attributes of [self] that the modelled methods read or assign.
    [self_model] is the state of the global model behind [self.algorithm]:
    what [extract_weights()] returns and [load_weights()] replaces.
    [do_test] is [Config().server.do_test], [None] when the attribute is
    absent. *)
Record server : Type := mkServer {
  self_total_samples : N;
  self_current_round : Z;
  self_updates : list Update;
  self_model : dict tensor;
  self_accuracy : R;
  self_accuracy_std : R;
  do_test : option bool
}.

Definition set_total_samples (self : server) (v : N) : server :=
  mkServer v (self_current_round self) (self_updates self) (self_model self)
           (self_accuracy self) (self_accuracy_std self) (do_test self).

Definition set_model (self : server) (w : dict tensor) : server :=
  mkServer (self_total_samples self) (self_current_round self)
           (self_updates self) w
           (self_accuracy self) (self_accuracy_std self) (do_test self).

Definition set_accuracy (self : server) (a : R) : server :=
  mkServer (self_total_samples self) (self_current_round self)
           (self_updates self) (self_model self)
           a (self_accuracy_std self) (do_test self).

Definition set_accuracy_std (self : server) (s : R) : server :=
  mkServer (self_total_samples self) (self_current_round self)
           (self_updates self) (self_model self)
           (self_accuracy self) s (do_test self).

(** A method body: it runs on [self], returns or raises, and leaves [self]
    as it is at that point. *)
Definition M (A : Type) : Type := server -> result A * server.

Definition ret {A : Type} (a : A) : M A := fun self => (Ok a, self).

Definition raise {A : Type} (e : exn) : M A := fun self => (Raise e, self).

Definition bindM {A B : Type} (c : M A) (k : A -> M B) : M B :=
  fun self =>
    match c self with
    | (Ok a, self') => k a self'
    | (Raise e, self') => (Raise e, self')
    end.

Definition lift {A : Type} (c : result A) : M A := fun self => (c, self).

Definition get {A : Type} (field : server -> A) : M A :=
  fun self => (Ok (field self), self).

Definition assign (set : server -> server) : M unit :=
  fun self => (Ok tt, set self).

Notation "x <-- c ;;; k" := (bindM c (fun x => k))
  (at level 61, c at next level, right associativity).
Notation "c ;;; k" := (bindM c (fun _ => k))
  (at level 61, right associativity).

(** The body of the inner loop of [aggregate_deltas]:
    [avg_update[name] += delta * (num_samples / self.total_samples)].
    The subscript is loaded first, then the right-hand side is evaluated,
    then the sum is stored. *)
Definition accumulate (total_samples num_samples : N)
    (avg_update : dict tensor) (item : string * tensor)
  : result (dict tensor) :=
  cur <- getitem avg_update (fst item) ;;
  w <- int_truediv num_samples total_samples ;;
  new <- tensor_iadd cur (tensor_scale (snd item) w) ;;
  Ok (setitem avg_update (fst item) new).

(** The two loops of [aggregate_deltas] over [enumerate(deltas_received)]. *)
Definition accumulate_update (total_samples : N) (updates : list Update)
    (avg_update : dict tensor) (iu : nat * dict tensor)
  : result (dict tensor) :=
  u <- list_index updates (fst iu) ;;
  for_each (accumulate total_samples (num_samples (report u)))
           (snd iu) avg_update.

(** [Server.aggregate_deltas].  [trainer.zeros(shape)] is [zeros]; the
    [await asyncio.sleep(0)] between two clients changes no value. *)
Definition aggregate_deltas (updates : list Update)
    (deltas_received : list (dict tensor)) : M (dict tensor) :=
  assign (fun self =>
            set_total_samples self
              (int_sum (map (fun update => num_samples (report update))
                            updates))) ;;;
  total_samples <-- get self_total_samples ;;;
  lift (first <- list_index deltas_received 0 ;;
        let avg_update :=
          map (fun item => (fst item, zeros (shape (snd item)))) first in
        for_each (accumulate_update total_samples updates)
                 (enumerate deltas_received) avg_update).

(** [Server.weights_received]: the hook returns its argument. *)
Definition weights_received (weights : list (dict tensor))
  : list (dict tensor) := weights.

(** [Server.get_accuracy_mean_std].  [variance] is a sum of squares with
    non-negative weights, and [variance ** 0.5] is its square root. *)
Definition get_accuracy_mean_std (updates : list Update) : result (R * R) :=
  let total_samples :=
    int_sum (map (fun update => num_samples (report update)) updates) in
  let updates_accuracy := map (fun update => accuracy (report update)) updates in
  weights <- map_result
               (fun update =>
                  int_truediv (num_samples (report update)) total_samples)
               updates ;;
  mean_terms <- map_result
                  (fun ia => w <- list_index weights (fst ia) ;;
                             Ok (snd ia * w))
                  (enumerate updates_accuracy) ;;
  let mean := float_sum mean_terms in
  variance_terms <- map_result
                      (fun ia => w <- list_index weights (fst ia) ;;
                                 Ok ((snd ia - mean) ^ 2 * w))
                      (enumerate updates_accuracy) ;;
  let variance := float_sum variance_terms in
  let std := sqrt variance in
  Ok (mean, std).

(** [math.log(x, base)]: the logarithm of [x], then of [base], then their
    quotient. *)
Definition math_log (x base : R) : result R :=
  if Rle_dec x 0 then Raise ValueError
  else if Rle_dec base 0 then Raise ValueError
  else if Req_dec_T (ln base) 0 then Raise ZeroDivisionError
  else Ok (ln x / ln base).

(** [param.detach().cpu().numpy().flatten()]: the elements in row-major
    order. *)
Definition flatten (param : tensor) : list R := data param.

(** [p_arr.reshape(-1, 1)]: the matrix of one column, as its rows. *)
Definition reshape_column (p_arr : list R) : list (list R) :=
  map (fun v => [v]) p_arr.

(** The [S] of [np.linalg.svd(a, full_matrices=False)] for a matrix [a] of one
    column.  The routine is the numerical library's: [S] holds [min(rows, 1)]
    values, the square roots of the eigenvalues of the 1 x 1 matrix
    [transpose(a) @ a], whose entry is the sum of the squares of the column. *)
Definition svd_S (a : list (list R)) : list R :=
  match a with
  | [] => []
  | _ => [sqrt (float_sum (map (fun row => hd 0 row * hd 0 row) a))]
  end.

(** [np.mean(l)]: [nan] (here [None]) on the empty list. *)
Definition np_mean (l : list R) : option R :=
  match l with
  | [] => None
  | _ => Some (float_sum l / INR (List.length l))
  end.

(** The loop that fills [all_s_values], and [s_average]. *)
Definition all_s_values (updated_weights : dict tensor) : list R :=
  let param_arrays := map (fun item => flatten (snd item)) updated_weights in
  fold_left (fun acc p_arr => acc ++ svd_S (reshape_column p_arr))
            param_arrays [].

Definition s_average (updated_weights : dict tensor) : option R :=
  np_mean (all_s_values updated_weights).

(** The [if]/[else] that sets [t]: every comparison with [nan] is false. *)
Definition stopping_time (numerator : option R) (denominator lambda_value : R)
  : result R :=
  match numerator with
  | Some numerator =>
      if Rlt_dec 0 numerator then
        if Rlt_dec 0 denominator then
          if Rlt_dec 0 lambda_value then
            if Req_dec_T lambda_value 1 then Ok (-1)
            else
              argument <- float_truediv numerator denominator ;;
              math_log argument lambda_value
          else Ok (-1)
        else Ok (-1)
      else Ok (-1)
  | None => Ok (-1)
  end.

(** The constants and the arithmetic between [s_average] and [t], in the order
    of the source: [mu] is assigned twice and [lambda_value] computed twice. *)
Definition estimate (updated_weights : dict tensor) : result R :=
  let s_average := s_average updated_weights in
  let n := 0.04 in
  let mu := 0.5 in
  let bar_rho := 1 in
  let lambda_value := 1 - n * mu * (1 + (3 * bar_rho) / 8) in
  let L := 1.0 in
  let C := 0.2 in
  let D := 0.1 in
  let mu := 0.3 in
  let lambda_value := 1 - n * mu * (1 + (3 * bar_rho) / 8) in
  let x := (4 * L * (n * C + D)) / (mu * (8 + 3 * bar_rho)) in
  let delta_g := s_average in
  let A1 := 18 in
  let numerator := option_map (fun delta_g => delta_g - x) delta_g in
  let denominator := (L / mu) * A1 - 1 in
  stopping_time numerator denominator lambda_value.

(** [if t >= self.current_round: raise StopIteration]. *)
Definition check_stop (t : R) : M unit :=
  current_round <-- get self_current_round ;;;
  if Rle_dec (IZR current_round) t then raise StopIteration else ret tt.

(** An [async def], as the caller that awaits it sees it: a [StopIteration]
    that leaves the body arrives as [RuntimeError] (PEP 479, PEP 492), any
    other exception and any result as they are. *)
Definition coroutine {A : Type} (body : M A) : M A :=
  fun self =>
    match body self with
    | (Raise StopIteration, self') => (Raise RuntimeError, self')
    | r => r
    end.

(** [Server.clients_processed]: the hook has no statement. *)
Definition clients_processed : M unit := ret tt.

Section ProcessReports.

(** [self.trainer.test(self.testset, self.testset_sampler)]: the accuracy of
    the global model on the server's test set, a function of the model. *)
Variable trainer_test : dict tensor -> R.

(** What runs after the accuracy is assigned, lines 287 to 301, in code
    outside this file: the logging of the accuracy and the handlers of the
    event [on_clients_processed].  They may raise; like the handlers of the
    events before them they assign none of the attributes modelled here. *)
Variable on_clients_processed : server -> result unit.

(** The body of [Server._process_reports], for a server without
    [aggregate_weights] (the class itself defines none).  The handlers of
    [on_weights_received] and [on_weights_aggregated] and the logging before
    the accuracy is assigned are taken to return. *)
Definition _process_reports_body : M unit :=
  updates <-- get self_updates ;;;
  let weights_received := weights_received (map payload updates) in
  baseline_weights <-- get self_model ;;;
  deltas_received <-- lift (Algorithm.compute_weight_deltas
                              baseline_weights weights_received) ;;;
  deltas <-- aggregate_deltas updates deltas_received ;;;
  baseline <-- get self_model ;;;
  updated_weights <-- lift (Algorithm.update_weights baseline deltas) ;;;
  assign (fun self => set_model self updated_weights) ;;;
  t <-- lift (estimate updated_weights) ;;;
  check_stop t ;;;
  do_test <-- get do_test ;;;
  (match do_test with
   | Some false =>
       ms <-- lift (get_accuracy_mean_std updates) ;;;
       assign (fun self =>
                 set_accuracy_std (set_accuracy self (fst ms)) (snd ms))
   | _ =>
       model <-- get self_model ;;;
       assign (fun self => set_accuracy self (trainer_test model))
   end) ;;;
  clients_processed ;;;
  self' <-- get (fun self => self) ;;;
  lift (on_clients_processed self').

(** [Server._process_reports]: the coroutine that the caller awaits. *)
Definition _process_reports : M unit := coroutine _process_reports_body.

End ProcessReports.

End Server.

(** ** [trainers/trainer.py]: class [Trainer] *)

Module Trainer.

(** [Trainer.extract_weights]: the [state_dict()] of the model. *)
Definition extract_weights (model : dict tensor) : dict tensor := model.

(** [Trainer.compute_weight_updates]: one list of [(name, delta)] per client. *)
Definition compute_weight_updates (model : dict tensor)
    (weights_received : list (dict tensor))
  : result (list (list (string * tensor))) :=
  let baseline_weights := extract_weights model in
  map_result
    (fun weight =>
       for_each
         (fun update item =>
            baseline <- getitem baseline_weights (fst item) ;;
            delta <- tensor_sub (snd item) baseline ;;
            Ok (update ++ [(fst item, delta)]))
         weight [])
    weights_received.

End Trainer.

(** ** [servers/fedavg.py]: class [FedAvgServer] *)

Module FedAvgServer.

(** A client's report as [federated_averaging] and [accuracy_averaging] read
    it. *)
Record Report : Type := mkReport {
  num_samples : N;
  accuracy : R;
  weights : dict tensor
}.

(** [self.total_samples], and the model behind [self.trainer]. *)
Record server : Type := mkServer {
  self_total_samples : N;
  self_model : dict tensor
}.

(** [l[j] = v] on a Python list. *)
Fixpoint list_set {A : Type} (l : list A) (j : nat) (v : A) : result (list A) :=
  match l, j with
  | [], _ => Raise IndexError
  | _ :: l', O => Ok (v :: l')
  | x :: l', S j' => l'' <- list_set l' j' v ;; Ok (x :: l'')
  end.

(** [FedAvgServer.extract_client_updates]. *)
Definition extract_client_updates (self : server) (reports : list Report)
  : result (list (list (string * tensor))) :=
  let weights_received := map weights reports in
  Trainer.compute_weight_updates (self_model self) weights_received.

(** [avg_update[j] += delta * (num_samples / self.total_samples)]. *)
Definition accumulate (total_samples num_samples : N)
    (avg_update : list tensor) (jd : nat * (string * tensor))
  : result (list tensor) :=
  cur <- list_index avg_update (fst jd) ;;
  w <- int_truediv num_samples total_samples ;;
  new <- tensor_iadd cur (tensor_scale (snd (snd jd)) w) ;;
  list_set avg_update (fst jd) new.

Definition accumulate_update (total_samples : N) (reports : list Report)
    (avg_update : list tensor) (iu : nat * list (string * tensor))
  : result (list tensor) :=
  r <- list_index reports (fst iu) ;;
  for_each (accumulate total_samples (num_samples r))
           (enumerate (snd iu)) avg_update.

(** [(name, weight) = key] for a string [key]: a string of two characters
    gives its characters, any other raises [ValueError]. *)
Definition unpack_pair (key : string) : result (string * string) :=
  match key with
  | String c1 (String c2 EmptyString) =>
      Ok (String c1 EmptyString, String c2 EmptyString)
  | _ => Raise ValueError
  end.

(** [weight + avg] for a string [weight] and a tensor [avg]: neither operand
    has such a sum. *)
Definition str_add (weight : string) (avg : tensor) : result tensor :=
  Raise TypeError.

(** [FedAvgServer.federated_averaging].  [self.trainer.extract_weights()] is
    the [state_dict()] of the model, and the last loop enumerates it: a
    dictionary iterates over its keys, so each element is a name, which the
    loop takes apart as [(name, weight)]. *)
Definition federated_averaging (self : server) (reports : list Report)
  : result (list (string * tensor)) * server :=
  match extract_client_updates self reports with
  | Raise e => (Raise e, self)
  | Ok updates =>
      let self :=
        mkServer (int_sum (map num_samples reports)) (self_model self) in
      (first <- list_index updates 0 ;;
       let avg_update := map (fun nx => zeros (shape (snd nx))) first in
       avg_update <- for_each
                       (accumulate_update (self_total_samples self) reports)
                       (enumerate updates) avg_update ;;
       let baseline_weights := Trainer.extract_weights (self_model self) in
       for_each
         (fun updated_weights ik =>
            nw <- unpack_pair (snd ik) ;;
            avg <- list_index avg_update (fst ik) ;;
            w <- str_add (snd nw) avg ;;
            Ok (updated_weights ++ [(fst nw, w)]))
         (enumerate (keys baseline_weights)) [],
       self)
  end.

(** [FedAvgServer.aggregate_weights]. *)
Definition aggregate_weights (self : server) (reports : list Report)
  : result (list (string * tensor)) * server :=
  federated_averaging self reports.

(** [FedAvgServer.accuracy_averaging]. *)
Definition accuracy_averaging (reports : list Report) : result R :=
  let total_samples := int_sum (map num_samples reports) in
  for_each
    (fun accuracy report =>
       w <- int_truediv (num_samples report) total_samples ;;
       Ok (accuracy + FedAvgServer.accuracy report * w))
    reports 0.

End FedAvgServer.

(** ** The statements of the specification *)

(** Element [k] of the tensor [d[name]]; [0] where there is none. *)
Definition elem (d : dict tensor) (name : string) (k : nat) : R :=
  match dict_get d name with
  | Some t => nth k (data t) 0
  | None => 0
  end.

Definition total_samples_of (updates : list Update) : N :=
  int_sum (map (fun update => num_samples (report update)) updates).

(** [num_samples_i / total_samples] as a real number. *)
Definition aggregation_weight (updates : list Update) (update : Update) : R :=
  IZR (Z.of_N (num_samples (report update)))
  / IZR (Z.of_N (total_samples_of updates)).

(** Section 4.2: [avg_delta = sum_i delta_i * (num_samples_i / total_samples)],
    element by element, the reports taken in their order of arrival. *)
Definition avg_delta_spec (updates : list Update) (deltas : list (dict tensor))
    (name : string) (k : nat) : R :=
  fold_left
    (fun acc ud => acc + elem (snd ud) name k * aggregation_weight updates (fst ud))
    (combine updates deltas) 0.

(** Section 4.3: [mean = sum acc_i * (n_i / N)] and
    [variance = sum (acc_i - mean)^2 * (n_i / N)]. *)
Definition mean_spec (updates : list Update) : R :=
  fold_right Rplus 0
    (map (fun u => accuracy (report u) * aggregation_weight updates u) updates).

Definition variance_spec (updates : list Update) : R :=
  fold_right Rplus 0
    (map (fun u => (accuracy (report u) - mean_spec updates) ^ 2
                   * aggregation_weight updates u) updates).

(** The Euclidean norm of a vector. *)
Definition euclidean_norm (v : list R) : R :=
  sqrt (fold_right (fun x acc => x * x + acc) 0 v).

(** The arithmetic mean of a list. *)
Definition arithmetic_mean (l : list R) : R :=
  fold_right Rplus 0 l / INR (List.length l).

(** The logarithm of [x] in base [b]. *)
Definition log_base (b x : R) : R := ln x / ln b.

(** ** The Round Coordinator *)

Inductive reason : Set := StopRecommended | RoundsExhausted | TargetReached.

Inductive RoundOutcome : Set :=
| Continue
| Terminate (why : reason)
| RoundError (e : exn).

(** Modelled from the spec: the Round Coordinator that calls
    [_process_reports] ([plato.servers.base.Server]) is not among the sources.
    Section 4.5, [DECIDING]: the round ends in [TERMINATED] if the estimator
    recommends a stop, or [round_number >= total_rounds], or the target is
    reached, and otherwise the next round starts; section 4.4: the stop signal
    is a normal termination at the round boundary, not an error; section 7: any
    other exception is a round-level error. *)
Definition deciding (total_rounds : Z) (target_reached : bool)
    (round : result unit * Server.server) : RoundOutcome :=
  match fst round with
  | Raise StopIteration => Terminate StopRecommended
  | Raise e => RoundError e
  | Ok _ =>
      if (total_rounds <=? Server.self_current_round (snd round))%Z
      then Terminate RoundsExhausted
      else if target_reached then Terminate TargetReached
      else Continue
  end.

(** The domain on which the logarithm of the estimator is taken; a [nan]
    numerator is outside it. *)
Definition log_domain (numerator : option R) (denominator lambda_value : R)
  : Prop :=
  match numerator with
  | Some numerator =>
      0 < numerator /\ 0 < denominator /\ 0 < lambda_value /\ lambda_value <> 1
  | None => False
  end.

(** The value the specification gives [t]. *)
Definition t_spec (numerator : option R) (denominator lambda_value : R)
    (t : R) : Prop :=
  match numerator with
  | Some numerator =>
      (log_domain (Some numerator) denominator lambda_value ->
       t = log_base lambda_value (numerator / denominator))
      /\ (~ log_domain (Some numerator) denominator lambda_value -> t = -1)
  | None => t = -1
  end.

(** [RoundState.aggregated_weights]: the weights that the aggregation phase of
    [_process_reports] computes and loads into the model. *)
Definition aggregated_weights (self : Server.server) : result (dict tensor) :=
  deltas_received <- Algorithm.compute_weight_deltas
                       (Server.self_model self)
                       (map payload (Server.self_updates self)) ;;
  deltas <- fst (Server.aggregate_deltas (Server.self_updates self)
                                         deltas_received self) ;;
  Algorithm.update_weights (Server.self_model self) deltas.

(** The parameters that hold at least one element. *)
Definition nonempty_params (w : dict tensor) : dict tensor :=
  filter (fun item => match data (snd item) with [] => false | _ => true end) w.

(** The norms whose mean section 4.4 calls the global drift magnitude. *)
Definition param_norms (w : dict tensor) : list R :=
  map (fun item => euclidean_norm (Server.flatten (snd item))) w.

(** A model of two parameters, the second without elements. *)
Definition empty_param_weights : dict tensor :=
  [("w"%string, Tensor [2%nat] [3; 4]); ("e"%string, Tensor [0%nat] [])].

(** ** The scenarios of section 8 *)

Definition scenario_baseline : dict tensor :=
  [("w"%string, Tensor [2%nat] [1.0; 1.0])].

Definition scenario_deltas : list (dict tensor) :=
  [[("w"%string, Tensor [2%nat] [0.0; 0.0])];
   [("w"%string, Tensor [2%nat] [4.0; 0.0])]].

(** The two clients of the aggregation scenario, with the weights they sent:
    the baseline plus their delta. *)
Definition scenario_updates : list Update :=
  [mkUpdate (mkReport 1 0) [("w"%string, Tensor [2%nat] [1.0; 1.0])];
   mkUpdate (mkReport 3 0) [("w"%string, Tensor [2%nat] [5.0; 1.0])]].

(** The two clients of the accuracy scenario. *)
Definition scenario_accuracies : list Update :=
  [mkUpdate (mkReport 2 0.8) []; mkUpdate (mkReport 2 0.6) []].

(** The server at the start of the aggregation scenario, in round 1, testing
    the model at the server. *)
Definition scenario_server : Server.server :=
  Server.mkServer 0 1 scenario_updates scenario_baseline 0 0 None.

(** A computation that does not raise [StopIteration]. *)
Definition no_stop {A : Type} (c : result A) : Prop := c <> Raise StopIteration.

(** ** Batches outside the contracts of section 4.2 *)

(** One client, no sample, and a model without parameters. *)
Definition zero_total_updates : list Update := [mkUpdate (mkReport 0 0) []].

Definition zero_total_deltas : list (dict tensor) := [[]].

(** One client, no sample, and a model of one parameter. *)
Definition zero_total_server : Server.server :=
  Server.mkServer 0 1
    [mkUpdate (mkReport 0 0) [("w"%string, Tensor [1%nat] [1.0])]]
    [("w"%string, Tensor [1%nat] [1.0])] 0 0 None.

(** Two clients with one sample each; the delta of the second names a
    parameter [v] that the first does not have. *)
Definition mismatch_updates : list Update :=
  [mkUpdate (mkReport 1 0) [("w"%string, Tensor [1%nat] [2.0])];
   mkUpdate (mkReport 1 0) [("v"%string, Tensor [1%nat] [5.0])]].

Definition mismatch_deltas : list (dict tensor) :=
  [[("w"%string, Tensor [1%nat] [1.0])];
   [("v"%string, Tensor [1%nat] [5.0])]].

(** Two clients with 1 and 3 samples; the delta of the second lacks the
    parameter [w]. *)
Definition missing_updates : list Update :=
  [mkUpdate (mkReport 1 0) [("w"%string, Tensor [1%nat] [5.0])];
   mkUpdate (mkReport 3 0) []].

Definition missing_deltas : list (dict tensor) :=
  [[("w"%string, Tensor [1%nat] [4.0])]; []].

(** Two clients with 1 and 3 samples; the delta of the second holds one
    element under [w], where that of the first holds two. *)
Definition broadcast_updates : list Update :=
  [mkUpdate (mkReport 1 0) [("w"%string, Tensor [2%nat] [2.0; 2.0])];
   mkUpdate (mkReport 3 0) [("w"%string, Tensor [1%nat] [9.0])]].

Definition broadcast_deltas : list (dict tensor) :=
  [[("w"%string, Tensor [2%nat] [1.0; 1.0])];
   [("w"%string, Tensor [1%nat] [8.0])]].

(** The same two clients; the delta of the second holds three elements under
    [w]. *)
Definition shape_deltas : list (dict tensor) :=
  [[("w"%string, Tensor [2%nat] [1.0; 1.0])];
   [("w"%string, Tensor [3%nat] [8.0; 8.0; 8.0])]].

(** ** Tensor objects

    [a += b] changes the tensor object [a] in place, and every dictionary or
    list that holds [a] sees the change.  For the frame properties the
    aggregation is read a second time over a store of tensor objects:
    dictionaries and lists hold addresses, [zeros], [*], [+] and [-] make a
    new object, and [+=] writes into an old one. *)

Module Obj.

Definition ref : Type := nat.

(** The tensor objects alive, by address. *)
Definition store : Type := list tensor.

(** A computation on the store: it returns or raises, and leaves the store
    as it is at that point. *)
Definition H (A : Type) : Type := store -> result A * store.

Definition ret {A : Type} (a : A) : H A := fun h => (Ok a, h).

Definition bind {A B : Type} (c : H A) (k : A -> H B) : H B :=
  fun h =>
    match c h with
    | (Ok a, h') => k a h'
    | (Raise e, h') => (Raise e, h')
    end.

Definition lift {A : Type} (c : result A) : H A := fun h => (c, h).

Notation "x <~ c ;; k" := (bind c (fun x => k))
  (at level 61, c at next level, right associativity).

(** A new object. *)
Definition new (t : tensor) : H ref :=
  fun h => (Ok (List.length h), h ++ [t]).

(** The value of an object.  Every address a Python program holds is alive;
    an address outside the store is an error of the model. *)
Definition load (r : ref) : H tensor := fun h => (list_index h r, h).

Fixpoint replace_at (h : store) (r : ref) (t : tensor) : store :=
  match h, r with
  | [], _ => []
  | _ :: h', O => t :: h'
  | x :: h', S r' => x :: replace_at h' r' t
  end.

Definition write (r : ref) (t : tensor) : H unit :=
  fun h => (Ok tt, replace_at h r t).

(** [zeros(t.shape)]. *)
Definition zeros_like (r : ref) : H ref :=
  t <~ load r ;; new (zeros (shape t)).

(** [t * c]. *)
Definition mul (r : ref) (c : R) : H ref :=
  t <~ load r ;; new (tensor_scale t c).

(** [a + b] and [a - b]. *)
Definition add (a b : ref) : H ref :=
  x <~ load a ;; y <~ load b ;; s <~ lift (tensor_add x y) ;; new s.

Definition sub (a b : ref) : H ref :=
  x <~ load a ;; y <~ load b ;; s <~ lift (tensor_sub x y) ;; new s.

(** [a += b]: the sum is written into the object [a]. *)
Definition iadd (a b : ref) : H unit :=
  x <~ load a ;; y <~ load b ;; s <~ lift (tensor_iadd x y) ;; write a s.

Fixpoint for_each {A S : Type} (body : S -> A -> H S) (l : list A) (s : S)
  : H S :=
  match l with
  | [] => ret s
  | x :: l' => s' <~ body s x ;; for_each body l' s'
  end.

Fixpoint map_H {A B : Type} (f : A -> H B) (l : list A) : H (list B) :=
  match l with
  | [] => ret []
  | x :: l' => y <~ f x ;; ys <~ map_H f l' ;; ret (y :: ys)
  end.

(** An element of [self.updates] whose payload holds addresses. *)
Record Update : Type := mkUpdate { report : Report; payload : dict ref }.

(** The attributes of [Server.server], the model as a dictionary of
    addresses. *)
Record server : Type := mkServer {
  self_total_samples : N;
  self_current_round : Z;
  self_updates : list Update;
  self_model : dict ref;
  self_accuracy : R;
  self_accuracy_std : R
}.

Definition set_total_samples (self : server) (v : N) : server :=
  mkServer v (self_current_round self) (self_updates self) (self_model self)
           (self_accuracy self) (self_accuracy_std self).

(** [avg_update[name] += delta * (num_samples / self.total_samples)]: the
    product is a new object, the sum goes into the object that [avg_update]
    holds under [name]. *)
Definition accumulate (total_samples num_samples : N)
    (avg_update : dict ref) (item : string * ref) : H (dict ref) :=
  target <~ lift (getitem avg_update (fst item)) ;;
  w <~ lift (int_truediv num_samples total_samples) ;;
  scaled <~ mul (snd item) w ;;
  _ <~ iadd target scaled ;;
  ret (setitem avg_update (fst item) target).

Definition accumulate_update (total_samples : N) (updates : list Update)
    (avg_update : dict ref) (iu : nat * dict ref) : H (dict ref) :=
  u <~ lift (list_index updates (fst iu)) ;;
  for_each (accumulate total_samples (num_samples (report u)))
           (snd iu) avg_update.

(** [Server.aggregate_deltas] on tensor objects: the statements after the
    assignment to [self.total_samples], then the whole method on the server
    and the store. *)
Definition aggregate_loops (total_samples : N) (updates : list Update)
    (deltas_received : list (dict ref)) : H (dict ref) :=
  first <~ lift (list_index deltas_received 0) ;;
  avg_update <~ map_H (fun item => z <~ zeros_like (snd item) ;;
                                   ret (fst item, z)) first ;;
  for_each (accumulate_update total_samples updates)
           (enumerate deltas_received) avg_update.

Definition aggregate_deltas (updates : list Update)
    (deltas_received : list (dict ref)) (self : server) (h : store)
  : result (dict ref) * server * store :=
  let self :=
    set_total_samples self
      (int_sum (map (fun update => num_samples (report update)) updates)) in
  let rh := aggregate_loops (self_total_samples self) updates
                            deltas_received h in
  (fst rh, self, snd rh).

(** The values behind the addresses of a dictionary. *)
Definition deref (h : store) (d : dict ref) : result (dict tensor) :=
  map_result (fun item => t <- list_index h (snd item) ;; Ok (fst item, t)) d.

(** [c] leaves the objects below address [n] as they are, and what it returns
    satisfies [Q]. *)
Definition frames {A : Type} (n : nat) (c : H A) (Q : A -> Prop) : Prop :=
  forall h : store,
    (n <= List.length h)%nat ->
    (n <= List.length (snd (c h)))%nat
    /\ firstn n (snd (c h)) = firstn n h
    /\ forall a, fst (c h) = Ok a -> Q a.

(** A dictionary that holds no object below address [n]. *)
Definition all_new (n : nat) (d : dict ref) : Prop :=
  Forall (fun item => (n <= snd item)%nat) d.

End Obj.

(** ** [servers/fedavg.py] and [trainers/trainer.py] on tensor objects *)

Module ObjFedAvgServer.

Record Report : Type := mkReport {
  num_samples : N;
  accuracy : R;
  weights : dict Obj.ref
}.

Record server : Type := mkServer {
  self_total_samples : N;
  self_model : dict Obj.ref
}.

(** [Trainer.compute_weight_updates]: every delta is a new object. *)
Definition compute_weight_updates (model : dict Obj.ref)
    (weights_received : list (dict Obj.ref))
  : Obj.H (list (list (string * Obj.ref))) :=
  let baseline_weights := model in
  Obj.map_H
    (fun weight =>
       Obj.for_each
         (fun update item =>
            Obj.bind (Obj.lift (getitem baseline_weights (fst item)))
              (fun baseline =>
                 Obj.bind (Obj.sub (snd item) baseline)
                   (fun delta => Obj.ret (update ++ [(fst item, delta)]))))
         weight [])
    weights_received.

(** [avg_update[j] += delta * (num_samples / self.total_samples)]. *)
Definition accumulate (total_samples num_samples : N)
    (avg_update : list Obj.ref) (jd : nat * (string * Obj.ref))
  : Obj.H (list Obj.ref) :=
  Obj.bind (Obj.lift (list_index avg_update (fst jd)))
    (fun target =>
       Obj.bind (Obj.lift (int_truediv num_samples total_samples))
         (fun w =>
            Obj.bind (Obj.mul (snd (snd jd)) w)
              (fun scaled =>
                 Obj.bind (Obj.iadd target scaled)
                   (fun _ =>
                      Obj.lift (FedAvgServer.list_set avg_update (fst jd)
                                                      target))))).

Definition accumulate_update (total_samples : N) (reports : list Report)
    (avg_update : list Obj.ref) (iu : nat * list (string * Obj.ref))
  : Obj.H (list Obj.ref) :=
  Obj.bind (Obj.lift (list_index reports (fst iu)))
    (fun r =>
       Obj.for_each (accumulate total_samples (num_samples r))
                    (enumerate (snd iu)) avg_update).

(** [weight + avg] for a string [weight] and a tensor object [avg]. *)
Definition str_add (weight : string) (avg : Obj.ref) : Obj.H Obj.ref :=
  Obj.lift (Raise TypeError).

(** [FedAvgServer.federated_averaging] on tensor objects. *)
Definition federated_averaging (self : server) (reports : list Report)
    (h : Obj.store)
  : result (list (string * Obj.ref)) * server * Obj.store :=
  match compute_weight_updates (self_model self) (map weights reports) h with
  | (Raise e, h) => (Raise e, self, h)
  | (Ok updates, h) =>
      let self := mkServer (int_sum (map num_samples reports))
                           (self_model self) in
      let rh :=
        Obj.bind (Obj.lift (list_index updates 0))
          (fun first =>
             Obj.bind (Obj.map_H (fun nx => Obj.zeros_like (snd nx)) first)
               (fun avg_update =>
                  Obj.bind
                    (Obj.for_each
                       (accumulate_update (self_total_samples self) reports)
                       (enumerate updates) avg_update)
                    (fun avg_update =>
                       let baseline_weights := self_model self in
                       Obj.for_each
                         (fun updated_weights ik =>
                            Obj.bind (Obj.lift (FedAvgServer.unpack_pair (snd ik)))
                              (fun nw =>
                                 Obj.bind
                                   (Obj.lift (list_index avg_update (fst ik)))
                                   (fun avg =>
                                      Obj.bind (str_add (snd nw) avg)
                                        (fun w =>
                                           Obj.ret (updated_weights
                                                    ++ [(fst nw, w)])))))
                         (enumerate (keys baseline_weights)) []))) h in
      (fst rh, self, snd rh)
  end.

End ObjFedAvgServer.

(** The aggregation scenario for [FedAvgServer]: the server holds the
    baseline, the reports carry the weights. *)
Definition legacy_scenario_server : FedAvgServer.server :=
  FedAvgServer.mkServer 0 scenario_baseline.

Definition legacy_scenario_reports : list FedAvgServer.Report :=
  [FedAvgServer.mkReport 1 0 [("w"%string, Tensor [2%nat] [1.0; 1.0])];
   FedAvgServer.mkReport 3 0 [("w"%string, Tensor [2%nat] [5.0; 1.0])]].

(** The aggregation scenario on tensor objects: the store holds the baseline
    at address 0 and the two deltas at addresses 1 and 2. *)
Definition scenario_store : Obj.store :=
  [Tensor [2%nat] [1.0; 1.0]; Tensor [2%nat] [0.0; 0.0];
   Tensor [2%nat] [4.0; 0.0]].

Definition scenario_delta_refs : list (dict Obj.ref) :=
  [[("w"%string, 1%nat)]; [("w"%string, 2%nat)]].

Definition scenario_obj_updates : list Obj.Update :=
  [Obj.mkUpdate (mkReport 1 0) []; Obj.mkUpdate (mkReport 3 0) []].

Definition scenario_obj_server : Obj.server :=
  Obj.mkServer 0 1 scenario_obj_updates [("w"%string, 0%nat)] 0 0.

(** The items of a dictionary of addresses and their values in the store
    [h]: the same names in the same order, every address alive. *)
Definition values_of (h : Obj.store) (d : dict Obj.ref) (dv : dict tensor)
  : Prop :=
  Forall2 (fun ir iv => fst ir = fst iv /\ nth_error h (snd ir) = Some (snd iv))
          d dv.

(** The dictionary [avg] of new, distinct objects holds the values [avg_v] in
    the store [h], which still starts with the old store [h0]. *)
Definition represents (h0 h : Obj.store) (avg : dict Obj.ref)
    (avg_v : dict tensor) : Prop :=
  firstn (List.length h0) h = h0
  /\ values_of h avg avg_v
  /\ NoDup (map snd avg)
  /\ Obj.all_new (List.length h0) avg.

(** ** Round timings and logged items *)

(** [max(l)] on floats: [ValueError] on an empty sequence, and otherwise the
    scan that keeps the first of the largest items. *)
Definition float_max (l : list R) : result R :=
  match l with
  | [] => Raise ValueError
  | x :: l' => Ok (fold_left (fun m y => if Rlt_dec m y then y else m) l' x)
  end.

Module Logged.

(** The timings that [get_logged_items] reads in [update.report]. *)
Record Timings : Type := mkTimings {
  training_time : R;
  processing_time : R;
  comm_time : R
}.

(** The attributes of [self] that [get_logged_items] reads; [self_updates]
    holds the timings of the reports of [self.updates]. *)
Record server : Type := mkServer {
  self_current_round : Z;
  self_accuracy : R;
  self_accuracy_std : R;
  self_wall_time : R;
  self_initial_wall_time : R;
  self_comm_overhead : R;
  self_updates : list Timings
}.

(** [Server.get_logged_items]: the dictionary literal, its values computed in
    the order of the source. *)
Definition get_logged_items (self : server) : result (dict R) :=
  let round := IZR (self_current_round self) in
  let accuracy := self_accuracy self in
  let accuracy_std := self_accuracy_std self in
  let elapsed_time := self_wall_time self - self_initial_wall_time self in
  processing <- float_max (map processing_time (self_updates self)) ;;
  comm <- float_max (map comm_time (self_updates self)) ;;
  round_time <- float_max
                  (map (fun report =>
                          training_time report + processing_time report
                          + comm_time report)
                       (self_updates self)) ;;
  Ok [("round"%string, round);
      ("accuracy"%string, accuracy);
      ("accuracy_std"%string, accuracy_std);
      ("elapsed_time"%string, elapsed_time);
      ("processing_time"%string, processing);
      ("comm_time"%string, comm);
      ("round_time"%string, round_time);
      ("comm_overhead"%string, self_comm_overhead self)].

End Logged.

Module FedAvgTimes.

(** The timings of a report in [servers/fedavg.py]. *)
Record Timings : Type := mkTimings {
  first_communication_time : R;
  second_communication_time : R;
  training_time : R
}.

(** [FedAvgServer.computing_communication_time]. *)
Definition computing_communication_time (reports : list Timings) : result R :=
  float_max (map (fun report =>
                    first_communication_time report
                    + second_communication_time report) reports).

(** [FedAvgServer.computing_training_time]. *)
Definition computing_training_time (reports : list Timings) : result R :=
  float_max (map training_time reports).

(** [FedAvgServer.computing_round_time]. *)
Definition computing_round_time (reports : list Timings) : result R :=
  float_max (map (fun report =>
                    first_communication_time report + training_time report
                    + second_communication_time report) reports).

(** The body of [wrap_up_processing_reports] under [if Config().results]:
    for every recorded item the dictionary literal is built, all its values
    computed, and the item looked up in it.  [write_csv] receives the row. *)
Definition wrap_up_processing_reports (recorded_items : list string)
    (current_round : Z) (accuracy : R) (reports : list Timings)
  : result (list R) :=
  for_each
    (fun new_row item =>
       communication_time <- computing_communication_time reports ;;
       training <- computing_training_time reports ;;
       round_time <- computing_round_time reports ;;
       item_value <- getitem [("round"%string, IZR current_round);
                              ("accuracy"%string, accuracy * 100);
                              ("communication_time"%string, communication_time);
                              ("training_time"%string, training);
                              ("round_time"%string, round_time)] item ;;
       Ok (new_row ++ [item_value]))
    recorded_items [].

End FedAvgTimes.

(** ** [Trainer.test_process] *)

Module TrainerTest.

Section TestProcess.

(** The examples of the test set, and what [self.model(examples)] (or
    [forward_from]) followed by [torch.max(outputs.data, 1)] gives for a batch:
    one predicted label per example. *)
Variable example : Type.
Variable predict : list example -> list Z.

(** [(predicted == labels).sum().item()] on two vectors of one length. *)
Fixpoint count_equal (predicted labels : list Z) : N :=
  match predicted, labels with
  | p :: predicted', l :: labels' =>
      ((if Z.eqb p l then 1 else 0) + count_equal predicted' labels')%N
  | _, _ => 0%N
  end.

(** The loop of [test_process] over the batches of [test_loader]:
    [(correct, total)]. *)
Definition count_batches (test_loader : list (list example * list Z))
  : N * N :=
  fold_left
    (fun ct batch =>
       let predicted := predict (fst batch) in
       let total := (snd ct + N.of_nat (List.length (snd batch)))%N in
       let correct := (fst ct + count_equal predicted (snd batch))%N in
       (correct, total))
    test_loader (0%N, 0%N).

(** [Trainer.test_process]: the accuracy it hands to [save_accuracy]. *)
Definition test_process (test_loader : list (list example * list Z))
  : result R :=
  let ct := count_batches test_loader in
  int_truediv (fst ct) (snd ct).

End TestProcess.

End TrainerTest.

(** ** [Server.init_trainer] *)

Module ServerInit.

Section InitTrainer.

(** Models, trainers and algorithms, and the two registries.  A custom
    trainer or algorithm is a class, called with [model=] or [trainer=]. *)
Variables Model TrainerT AlgorithmT : Type.
Variable trainers_registry_get : option Model -> TrainerT.
Variable algorithms_registry_get : option TrainerT -> AlgorithmT.

Record server : Type := mkServer {
  custom_model : option Model;
  model : option Model;
  custom_algorithm : option (option TrainerT -> AlgorithmT);
  algorithm : option AlgorithmT;
  custom_trainer : option (option Model -> TrainerT);
  trainer : option TrainerT
}.

(** [Server.init_trainer]. *)
Definition init_trainer (self : server) : server :=
  let model :=
    match model self, custom_model self with
    | None, Some m => Some m
    | _, _ => model self
    end in
  let trainer :=
    match trainer self, custom_trainer self with
    | None, None => Some (trainers_registry_get model)
    | None, Some custom => Some (custom model)
    | _, _ => trainer self
    end in
  let algorithm :=
    match algorithm self, custom_algorithm self with
    | None, None => Some (algorithms_registry_get trainer)
    | None, Some custom => Some (custom trainer)
    | _, _ => algorithm self
    end in
  mkServer (custom_model self) model (custom_algorithm self) algorithm
           (custom_trainer self) trainer.

End InitTrainer.

Arguments custom_model {Model TrainerT AlgorithmT} s.
Arguments model {Model TrainerT AlgorithmT} s.
Arguments custom_algorithm {Model TrainerT AlgorithmT} s.
Arguments algorithm {Model TrainerT AlgorithmT} s.
Arguments custom_trainer {Model TrainerT AlgorithmT} s.
Arguments trainer {Model TrainerT AlgorithmT} s.
Arguments init_trainer {Model TrainerT AlgorithmT}
  trainers_registry_get algorithms_registry_get self.

End ServerInit.

(** A round of two clients with their timings. *)
Definition logged_scenario : Logged.server :=
  Logged.mkServer 3 0.5 0.1 20 5 0
    [Logged.mkTimings 4 1 2; Logged.mkTimings 1 3 1].

(** ** Test sets

    The number of right predictions and the number of labels of a test set
    that comes in batches. *)
Fixpoint correct_of {example : Type} (predict : list example -> list Z)
    (test_loader : list (list example * list Z)) : N :=
  match test_loader with
  | [] => 0%N
  | batch :: rest =>
      (TrainerTest.count_equal (predict (fst batch)) (snd batch)
       + correct_of predict rest)%N
  end.

Fixpoint total_of {example : Type}
    (test_loader : list (list example * list Z)) : N :=
  match test_loader with
  | [] => 0%N
  | batch :: rest => (N.of_nat (List.length (snd batch)) + total_of rest)%N
  end.

(** A model that returns the number of each example as its label, and a test
    set of two batches that it labels right. *)
Definition echo_model (examples : list nat) : list Z := map Z.of_nat examples.

Definition echo_test_set : list (list nat * list Z) :=
  [([1%nat; 2%nat], [1%Z; 2%Z]); ([3%nat], [3%Z])].

(** A report of [servers/fedavg.py] as an update of
    [plato/servers/fedavg.py]: the same number of samples, accuracy and
    weights. *)
Definition as_update (r : FedAvgServer.Report) : Update :=
  mkUpdate (mkReport (FedAvgServer.num_samples r) (FedAvgServer.accuracy r))
           (FedAvgServer.weights r).

(** Two clients that send the same delta. *)
Definition consensus_delta : dict tensor :=
  [("w"%string, Tensor [2%nat] [4.0; 0.0])].

Definition consensus_deltas : list (dict tensor) :=
  [consensus_delta; consensus_delta].

(** A server in round 1 whose model and only report hold zeros, and that
    takes the accuracy from its clients. *)
Definition quiet_server : Server.server :=
  Server.mkServer 0 1
    [mkUpdate (mkReport 2 0.5) [("w"%string, Tensor [1%nat] [0])]]
    [("w"%string, Tensor [1%nat] [0])] 0 0 (Some false).

(** A computation that raises, if it raises, one of the exceptions in
    [allowed]. *)
Definition raises_only {A : Type} (allowed : list exn) (c : result A) : Prop :=
  forall e, c = Raise e -> In e allowed.

(** The update [u] with the accuracy [a] in its report. *)
Definition with_accuracy (a : R) (u : Update) : Update :=
  mkUpdate (mkReport (num_samples (report u)) a) (payload u).

(** * Properties *)

Lemma fold_left_Rplus_acc (l : list R) (a : R) :
  fold_left Rplus l a = a + fold_left Rplus l 0.
Proof.
  revert a. induction l as [|x l IH]; intros a; simpl.
  - lra.
  - rewrite (IH (a + x)), (IH (0 + x)). lra.
Qed.

Lemma float_sum_cons (x : R) (l : list R) :
  float_sum (x :: l) = x + float_sum l.
Proof. unfold float_sum. simpl. rewrite fold_left_Rplus_acc. lra. Qed.

Lemma float_sum_fold_right (l : list R) :
  float_sum l = fold_right Rplus 0 l.
Proof.
  induction l as [|x l IH]; [reflexivity|].
  rewrite float_sum_cons, IH. reflexivity.
Qed.

Lemma fold_left_Nadd_acc (l : list N) (a : N) :
  fold_left N.add l a = (a + fold_left N.add l 0)%N.
Proof.
  revert a. induction l as [|x l IH]; intros a; simpl.
  - lia.
  - rewrite (IH (a + x)%N), (IH x). lia.
Qed.

Lemma int_sum_cons (x : N) (l : list N) :
  int_sum (x :: l) = (x + int_sum l)%N.
Proof. unfold int_sum. simpl. rewrite fold_left_Nadd_acc. reflexivity. Qed.

Lemma ln_neq_0 (b : R) : 0 < b -> b <> 1 -> ln b <> 0.
Proof.
  intros Hpos Hne Hln. apply Hne. apply ln_inv; [assumption | lra |].
  rewrite ln_1. assumption.
Qed.

Lemma math_log_ok (x b : R) :
  0 < x -> 0 < b -> b <> 1 -> Server.math_log x b = Ok (log_base b x).
Proof.
  intros Hx Hb Hb1. unfold Server.math_log.
  destruct (Rle_dec x 0); [lra|].
  destruct (Rle_dec b 0); [lra|].
  destruct (Req_dec_T (ln b) 0) as [E|_]; [|reflexivity].
  exfalso. exact (ln_neq_0 b Hb Hb1 E).
Qed.

Lemma stopping_time_sound (numerator : option R) (denominator lambda_value : R) :
  exists t, Server.stopping_time numerator denominator lambda_value = Ok t
            /\ t_spec numerator denominator lambda_value t.
Proof.
  destruct numerator as [num|]; simpl; [|exists (-1); split; reflexivity].
  unfold Server.stopping_time.
  destruct (Rlt_dec 0 num) as [Hn|Hn];
    [|exists (-1); split; [reflexivity|split; [intros (?&_); tauto|reflexivity]]].
  destruct (Rlt_dec 0 denominator) as [Hd|Hd];
    [|exists (-1); split; [reflexivity|split; [intros (_&?&_); tauto|reflexivity]]].
  destruct (Rlt_dec 0 lambda_value) as [Hl|Hl];
    [|exists (-1); split; [reflexivity|split; [intros (_&_&?&_); tauto|reflexivity]]].
  destruct (Req_dec_T lambda_value 1) as [H1|H1];
    [exists (-1); split; [reflexivity|split; [intros (_&_&_&?); tauto|reflexivity]]|].
  exists (log_base lambda_value (num / denominator)).
  split.
  - unfold float_truediv. destruct (Req_dec_T denominator 0); [lra|].
    simpl. apply math_log_ok; try assumption.
    apply Rdiv_lt_0_compat; assumption.
  - split; [reflexivity|]. intros H. exfalso. apply H. repeat split; assumption.
Qed.

Lemma aggregate_deltas_run (updates : list Update)
    (deltas_received : list (dict tensor)) (self : Server.server) :
  Server.aggregate_deltas updates deltas_received self
  = (fst (Server.aggregate_deltas updates deltas_received self),
     Server.set_total_samples self (total_samples_of updates)).
Proof. reflexivity. Qed.

Lemma check_stop_run (t : R) (self : Server.server) :
  Server.check_stop t self
  = if Rle_dec (IZR (Server.self_current_round self)) t
    then (Raise StopIteration, self) else (Ok tt, self).
Proof.
  unfold Server.check_stop, Server.bindM, Server.get. simpl.
  destruct (Rle_dec _ t); reflexivity.
Qed.

Lemma estimate_ok (w : dict tensor) : exists t, Server.estimate w = Ok t.
Proof.
  unfold Server.estimate. cbv zeta.
  destruct (stopping_time_sound
    (option_map (fun delta_g => delta_g - 4 * 1.0 * (0.04 * 0.2 + 0.1) / (0.3 * (8 + 3 * 1))) (Server.s_average w))
    (1.0 / 0.3 * 18 - 1) (1 - 0.04 * 0.3 * (1 + 3 * 1 / 8))) as (t & Ht & _).
  exists t. exact Ht.
Qed.

Ltac run_method :=
  unfold Server._process_reports_body, Server.clients_processed,
    Server.weights_received,
    Server.bindM, Server.get, Server.lift, Server.assign, Server.ret,
    Server.raise;
  cbv beta iota zeta.

(** A failure of the aggregation leaves the body at once: the server is as
    it was, or has the new [total_samples] only. *)
Lemma process_reports_body_failure (trainer_test : dict tensor -> R)
    (on_clients_processed : Server.server -> result unit)
    (self : Server.server) (e : exn) :
  aggregated_weights self = Raise e ->
  fst (Server._process_reports_body trainer_test on_clients_processed self)
  = Raise e
  /\ (snd (Server._process_reports_body trainer_test on_clients_processed
                                        self) = self
      \/ snd (Server._process_reports_body trainer_test on_clients_processed
                                           self)
         = Server.set_total_samples self
             (total_samples_of (Server.self_updates self))).
Proof.
  unfold aggregated_weights. intros H. run_method.
  destruct (Algorithm.compute_weight_deltas _ _) as [dr|e0]; cbv beta iota;
    [|inversion H; subst; split; [reflexivity|left; reflexivity]].
  change (deltas <- fst (Server.aggregate_deltas (Server.self_updates self)
                                                 dr self) ;;
          Algorithm.update_weights (Server.self_model self) deltas = Raise e)
    in H.
  rewrite aggregate_deltas_run.
  destruct (fst (Server.aggregate_deltas (Server.self_updates self) dr self))
    as [deltas|e1];
    [|inversion H; subst; split; [reflexivity|right; reflexivity]].
  change (Algorithm.update_weights (Server.self_model self) deltas = Raise e)
    in H.
  cbn [Server.self_model Server.set_total_samples]. rewrite H.
  split; [reflexivity|right; reflexivity].
Qed.

Lemma int_truediv_ok (a b : N) :
  b <> 0%N -> int_truediv a b = Ok (IZR (Z.of_N a) / IZR (Z.of_N b)).
Proof.
  intros Hb. unfold int_truediv.
  destruct (N.eqb_spec b 0); [contradiction|reflexivity].
Qed.

Lemma client_weights_ok (total : N) (l : list Update) :
  total <> 0%N ->
  map_result (fun update => int_truediv (num_samples (report update)) total) l
  = Ok (map (fun update =>
               IZR (Z.of_N (num_samples (report update))) / IZR (Z.of_N total))
            l).
Proof.
  intros Ht. induction l as [|u l IH]; [reflexivity|].
  simpl. rewrite int_truediv_ok by assumption. simpl. rewrite IH. reflexivity.
Qed.

(** Looking the weights up by the index that [enumerate] gives. *)
Lemma enumerate_lookup (g : R -> R -> R) (acc w : Update -> R)
    (pre l : list Update) :
  map_result
    (fun ia => x <- list_index (map w (pre ++ l)) (fst ia) ;; Ok (g (snd ia) x))
    (enumerate_from (List.length pre) (map acc l))
  = Ok (map (fun u => g (acc u) (w u)) l).
Proof.
  revert pre. induction l as [|u l IH]; intros pre; [reflexivity|].
  simpl. unfold list_index at 1.
  rewrite nth_error_map, nth_error_app2 by lia.
  rewrite Nat.sub_diag. simpl.
  specialize (IH (pre ++ [u])).
  rewrite <- app_assoc, length_app, Nat.add_1_r in IH. simpl in IH.
  rewrite IH. reflexivity.
Qed.

Lemma get_accuracy_mean_std_ok (updates : list Update) :
  total_samples_of updates <> 0%N ->
  Server.get_accuracy_mean_std updates
  = Ok (mean_spec updates, sqrt (variance_spec updates)).
Proof.
  intros Ht. unfold Server.get_accuracy_mean_std. cbv zeta.
  fold (total_samples_of updates).
  rewrite client_weights_ok by assumption.
  cbn [bind]. unfold enumerate.
  pose proof (enumerate_lookup Rmult (fun u => accuracy (report u))
                (aggregation_weight updates) [] updates) as Hm.
  cbn [app List.length] in Hm. unfold aggregation_weight in Hm at 1.
  rewrite Hm. cbn [bind].
  rewrite float_sum_fold_right. fold (mean_spec updates).
  pose proof (enumerate_lookup (fun a x => (a - mean_spec updates) ^ 2 * x)
                (fun u => accuracy (report u))
                (aggregation_weight updates) [] updates) as Hv.
  cbn [app List.length] in Hv. unfold aggregation_weight in Hv at 1.
  rewrite Hv. cbn [bind].
  rewrite float_sum_fold_right. reflexivity.
Qed.

Lemma get_accuracy_mean_std_nil :
  Server.get_accuracy_mean_std [] = Ok (0, 0).
Proof.
  unfold Server.get_accuracy_mean_std. cbn. unfold float_sum. cbn.
  rewrite sqrt_0. reflexivity.
Qed.

Lemma get_accuracy_mean_std_zero (updates : list Update) :
  updates <> [] -> total_samples_of updates = 0%N ->
  Server.get_accuracy_mean_std updates = Raise ZeroDivisionError.
Proof.
  intros Hne H0. unfold Server.get_accuracy_mean_std. cbv zeta.
  fold (total_samples_of updates). rewrite H0.
  destruct updates as [|u l]; [contradiction|]. reflexivity.
Qed.

Lemma sum_squares_column (p : list R) :
  float_sum (map (fun row => hd 0 row * hd 0 row) (Server.reshape_column p))
  = fold_right (fun x acc => x * x + acc) 0 p.
Proof.
  rewrite float_sum_fold_right. unfold Server.reshape_column.
  induction p as [|x p IH]; [reflexivity|].
  simpl. rewrite IH. reflexivity.
Qed.

Lemma svd_S_column (p : list R) :
  p <> [] -> Server.svd_S (Server.reshape_column p) = [euclidean_norm p].
Proof.
  intros Hp. unfold euclidean_norm. rewrite <- sum_squares_column.
  destruct p as [|x p]; [contradiction|reflexivity].
Qed.

Lemma svd_S_empty : Server.svd_S (Server.reshape_column []) = [].
Proof. reflexivity. Qed.

(** A parameter without elements adds no singular value. *)
Lemma all_s_values_norms (w : dict tensor) (acc : list R) :
  fold_left (fun acc p_arr => acc ++ Server.svd_S (Server.reshape_column p_arr))
            (map (fun item => Server.flatten (snd item)) w) acc
  = acc ++ param_norms (nonempty_params w).
Proof.
  revert acc. induction w as [|[name t] w IH]; intros acc.
  - simpl. rewrite app_nil_r. reflexivity.
  - cbn [map fold_left snd nonempty_params filter]. rewrite IH.
    unfold Server.flatten. destruct (data t) as [|x p] eqn:Hd.
    + rewrite svd_S_empty, app_nil_r. reflexivity.
    + rewrite svd_S_column by discriminate.
      unfold param_norms at 2, Server.flatten. cbn [map snd].
      rewrite Hd, <- app_assoc. reflexivity.
Qed.

Lemma sqrt_25 : sqrt (3 * 3 + (4 * 4 + 0)) = 5.
Proof.
  replace (3 * 3 + (4 * 4 + 0)) with (5 * 5) by lra. apply sqrt_square. lra.
Qed.

Lemma all_s_values_value (updated_weights : dict tensor) :
  Server.all_s_values updated_weights
  = param_norms (nonempty_params updated_weights).
Proof.
  unfold Server.all_s_values. cbv zeta. rewrite all_s_values_norms.
  reflexivity.
Qed.

Lemma np_mean_cons (x : R) (l : list R) :
  Server.np_mean (x :: l) = Some (arithmetic_mean (x :: l)).
Proof.
  unfold Server.np_mean, arithmetic_mean. rewrite float_sum_fold_right.
  reflexivity.
Qed.

(** C10, as the code has it: the global drift magnitude is the arithmetic
    mean of the Euclidean norms of the flattened parameters that hold at
    least one element, each norm the single singular value of its column;
    a parameter without elements has no singular value and is not counted,
    and when no parameter holds an element the mean is [nan]. *)
Theorem global_drift_is_mean_norm (updated_weights : dict tensor) :
  Server.all_s_values updated_weights
  = param_norms (nonempty_params updated_weights)
  /\ Server.s_average updated_weights
     = match nonempty_params updated_weights with
       | [] => None
       | params => Some (arithmetic_mean (param_norms params))
       end.
Proof.
  split; [apply all_s_values_value|].
  unfold Server.s_average. rewrite all_s_values_value.
  destruct (nonempty_params updated_weights) as [|item w]; [reflexivity|].
  unfold param_norms. cbn [map]. apply np_mean_cons.
Qed.

(** C10, as the specification states it, fails: of the parameters [w] with
    the elements 3 and 4 and [e] without elements, the code averages the one
    singular value 5, where the mean of the two norms is 5 / 2. *)
Lemma global_drift_skips_empty_parameter :
  Server.s_average empty_param_weights = Some 5
  /\ arithmetic_mean (param_norms empty_param_weights) = 5 / 2
  /\ Server.s_average empty_param_weights
     <> Some (arithmetic_mean (param_norms empty_param_weights)).
Proof.
  assert (Hs : Server.s_average empty_param_weights = Some 5).
  { unfold Server.s_average. rewrite all_s_values_value.
    unfold param_norms, euclidean_norm, Server.flatten, empty_param_weights.
    cbn [nonempty_params filter map snd data fold_right].
    rewrite sqrt_25, np_mean_cons. unfold arithmetic_mean.
    cbn [fold_right List.length INR]. f_equal. lra. }
  assert (Hm : arithmetic_mean (param_norms empty_param_weights) = 5 / 2).
  { unfold arithmetic_mean, param_norms, euclidean_norm, Server.flatten,
      empty_param_weights.
    cbn [map fold_right snd data List.length INR].
    rewrite sqrt_25, sqrt_0. lra. }
  split; [exact Hs|]. split; [exact Hm|].
  rewrite Hs, Hm. intros H. injection H as H. lra.
Qed.

Lemma weighted_sum_bounds (f : Update -> R) (lo hi T : R) (l : list Update) :
  0 < T ->
  Forall (fun u => lo <= f u <= hi) l ->
  lo * (IZR (Z.of_N (int_sum (map (fun u => num_samples (report u)) l))) / T)
  <= fold_right Rplus 0
       (map (fun u => f u * (IZR (Z.of_N (num_samples (report u))) / T)) l)
  <= hi * (IZR (Z.of_N (int_sum (map (fun u => num_samples (report u)) l))) / T).
Proof.
  intros HT Hall. induction Hall as [|u l Hu Hl IH].
  - unfold int_sum. simpl. lra.
  - cbn [map fold_right]. rewrite int_sum_cons, N2Z.inj_add, plus_IZR.
    assert (Hn : 0 <= IZR (Z.of_N (num_samples (report u))) / T).
    { apply Rmult_le_pos; [apply IZR_le; lia|].
      apply Rlt_le, Rinv_0_lt_compat, HT. }
    set (w := IZR (Z.of_N (num_samples (report u))) / T) in *.
    set (W := IZR (Z.of_N (int_sum (map (fun u => num_samples (report u)) l)))
              / T) in *.
    replace ((IZR (Z.of_N (num_samples (report u)))
              + IZR (Z.of_N (int_sum (map (fun u => num_samples (report u)) l))))
             / T) with (w + W) by (unfold w, W; field; lra).
    assert (lo * w <= f u * w) by (apply Rmult_le_compat_r; lra).
    assert (f u * w <= hi * w) by (apply Rmult_le_compat_r; lra).
    lra.
Qed.

Lemma weighted_sum_unit (f : Update -> R) (lo hi : R) (updates : list Update) :
  total_samples_of updates <> 0%N ->
  Forall (fun u => lo <= f u <= hi) updates ->
  lo <= fold_right Rplus 0
          (map (fun u => f u * aggregation_weight updates u) updates) <= hi.
Proof.
  intros Hne Hall.
  assert (HT : 0 < IZR (Z.of_N (total_samples_of updates)))
    by (apply IZR_lt; lia).
  pose proof (weighted_sum_bounds f lo hi _ updates HT Hall) as H.
  fold (total_samples_of updates) in H.
  unfold Rdiv in H. rewrite Rinv_r in H by lra.
  unfold aggregation_weight. unfold Rdiv. lra.
Qed.

Lemma accuracy_in_range (updates : list Update) (lo hi : R) :
  (0 < total_samples_of updates)%N ->
  Forall (fun update => lo <= accuracy (report update) <= hi) updates ->
  exists mean std,
    Server.get_accuracy_mean_std updates = Ok (mean, std)
    /\ lo <= mean <= hi
    /\ 0 <= std <= hi - lo.
Proof.
  intros Hpos Hall.
  assert (Hne : total_samples_of updates <> 0%N) by lia.
  rewrite (get_accuracy_mean_std_ok updates Hne).
  exists (mean_spec updates), (sqrt (variance_spec updates)).
  split; [reflexivity|].
  assert (Hm : lo <= mean_spec updates <= hi)
    by (apply (weighted_sum_unit (fun u => accuracy (report u))); assumption).
  split; [exact Hm|].
  assert (Hv : 0 <= variance_spec updates <= (hi - lo) * (hi - lo)).
  { apply (weighted_sum_unit
             (fun u => (accuracy (report u) - mean_spec updates) ^ 2));
      [exact Hne|].
    rewrite Forall_forall in *. intros u Hu. specialize (Hall u Hu).
    split; [apply pow2_ge_0|]. nra. }
  split; [apply sqrt_pos|].
  rewrite <- (sqrt_square (hi - lo)) by lra.
  apply sqrt_le_1_alt. lra.
Qed.

Lemma sum_weights (T : R) (l : list Update) :
  fold_right Rplus 0
    (map (fun u => IZR (Z.of_N (num_samples (report u))) / T) l)
  = IZR (Z.of_N (int_sum (map (fun u => num_samples (report u)) l))) / T.
Proof.
  induction l as [|u l IH].
  - simpl. unfold Rdiv. lra.
  - cbn [map fold_right]. rewrite IH, int_sum_cons, N2Z.inj_add, plus_IZR.
    unfold Rdiv. lra.
Qed.

(** ** Dictionaries *)

Lemma dict_get_setitem_eq {V : Type} (d : dict V) (k : string) (v : V) :
  dict_get (setitem d k v) k = Some v.
Proof.
  induction d as [|[k' v'] d IH]; simpl.
  - rewrite String.eqb_refl. reflexivity.
  - destruct (String.eqb_spec k' k) as [E|E]; simpl.
    + subst. rewrite String.eqb_refl. reflexivity.
    + destruct (String.eqb_spec k' k); [contradiction|]. exact IH.
Qed.

Lemma dict_get_setitem_neq {V : Type} (d : dict V) (k k' : string) (v : V) :
  k' <> k -> dict_get (setitem d k v) k' = dict_get d k'.
Proof.
  intros Hne. induction d as [|[k0 v0] d IH]; simpl.
  - destruct (String.eqb_spec k k'); [congruence|reflexivity].
  - destruct (String.eqb_spec k0 k) as [E|E]; simpl.
    + subst. destruct (String.eqb_spec k k'); [congruence|reflexivity].
    + destruct (String.eqb_spec k0 k'); [reflexivity|exact IH].
Qed.

Lemma dict_get_In {V : Type} (d : dict V) (k : string) (v : V) :
  dict_get d k = Some v -> In (k, v) d.
Proof.
  induction d as [|[k' v'] d IH]; simpl; [discriminate|].
  destruct (String.eqb_spec k' k) as [E|E].
  - intros H. inversion H; subst. left. reflexivity.
  - intros H. right. apply IH. assumption.
Qed.

Lemma In_dict_get {V : Type} (d : dict V) (k : string) (v : V) :
  In (k, v) d -> exists v', dict_get d k = Some v'.
Proof.
  induction d as [|[k' v'] d IH]; simpl; [contradiction|].
  intros [E|Hin].
  - inversion E; subst. rewrite String.eqb_refl. eauto.
  - destruct (String.eqb k' k); [eauto|]. apply IH. assumption.
Qed.

Lemma unique_keys_In_get {V : Type} (d : dict V) (k : string) (v : V) :
  unique_keys d = true -> In (k, v) d -> dict_get d k = Some v.
Proof.
  induction d as [|[k' v'] d IH]; simpl; [contradiction|].
  intros Hu [E|Hin].
  - inversion E; subst. rewrite String.eqb_refl. reflexivity.
  - destruct (dict_get d k') eqn:Hk'; [discriminate|].
    destruct (String.eqb_spec k' k) as [E|E].
    + subst. destruct (In_dict_get d k v Hin) as [v0 Hv0]. congruence.
    + apply IH; assumption.
Qed.

Lemma dict_get_schema (d : dict tensor) (k : string) :
  dict_get (schema d) k = option_map shape (dict_get d k).
Proof.
  induction d as [|[k' t] d IH]; simpl; [reflexivity|].
  destruct (String.eqb k' k); [reflexivity|exact IH].
Qed.

Lemma schema_setitem (d : dict tensor) (k : string) (t0 t : tensor) :
  dict_get d k = Some t0 -> shape t = shape t0 ->
  schema (setitem d k t) = schema d.
Proof.
  intros Hget Hsh. induction d as [|[k' t'] d IH]; simpl in *; [discriminate|].
  destruct (String.eqb_spec k' k) as [E|E]; simpl.
  - inversion Hget; subst. rewrite Hsh. reflexivity.
  - rewrite IH by assumption. reflexivity.
Qed.

Lemma tensors_wf_setitem (d : dict tensor) (k : string) (t : tensor) :
  forallb (fun item => tensor_wf (snd item)) d = true ->
  tensor_wf t = true ->
  forallb (fun item => tensor_wf (snd item)) (setitem d k t) = true.
Proof.
  intros Hd Ht. induction d as [|[k' t'] d IH]; simpl in *.
  - rewrite Ht. reflexivity.
  - apply andb_prop in Hd as [H1 H2].
    destruct (String.eqb k' k); simpl.
    + rewrite Ht, H2. reflexivity.
    + rewrite H1, IH by assumption. reflexivity.
Qed.

Lemma tensors_wf_get (d : dict tensor) (k : string) (t : tensor) :
  forallb (fun item => tensor_wf (snd item)) d = true ->
  dict_get d k = Some t -> tensor_wf t = true.
Proof.
  intros Hd Hget. apply dict_get_In in Hget.
  rewrite forallb_forall in Hd. exact (Hd _ Hget).
Qed.

(** ** Tensors *)

Lemma shape_eqb_eq (a b : list nat) : shape_eqb a b = true <-> a = b.
Proof.
  unfold shape_eqb. destruct (list_eq_dec Nat.eq_dec a b); split; congruence.
Qed.

Lemma shape_eqb_refl (a : list nat) : shape_eqb a a = true.
Proof. apply shape_eqb_eq. reflexivity. Qed.

Lemma tensor_wf_length (t : tensor) :
  tensor_wf t = true -> List.length (data t) = numel (shape t).
Proof. unfold tensor_wf. apply Nat.eqb_eq. Qed.

Lemma zip_with_length (f : R -> R -> R) (a b : list R) :
  List.length a = List.length b ->
  List.length (zip_with f a b) = List.length a.
Proof.
  revert b. induction a as [|x a IH]; intros [|y b] H; simpl in *;
    try discriminate; [reflexivity|].
  rewrite IH by lia. reflexivity.
Qed.

Lemma nth_zip_with_plus (a b : list R) (k : nat) :
  List.length a = List.length b ->
  nth k (zip_with Rplus a b) 0 = nth k a 0 + nth k b 0.
Proof.
  revert b k. induction a as [|x a IH]; intros [|y b] k H; simpl in *;
    try discriminate.
  - destruct k; lra.
  - destruct k; [reflexivity|]. apply IH. lia.
Qed.

Lemma nth_scale (l : list R) (c : R) (k : nat) :
  nth k (map (fun x => x * c) l) 0 = nth k l 0 * c.
Proof.
  revert k. induction l as [|x l IH]; intros [|k]; simpl; try lra. apply IH.
Qed.

Lemma zeros_wf (sh : list nat) : tensor_wf (zeros sh) = true.
Proof. unfold tensor_wf, zeros. simpl. rewrite repeat_length. apply Nat.eqb_refl. Qed.

Lemma nth_zeros (sh : list nat) (k : nat) : nth k (data (zeros sh)) 0 = 0.
Proof.
  unfold zeros. simpl. generalize (numel sh). intros n. revert k.
  induction n as [|n IH]; intros [|k]; simpl; try reflexivity. apply IH.
Qed.

Lemma pad_shape_same (sh : list nat) : pad_shape (List.length sh) sh = sh.
Proof. unfold pad_shape. rewrite Nat.sub_diag. reflexivity. Qed.

Lemma broadcast_dims_refl (sh : list nat) : broadcast_dims sh sh = Some sh.
Proof.
  induction sh as [|x sh IH]; [reflexivity|].
  simpl. rewrite IH, Nat.eqb_refl. reflexivity.
Qed.

Lemma broadcast_shapes_refl (sh : list nat) : broadcast_shapes sh sh = Some sh.
Proof.
  unfold broadcast_shapes. cbv zeta. rewrite Nat.max_id, pad_shape_same.
  apply broadcast_dims_refl.
Qed.

Lemma adds_into_refl (sh : list nat) : adds_into sh sh = true.
Proof.
  unfold adds_into. rewrite broadcast_shapes_refl. apply shape_eqb_refl.
Qed.

Lemma expand_same (t : tensor) : expand t (shape t) = data t.
Proof. unfold expand. rewrite shape_eqb_refl. reflexivity. Qed.

(** On operands of one shape the operations are elementwise. *)
Lemma tensor_add_ok (a b : tensor) :
  shape a = shape b ->
  tensor_add a b = Ok (Tensor (shape a) (zip_with Rplus (data a) (data b))).
Proof.
  intros H. unfold tensor_add. rewrite <- H, broadcast_shapes_refl.
  rewrite expand_same. rewrite H at 2. rewrite expand_same. reflexivity.
Qed.

Lemma tensor_iadd_ok (a b : tensor) :
  shape a = shape b ->
  tensor_iadd a b = Ok (Tensor (shape a) (zip_with Rplus (data a) (data b))).
Proof.
  intros H. unfold tensor_iadd. rewrite <- H, adds_into_refl.
  rewrite H, expand_same. reflexivity.
Qed.

(** [a += b] keeps the shape of [a]. *)
Lemma tensor_iadd_shape (a b c : tensor) :
  tensor_iadd a b = Ok c ->
  shape c = shape a /\ adds_into (shape a) (shape b) = true.
Proof.
  unfold tensor_iadd. destruct (adds_into (shape a) (shape b)) eqn:E;
    [|discriminate].
  intros H. inversion H; subst. split; reflexivity.
Qed.

Lemma tensor_iadd_wf (a b c : tensor) :
  tensor_wf a = true -> tensor_wf b = true -> shape a = shape b ->
  tensor_iadd a b = Ok c -> tensor_wf c = true.
Proof.
  intros Ha Hb Hs H.
  rewrite tensor_iadd_ok in H by assumption. inversion H; subst.
  unfold tensor_wf. simpl. apply Nat.eqb_eq.
  apply tensor_wf_length in Ha. apply tensor_wf_length in Hb.
  rewrite zip_with_length; [assumption|]. rewrite Ha, Hb, Hs. reflexivity.
Qed.

Lemma tensor_scale_wf (t : tensor) (c : R) :
  tensor_wf t = true -> tensor_wf (tensor_scale t c) = true.
Proof.
  unfold tensor_wf, tensor_scale. simpl. rewrite length_map. trivial.
Qed.

(** ** The loops of [aggregate_deltas] *)

Lemma elem_setitem (d : dict tensor) (name name' : string) (t : tensor)
    (k : nat) :
  elem (setitem d name t) name' k
  = if String.eqb name name' then nth k (data t) 0 else elem d name' k.
Proof.
  unfold elem. destruct (String.eqb_spec name name') as [E|E].
  - subst. rewrite dict_get_setitem_eq. reflexivity.
  - rewrite dict_get_setitem_neq by congruence. reflexivity.
Qed.

Lemma elem_cons (d : dict tensor) (n name : string) (t : tensor) (k : nat) :
  elem ((n, t) :: d) name k
  = if String.eqb n name then nth k (data t) 0 else elem d name k.
Proof. unfold elem. simpl. destruct (String.eqb n name); reflexivity. Qed.

Lemma schema_get (d : dict tensor) (name : string) (sh : list nat) :
  dict_get (schema d) name = Some sh ->
  exists t, dict_get d name = Some t /\ shape t = sh.
Proof.
  rewrite dict_get_schema. destruct (dict_get d name) as [t|]; simpl;
    [|discriminate].
  intros H. inversion H. eauto.
Qed.

(** What one successful [avg_update[name] += ...] did. *)
Lemma accumulate_inv (total ns : N) (avg avg' : dict tensor)
    (item : string * tensor) :
  Server.accumulate total ns avg item = Ok avg' ->
  total <> 0%N
  /\ exists cur new,
       dict_get avg (fst item) = Some cur
       /\ adds_into (shape cur) (shape (snd item)) = true
       /\ tensor_iadd cur (tensor_scale (snd item)
                             (IZR (Z.of_N ns) / IZR (Z.of_N total))) = Ok new
       /\ avg' = setitem avg (fst item) new.
Proof.
  unfold Server.accumulate, getitem, int_truediv.
  destruct (dict_get avg (fst item)) as [cur|]; [|discriminate].
  cbn [bind]. destruct (N.eqb_spec total 0); [discriminate|].
  cbn [bind].
  destruct (tensor_iadd cur _) as [new|] eqn:E; [|discriminate].
  cbn [bind]. intros H. inversion H; subst.
  split; [assumption|]. exists cur, new.
  destruct (tensor_iadd_shape _ _ _ E) as [_ Hs].
  repeat split; assumption.
Qed.

Lemma accumulate_schema (total ns : N) (avg avg' : dict tensor)
    (item : string * tensor) :
  Server.accumulate total ns avg item = Ok avg' -> schema avg' = schema avg.
Proof.
  intros H. apply accumulate_inv in H as (_ & cur & new & Hg & _ & Ha & ->).
  apply schema_setitem with (t0 := cur); [assumption|].
  apply tensor_iadd_shape in Ha. tauto.
Qed.

Lemma for_each_accumulate_schema (total ns : N) (items : list (string * tensor))
    (avg avg' : dict tensor) :
  for_each (Server.accumulate total ns) items avg = Ok avg' ->
  schema avg' = schema avg.
Proof.
  revert avg. induction items as [|item items IH]; intros avg; simpl.
  - intros H. inversion H. reflexivity.
  - destruct (Server.accumulate total ns avg item) as [avg1|] eqn:E;
      [|discriminate].
    cbn [bind]. intros H. rewrite (IH _ H).
    exact (accumulate_schema _ _ _ _ _ E).
Qed.

Lemma accumulate_items_ok (total ns : N) (items : list (string * tensor)) :
  total <> 0%N ->
  forall avg : dict tensor,
  unique_keys items = true ->
  forallb (fun item => tensor_wf (snd item)) items = true ->
  forallb (fun item => tensor_wf (snd item)) avg = true ->
  (forall item, In item items ->
     dict_get (schema avg) (fst item) = Some (shape (snd item))) ->
  exists avg',
    for_each (Server.accumulate total ns) items avg = Ok avg'
    /\ schema avg' = schema avg
    /\ forallb (fun item => tensor_wf (snd item)) avg' = true
    /\ forall name k,
         elem avg' name k
         = elem avg name k
           + elem items name k * (IZR (Z.of_N ns) / IZR (Z.of_N total)).
Proof.
  intros Ht. induction items as [|[n delta] items IH];
    intros avg Hu Hwi Hwa Hs.
  - exists avg. repeat split; try assumption.
    intros name k. unfold elem at 3. simpl. lra.
  - simpl in Hu. destruct (dict_get items n) eqn:Hn; [discriminate|].
    simpl in Hwi. apply andb_prop in Hwi as [Hwd Hwi].
    destruct (schema_get avg n (shape delta) (Hs (n, delta) (or_introl eq_refl)))
      as (cur & Hcur & Hsh).
    pose proof (tensors_wf_get _ _ _ Hwa Hcur) as Hwc.
    set (w := IZR (Z.of_N ns) / IZR (Z.of_N total)).
    set (new := Tensor (shape cur)
                  (zip_with Rplus (data cur) (data (tensor_scale delta w)))).
    assert (Hadd : tensor_iadd cur (tensor_scale delta w) = Ok new)
      by (apply tensor_iadd_ok; exact Hsh).
    assert (Hstep : Server.accumulate total ns avg (n, delta)
                    = Ok (setitem avg n new)).
    { unfold Server.accumulate, getitem. cbn [fst snd]. rewrite Hcur.
      cbn [bind]. rewrite int_truediv_ok by assumption. cbn [bind].
      fold w. rewrite Hadd. reflexivity. }
    assert (Hschema : schema (setitem avg n new) = schema avg)
      by (apply schema_setitem with (t0 := cur); [assumption|reflexivity]).
    destruct (IH (setitem avg n new)) as (avg' & Hrun & Hs' & Hw' & He').
    + assumption.
    + assumption.
    + apply tensors_wf_setitem; [assumption|].
      apply (tensor_iadd_wf cur (tensor_scale delta w)); try assumption.
      apply tensor_scale_wf. assumption.
    + intros item Hin. rewrite Hschema. apply Hs. right. assumption.
    + exists avg'. split; [|split; [|split]].
      * simpl. rewrite Hstep. cbn [bind]. exact Hrun.
      * rewrite Hs'. exact Hschema.
      * exact Hw'.
      * intros name k. rewrite He', elem_setitem, elem_cons.
        destruct (String.eqb_spec n name) as [E|E]; [|reflexivity].
        subst name. unfold elem. rewrite Hn, Hcur. subst new. simpl data.
        rewrite nth_zip_with_plus, nth_scale; [fold w; lra|].
        rewrite length_map.
        apply tensor_wf_length in Hwc. apply tensor_wf_length in Hwd.
        rewrite Hwc, Hwd, Hsh. reflexivity.
Qed.

Lemma sub_schema_lookup (d d' : dict tensor) :
  sub_schema d d' = true ->
  forall item, In item d ->
    dict_get (schema d') (fst item) = Some (shape (snd item)).
Proof.
  unfold sub_schema. rewrite forallb_forall. intros H item Hin.
  specialize (H item Hin). rewrite dict_get_schema.
  destruct (dict_get d' (fst item)) as [t'|]; [|discriminate].
  apply shape_eqb_eq in H. simpl. rewrite H. reflexivity.
Qed.

Lemma list_index_app {A : Type} (pre post : list A) (x : A) :
  list_index (pre ++ x :: post) (List.length pre) = Ok x.
Proof.
  unfold list_index. rewrite nth_error_app2 by lia.
  rewrite Nat.sub_diag. reflexivity.
Qed.

Lemma accumulate_updates_ok (total : N) (S0 : list (string * list nat)) :
  total <> 0%N ->
  forall (drest : list (dict tensor)) (urest upre : list Update)
         (avg : dict tensor),
  List.length urest = List.length drest ->
  Forall (fun d => dict_wf d = true
                   /\ forall item, In item d ->
                        dict_get S0 (fst item) = Some (shape (snd item)))
         drest ->
  schema avg = S0 ->
  forallb (fun item => tensor_wf (snd item)) avg = true ->
  exists avg',
    for_each (Server.accumulate_update total (upre ++ urest))
             (enumerate_from (List.length upre) drest) avg = Ok avg'
    /\ schema avg' = S0
    /\ forallb (fun item => tensor_wf (snd item)) avg' = true
    /\ forall name k,
         elem avg' name k
         = fold_left
             (fun acc ud =>
                acc + elem (snd ud) name k
                      * (IZR (Z.of_N (num_samples (report (fst ud))))
                         / IZR (Z.of_N total)))
             (combine urest drest) (elem avg name k).
Proof.
  intros Ht. induction drest as [|d drest IH];
    intros urest upre avg Hlen Hall Hs Hw.
  - exists avg. destruct urest; [|discriminate].
    repeat split; assumption.
  - destruct urest as [|u urest]; [discriminate|].
    inversion Hall as [|? ? [Hwf Hd] Hall']; subst.
    unfold dict_wf in Hwf. apply andb_prop in Hwf as [Hu Hwd].
    destruct (accumulate_items_ok total (num_samples (report u)) d Ht avg)
      as (avg1 & Hrun1 & Hs1 & Hw1 & He1); try assumption.
    destruct (IH urest (upre ++ [u]) avg1) as (avg' & Hrun & Hs' & Hw' & He').
    + simpl in Hlen. lia.
    + assumption.
    + assumption.
    + assumption.
    + exists avg'. split; [|split; [|split]]; try assumption.
      * cbn [enumerate_from for_each]. unfold Server.accumulate_update at 1.
        cbn [fst snd]. rewrite list_index_app. cbn [bind]. rewrite Hrun1.
        cbn [bind]. rewrite <- app_assoc, length_app, Nat.add_1_r in Hrun.
        exact Hrun.
      * intros name k. rewrite He'. cbn [combine fold_left fst snd].
        rewrite He1. reflexivity.
Qed.

Lemma schema_zeros_like (d : dict tensor) :
  schema (map (fun item => (fst item, zeros (shape (snd item)))) d) = schema d.
Proof.
  unfold schema. rewrite map_map. reflexivity.
Qed.

Lemma zeros_like_wf (d : dict tensor) :
  forallb (fun item => tensor_wf (snd item))
          (map (fun item => (fst item, zeros (shape (snd item)))) d) = true.
Proof.
  induction d as [|item d IH]; [reflexivity|].
  simpl. rewrite zeros_wf. exact IH.
Qed.

Lemma elem_zeros_like (d : dict tensor) (name : string) (k : nat) :
  elem (map (fun item => (fst item, zeros (shape (snd item)))) d) name k = 0.
Proof.
  induction d as [|[n t] d IH]; [reflexivity|].
  cbn [map fst snd]. rewrite elem_cons.
  destruct (String.eqb n name); [apply nth_zeros|exact IH].
Qed.

(** The result of [aggregate_deltas] on deltas that agree with the first. *)
Lemma aggregate_deltas_ok (updates : list Update) (first : dict tensor)
    (rest : list (dict tensor)) (self : Server.server) :
  List.length updates = List.length (first :: rest) ->
  total_samples_of updates <> 0%N ->
  Forall (fun d => dict_wf d = true /\ sub_schema d first = true)
         (first :: rest) ->
  exists avg,
    fst (Server.aggregate_deltas updates (first :: rest) self) = Ok avg
    /\ schema avg = schema first
    /\ forallb (fun item => tensor_wf (snd item)) avg = true
    /\ forall name k,
         elem avg name k = avg_delta_spec updates (first :: rest) name k.
Proof.
  intros Hlen Ht Hall.
  destruct (accumulate_updates_ok (total_samples_of updates) (schema first) Ht
              (first :: rest) updates []
              (map (fun item => (fst item, zeros (shape (snd item)))) first))
    as (avg & Hrun & Hs & Hw & He).
  - assumption.
  - eapply Forall_impl; [|exact Hall]. intros d [Hwf Hsub].
    split; [assumption|]. apply sub_schema_lookup. assumption.
  - apply schema_zeros_like.
  - apply zeros_like_wf.
  - exists avg. split; [exact Hrun|]. split; [assumption|].
    split; [assumption|].
    intros name k. rewrite He, elem_zeros_like. reflexivity.
Qed.

(** ** [update_weights] *)

Lemma setitem_fresh {V : Type} (d : dict V) (k : string) (v : V) :
  dict_get d k = None -> setitem d k v = d ++ [(k, v)].
Proof.
  induction d as [|[k' v'] d IH]; simpl; [reflexivity|].
  destruct (String.eqb k' k); [discriminate|].
  intros H. rewrite IH by assumption. reflexivity.
Qed.

Lemma dict_get_app {V : Type} (d d' : dict V) (k : string) :
  dict_get (d ++ d') k
  = match dict_get d k with Some v => Some v | None => dict_get d' k end.
Proof.
  induction d as [|[k' v'] d IH]; simpl; [reflexivity|].
  destruct (String.eqb k' k); [reflexivity|exact IH].
Qed.

Lemma nth_zip_with (f : R -> R -> R) (a b : list R) (k : nat) :
  f 0 0 = 0 -> List.length a = List.length b ->
  nth k (zip_with f a b) 0 = f (nth k a 0) (nth k b 0).
Proof.
  intros Hf. revert b k. induction a as [|x a IH]; intros [|y b] k H;
    simpl in *; try discriminate.
  - destruct k; symmetry; exact Hf.
  - destruct k; [reflexivity|]. apply IH. lia.
Qed.

Section ZipLoop.

(** The loop shared by [update_weights] and [compute_weight_deltas]: for each
    item of [rest], look its name up in [other], combine the two tensors and
    store the result under the name. *)
Variable f : R -> R -> R.
Variable op : tensor -> tensor -> result tensor.
Hypothesis f_zero : f 0 0 = 0.
Hypothesis op_ok : forall a b, shape a = shape b ->
  op a b = Ok (Tensor (shape a) (zip_with f (data a) (data b))).

Variable other : dict tensor.
Hypothesis other_wf : forallb (fun item => tensor_wf (snd item)) other = true.

Lemma zip_loop (rest acc : dict tensor) :
  unique_keys rest = true ->
  forallb (fun item => tensor_wf (snd item)) rest = true ->
  (forall item, In item rest -> dict_get acc (fst item) = None) ->
  (forall item, In item rest ->
     dict_get (schema other) (fst item) = Some (shape (snd item))) ->
  exists new,
    for_each
      (fun result item =>
         o <- getitem other (fst item) ;;
         w <- op (snd item) o ;;
         Ok (setitem result (fst item) w))
      rest acc = Ok (acc ++ new)
    /\ schema new = schema rest
    /\ forallb (fun item => tensor_wf (snd item)) new = true
    /\ forall name k,
         elem new name k
         = match dict_get rest name with
           | Some _ => f (elem rest name k) (elem other name k)
           | None => 0
           end.
Proof.
  revert acc. induction rest as [|[n w] rest IH]; intros acc Hu Hw Hacc Hs.
  - exists []. rewrite app_nil_r. repeat split.
  - simpl in Hu. destruct (dict_get rest n) eqn:Hn; [discriminate|].
    simpl in Hw. apply andb_prop in Hw as [Hww Hw].
    destruct (schema_get other n (shape w) (Hs (n, w) (or_introl eq_refl)))
      as (o & Ho & Hsh).
    pose proof (tensors_wf_get _ _ _ other_wf Ho) as Hwo.
    assert (Hlen : List.length (data w) = List.length (data o)).
    { apply tensor_wf_length in Hww. apply tensor_wf_length in Hwo.
      rewrite Hww, Hwo, Hsh. reflexivity. }
    set (t := Tensor (shape w) (zip_with f (data w) (data o))).
    destruct (IH (acc ++ [(n, t)])) as (new & Hrun & Hsn & Hwn & Hen);
      try assumption.
    + intros item Hin. rewrite dict_get_app, (Hacc item (or_intror Hin)).
      simpl. destruct (String.eqb_spec n (fst item)) as [E|E]; [|reflexivity].
      destruct item as [n' w']. simpl in E. subst n'.
      destruct (In_dict_get _ _ _ Hin) as [v Hv]. congruence.
    + intros item Hin. apply Hs. right. assumption.
    + exists ((n, t) :: new). split; [|split; [|split]].
      * cbn [for_each fst snd]. unfold getitem at 1. rewrite Ho.
        cbn [bind]. rewrite op_ok by (symmetry; exact Hsh).
        cbn [bind]. fold t.
        rewrite setitem_fresh by (apply (Hacc (n, w)); left; reflexivity).
        rewrite Hrun, <- app_assoc. reflexivity.
      * simpl. rewrite Hsn. reflexivity.
      * simpl. rewrite Hwn, andb_true_r. unfold tensor_wf. simpl.
        rewrite zip_with_length by assumption. exact Hww.
      * intros name k. rewrite elem_cons. simpl dict_get.
        destruct (String.eqb_spec n name) as [E|E].
        -- subst name. unfold elem. simpl dict_get.
           rewrite String.eqb_refl, Ho. subst t. simpl data.
           apply nth_zip_with; assumption.
        -- rewrite Hen. rewrite (elem_cons rest n name w k).
           destruct (String.eqb_spec n name); [contradiction|reflexivity].
Qed.

End ZipLoop.

Lemma update_weights_ok (baseline avg : dict tensor) :
  dict_wf baseline = true ->
  forallb (fun item => tensor_wf (snd item)) avg = true ->
  (forall item, In item baseline ->
     dict_get (schema avg) (fst item) = Some (shape (snd item))) ->
  exists updated,
    Algorithm.update_weights baseline avg = Ok updated
    /\ schema updated = schema baseline
    /\ forallb (fun item => tensor_wf (snd item)) updated = true
    /\ forall name k,
         elem updated name k
         = match dict_get baseline name with
           | Some _ => elem baseline name k + elem avg name k
           | None => 0
           end.
Proof.
  intros Hwf Hwa Hs. unfold dict_wf in Hwf. apply andb_prop in Hwf as [Hu Hw].
  destruct (zip_loop Rplus tensor_add (Rplus_0_l 0) tensor_add_ok avg Hwa
              baseline [] Hu Hw) as (new & H).
  - reflexivity.
  - assumption.
  - exists new. exact H.
Qed.

Lemma sub_schema_trans (a b c : dict tensor) :
  sub_schema a b = true -> sub_schema b c = true -> sub_schema a c = true.
Proof.
  intros Hab Hbc. unfold sub_schema. apply forallb_forall. intros item Hin.
  pose proof (sub_schema_lookup a b Hab item Hin) as H1.
  apply schema_get in H1 as (t' & Hget & Hsh).
  pose proof (sub_schema_lookup b c Hbc (fst item, t') (dict_get_In _ _ _ Hget))
    as H2.
  apply schema_get in H2 as (t'' & Hget' & Hsh'). cbn [fst snd] in *.
  rewrite Hget'. apply shape_eqb_eq. congruence.
Qed.

Lemma sub_schema_absent (a b : dict tensor) (name : string) :
  sub_schema a b = true -> dict_get b name = None -> dict_get a name = None.
Proof.
  intros Hab Hb. destruct (dict_get a name) as [t|] eqn:Ha; [|reflexivity].
  pose proof (sub_schema_lookup a b Hab (name, t) (dict_get_In _ _ _ Ha)) as H.
  rewrite dict_get_schema in H. cbn [fst] in H. rewrite Hb in H. discriminate.
Qed.

Lemma same_schema_split (d d' : dict tensor) :
  same_schema d d' = true ->
  sub_schema d d' = true /\ sub_schema d' d = true.
Proof. unfold same_schema. apply andb_prop. Qed.

(** Aggregation followed by [update_weights], on a valid batch of deltas. *)
Lemma aggregate_and_update (self : Server.server) (baseline : dict tensor)
    (updates : list Update) (deltas : list (dict tensor)) :
  updates <> [] ->
  List.length deltas = List.length updates ->
  (0 < total_samples_of updates)%N ->
  dict_wf baseline = true ->
  Forall (fun d => dict_wf d = true /\ same_schema d baseline = true) deltas ->
  exists avg updated,
    fst (Server.aggregate_deltas updates deltas self) = Ok avg
    /\ Algorithm.update_weights baseline avg = Ok updated
    /\ (forall name k, elem avg name k = avg_delta_spec updates deltas name k)
    /\ (forall name k,
          elem updated name k = elem baseline name k + elem avg name k)
    /\ schema updated = schema baseline
    /\ forallb (fun item => tensor_wf (snd item)) updated = true.
Proof.
  intros Hne Hlen Hpos Hwb Hall.
  destruct deltas as [|first rest];
    [destruct updates; [contradiction|discriminate]|].
  assert (Hfirst : same_schema first baseline = true).
  { inversion Hall as [|? ? [_ H] _]. exact H. }
  apply same_schema_split in Hfirst as [Hfb Hbf].
  destruct (aggregate_deltas_ok updates first rest self)
    as (avg & Hrun & Hs & Hw & He).
  - symmetry. exact Hlen.
  - lia.
  - eapply Forall_impl; [|exact Hall]. intros d [Hwf Hsame].
    split; [assumption|]. apply same_schema_split in Hsame as [Hdb _].
    exact (sub_schema_trans _ _ _ Hdb Hbf).
  - destruct (update_weights_ok baseline avg Hwb Hw)
      as (updated & Hup & Hsu & Hwu & Heu).
    + intros item Hin. rewrite Hs. exact (sub_schema_lookup _ _ Hbf item Hin).
    + exists avg, updated. repeat split; try assumption.
      intros name k. rewrite Heu.
      destruct (dict_get baseline name) eqn:Hb; [reflexivity|].
      unfold elem. rewrite Hb.
      pose proof (sub_schema_absent _ _ name Hfb Hb) as Hf.
      assert (Ha : dict_get avg name = None).
      { pose proof (dict_get_schema avg name) as H1.
        rewrite Hs, dict_get_schema, Hf in H1. simpl in H1.
        destruct (dict_get avg name); [discriminate|reflexivity]. }
      rewrite Ha. lra.
Qed.

Lemma scenario_aggregation (self : Server.server) :
  fst (Server.aggregate_deltas scenario_updates scenario_deltas self)
  = Ok [("w"%string, Tensor [2%nat] [3.0; 0.0])]
  /\ Algorithm.update_weights scenario_baseline
       [("w"%string, Tensor [2%nat] [3.0; 0.0])]
     = Ok [("w"%string, Tensor [2%nat] [4.0; 1.0])].
Proof.
  split; cbv -[Rplus Rmult Rdiv IZR Rinv Rminus Q2R]; repeat f_equal; lra.
Qed.

(** C1: in delta mode, on a non-empty batch with a positive total of samples
    whose deltas match the baseline, [aggregate_deltas] returns the sum, in
    the order of arrival, of the deltas scaled by
    [num_samples_i / total_samples], and the updated weights are the baseline
    plus that average; in the scenario of section 8 the average is
    [{"w": [3.0, 0.0]}] and the updated weights are [{"w": [4.0, 1.0]}]. *)
Theorem delta_aggregation_weighted_average :
  (forall (self : Server.server) (baseline : dict tensor)
          (updates : list Update) (deltas : list (dict tensor)),
     updates <> [] ->
     List.length deltas = List.length updates ->
     (0 < total_samples_of updates)%N ->
     dict_wf baseline = true ->
     Forall (fun d => dict_wf d = true /\ same_schema d baseline = true)
            deltas ->
     exists avg updated,
       fst (Server.aggregate_deltas updates deltas self) = Ok avg
       /\ Algorithm.update_weights baseline avg = Ok updated
       /\ (forall name k,
             elem avg name k = avg_delta_spec updates deltas name k)
       /\ (forall name k,
             elem updated name k = elem baseline name k + elem avg name k)
       /\ schema updated = schema baseline)
  /\ (forall self : Server.server,
        fst (Server.aggregate_deltas scenario_updates scenario_deltas self)
        = Ok [("w"%string, Tensor [2%nat] [3.0; 0.0])]
        /\ Algorithm.update_weights scenario_baseline
             [("w"%string, Tensor [2%nat] [3.0; 0.0])]
           = Ok [("w"%string, Tensor [2%nat] [4.0; 1.0])]).
Proof.
  split.
  - intros self baseline updates deltas Hne Hlen Hpos Hwb Hall.
    destruct (aggregate_and_update self baseline updates deltas
                Hne Hlen Hpos Hwb Hall)
      as (avg & updated & H1 & H2 & H3 & H4 & H5 & _).
    exists avg, updated. repeat split; assumption.
  - exact scenario_aggregation.
Qed.

(** ** [compute_weight_deltas] *)

Lemma unique_keys_schema (d : dict tensor) :
  unique_keys (schema d) = unique_keys d.
Proof.
  induction d as [|[k t] d IH]; [reflexivity|].
  simpl. rewrite dict_get_schema, IH.
  destruct (dict_get d k); reflexivity.
Qed.

Lemma sub_schema_via_schema (d d' : dict tensor) :
  sub_schema d d'
  = forallb (fun ks => match dict_get (schema d') (fst ks) with
                       | Some sh => shape_eqb (snd ks) sh
                       | None => false
                       end) (schema d).
Proof.
  unfold sub_schema. induction d as [|item d IH]; [reflexivity|].
  cbn [schema map forallb fst snd]. fold (schema d). rewrite <- IH.
  rewrite dict_get_schema. destruct (dict_get d' (fst item)); reflexivity.
Qed.

Lemma same_schema_via_schema (a b a' b' : dict tensor) :
  schema a = schema a' -> schema b = schema b' ->
  same_schema a b = same_schema a' b'.
Proof.
  intros Ha Hb. unfold same_schema.
  rewrite !sub_schema_via_schema, Ha, Hb. reflexivity.
Qed.

Lemma dict_wf_intro (d : dict tensor) :
  unique_keys d = true ->
  forallb (fun item => tensor_wf (snd item)) d = true -> dict_wf d = true.
Proof. intros H1 H2. unfold dict_wf. rewrite H1, H2. reflexivity. Qed.

Lemma tensor_sub_ok (a b : tensor) :
  shape a = shape b ->
  tensor_sub a b = Ok (Tensor (shape a) (zip_with Rminus (data a) (data b))).
Proof.
  intros H. unfold tensor_sub. rewrite <- H, broadcast_shapes_refl.
  rewrite expand_same. rewrite H at 2. rewrite expand_same. reflexivity.
Qed.

Lemma compute_weight_deltas_ok (baseline : dict tensor)
    (weights_received : list (dict tensor)) :
  dict_wf baseline = true ->
  Forall (fun p => dict_wf p = true /\ same_schema p baseline = true)
         weights_received ->
  exists deltas,
    Algorithm.compute_weight_deltas baseline weights_received = Ok deltas
    /\ List.length deltas = List.length weights_received
    /\ Forall (fun d => dict_wf d = true /\ same_schema d baseline = true)
              deltas
    /\ Forall2 (fun p d => forall name k,
                  elem d name k = elem p name k - elem baseline name k)
               weights_received deltas.
Proof.
  intros Hwb Hall. unfold Algorithm.compute_weight_deltas.
  pose proof Hwb as Hwb'. unfold dict_wf in Hwb'.
  apply andb_prop in Hwb' as [Hub Htb].
  induction Hall as [|p ps [Hwp Hsame] Hall IH].
  - exists []. repeat split; constructor.
  - destruct IH as (deltas & Hrun & Hlen & Hd & He).
    pose proof Hwp as Hwp'. unfold dict_wf in Hwp'.
    apply andb_prop in Hwp' as [Hup Htp].
    pose proof (same_schema_split _ _ Hsame) as [Hpb Hbp].
    destruct (zip_loop Rminus tensor_sub (Rminus_diag 0) tensor_sub_ok
                baseline Htb p [] Hup Htp) as (d & Hloop & Hsd & Hwd & Hed).
    + reflexivity.
    + exact (sub_schema_lookup _ _ Hpb).
    + exists (d :: deltas). cbn [map_result app] in *. rewrite Hloop.
      cbn [bind]. rewrite Hrun. cbn [bind]. split; [reflexivity|].
      split; [simpl; rewrite Hlen; reflexivity|]. split.
      * constructor; [|assumption]. split.
        -- apply dict_wf_intro; [|assumption].
           rewrite <- unique_keys_schema, Hsd, unique_keys_schema. assumption.
        -- rewrite (same_schema_via_schema d baseline p baseline Hsd eq_refl).
           assumption.
      * constructor; [|assumption]. intros name k. rewrite Hed.
        destruct (dict_get p name) eqn:Hp; [reflexivity|].
        unfold elem. rewrite Hp, (sub_schema_absent _ _ name Hbp Hp). lra.
Qed.

(** ** [_process_reports] *)

Lemma process_reports_body_run (trainer_test : dict tensor -> R)
    (on_clients_processed : Server.server -> result unit)
    (self : Server.server) (w : dict tensor) (t : R) :
  aggregated_weights self = Ok w ->
  Server.estimate w = Ok t ->
  Server._process_reports_body trainer_test on_clients_processed self
  = let loaded :=
      Server.set_model
        (Server.set_total_samples self
           (total_samples_of (Server.self_updates self))) w in
    if Rle_dec (IZR (Server.self_current_round self)) t
    then (Raise StopIteration, loaded)
    else match Server.do_test self with
         | Some false =>
             match Server.get_accuracy_mean_std (Server.self_updates self) with
             | Ok ms =>
                 let done :=
                   Server.set_accuracy_std
                     (Server.set_accuracy loaded (fst ms)) (snd ms) in
                 (on_clients_processed done, done)
             | Raise e => (Raise e, loaded)
             end
         | _ =>
             let done := Server.set_accuracy loaded (trainer_test w) in
             (on_clients_processed done, done)
         end.
Proof.
  unfold aggregated_weights. intros H Ht. run_method.
  destruct (Algorithm.compute_weight_deltas _ _) as [dr|e0]; cbv beta iota;
    [|discriminate H].
  change (deltas <- fst (Server.aggregate_deltas (Server.self_updates self)
                                                 dr self) ;;
          Algorithm.update_weights (Server.self_model self) deltas = Ok w)
    in H.
  rewrite aggregate_deltas_run.
  destruct (fst (Server.aggregate_deltas (Server.self_updates self) dr self))
    as [deltas|e1]; [|discriminate H].
  change (Algorithm.update_weights (Server.self_model self) deltas = Ok w)
    in H.
  cbn [Server.self_model Server.set_total_samples]. rewrite H, Ht.
  rewrite check_stop_run.
  cbn [Server.self_current_round Server.set_model Server.set_total_samples].
  destruct (Rle_dec _ t); [reflexivity|].
  cbn [Server.do_test Server.set_model Server.set_total_samples].
  destruct (Server.do_test self) as [[|]|]; try reflexivity.
  destruct (Server.get_accuracy_mean_std (Server.self_updates self));
    reflexivity.
Qed.

(** *** No statement but [check_stop] raises [StopIteration] *)

Lemma no_stop_ok {A : Type} (a : A) : no_stop (Ok a).
Proof. discriminate. Qed.

Lemma no_stop_bind {A B : Type} (c : result A) (k : A -> result B) :
  no_stop c -> (forall a, no_stop (k a)) -> no_stop (bind c k).
Proof.
  intros Hc Hk. destruct c as [a|e]; simpl; [apply Hk|].
  intros H. apply Hc. inversion H. reflexivity.
Qed.

Lemma no_stop_for_each {A S : Type} (body : S -> A -> result S)
    (l : list A) (s : S) :
  (forall s x, no_stop (body s x)) -> no_stop (for_each body l s).
Proof.
  intros Hb. revert s. induction l as [|x l IH]; intros s; simpl.
  - apply no_stop_ok.
  - apply no_stop_bind; [apply Hb|exact IH].
Qed.

Lemma no_stop_map_result {A B : Type} (f : A -> result B) (l : list A) :
  (forall x, no_stop (f x)) -> no_stop (map_result f l).
Proof.
  intros Hf. induction l as [|x l IH]; simpl.
  - apply no_stop_ok.
  - apply no_stop_bind; [apply Hf|]. intros y.
    apply no_stop_bind; [exact IH|]. intros ys. apply no_stop_ok.
Qed.

Lemma no_stop_getitem {V : Type} (d : dict V) (k : string) :
  no_stop (getitem d k).
Proof. unfold getitem. destruct (dict_get d k); discriminate. Qed.

Lemma no_stop_list_index {A : Type} (l : list A) (i : nat) :
  no_stop (list_index l i).
Proof. unfold list_index. destruct (nth_error l i); discriminate. Qed.

Lemma no_stop_int_truediv (a b : N) : no_stop (int_truediv a b).
Proof. unfold int_truediv. destruct (b =? 0)%N; discriminate. Qed.

Lemma no_stop_tensor_add (a b : tensor) : no_stop (tensor_add a b).
Proof. unfold tensor_add. destruct (broadcast_shapes _ _); discriminate. Qed.

Lemma no_stop_tensor_iadd (a b : tensor) : no_stop (tensor_iadd a b).
Proof. unfold tensor_iadd. destruct (adds_into _ _); discriminate. Qed.

Lemma no_stop_tensor_sub (a b : tensor) : no_stop (tensor_sub a b).
Proof. unfold tensor_sub. destruct (broadcast_shapes _ _); discriminate. Qed.

Ltac no_stop_steps :=
  repeat first
    [ apply no_stop_ok
    | apply no_stop_getitem
    | apply no_stop_list_index
    | apply no_stop_int_truediv
    | apply no_stop_tensor_add
    | apply no_stop_tensor_iadd
    | apply no_stop_tensor_sub
    | apply no_stop_map_result; intros
    | apply no_stop_for_each; intros
    | apply no_stop_bind; [|intros] ].

Lemma no_stop_aggregate_deltas (updates : list Update)
    (deltas : list (dict tensor)) (self : Server.server) :
  no_stop (fst (Server.aggregate_deltas updates deltas self)).
Proof.
  change (no_stop
            (first <- list_index deltas 0 ;;
             for_each
               (Server.accumulate_update (total_samples_of updates) updates)
               (enumerate deltas)
               (map (fun item => (fst item, zeros (shape (snd item)))) first))).
  unfold Server.accumulate_update, Server.accumulate. no_stop_steps.
Qed.

Lemma no_stop_aggregated_weights (self : Server.server) :
  no_stop (aggregated_weights self).
Proof.
  unfold aggregated_weights, Algorithm.compute_weight_deltas,
    Algorithm.update_weights.
  apply no_stop_bind; [no_stop_steps|]. intros dr.
  apply no_stop_bind; [apply no_stop_aggregate_deltas|]. intros deltas.
  no_stop_steps.
Qed.

Lemma no_stop_get_accuracy_mean_std (updates : list Update) :
  no_stop (Server.get_accuracy_mean_std updates).
Proof. unfold Server.get_accuracy_mean_std. cbv zeta. no_stop_steps. Qed.

(** ** The coroutine [_process_reports] *)

Lemma coroutine_state {A : Type} (body : Server.M A) (self : Server.server) :
  snd (Server.coroutine body self) = snd (body self).
Proof.
  unfold Server.coroutine. destruct (body self) as [[a|[]] self'];
    reflexivity.
Qed.

Lemma coroutine_no_stop {A : Type} (body : Server.M A)
    (self : Server.server) :
  no_stop (fst (Server.coroutine body self)).
Proof.
  unfold Server.coroutine. destruct (body self) as [[a|[]] self'];
    discriminate.
Qed.

Lemma coroutine_keeps {A : Type} (body : Server.M A)
    (self self' : Server.server) (r : result A) :
  body self = (r, self') -> no_stop r ->
  Server.coroutine body self = (r, self').
Proof.
  intros H Hr. unfold Server.coroutine. rewrite H.
  destruct r as [a|[]]; try reflexivity. exfalso. apply Hr. reflexivity.
Qed.

Lemma coroutine_converts {A : Type} (body : Server.M A)
    (self self' : Server.server) :
  body self = (Raise StopIteration, self') ->
  Server.coroutine body self = (Raise RuntimeError, self').
Proof. intros H. unfold Server.coroutine. rewrite H. reflexivity. Qed.

Lemma process_reports_failure (trainer_test : dict tensor -> R)
    (on_clients_processed : Server.server -> result unit)
    (self : Server.server) (e : exn) :
  aggregated_weights self = Raise e ->
  fst (Server._process_reports trainer_test on_clients_processed self)
  = Raise e
  /\ Server.self_model
       (snd (Server._process_reports trainer_test on_clients_processed self))
     = Server.self_model self.
Proof.
  intros Ha.
  destruct (process_reports_body_failure trainer_test on_clients_processed
              self e Ha) as [Hf Hs].
  assert (Hne : no_stop (@Raise unit e)).
  { intros H. apply (no_stop_aggregated_weights self). rewrite Ha.
    inversion H. reflexivity. }
  unfold Server._process_reports.
  rewrite (coroutine_keeps _ self
             (snd (Server._process_reports_body trainer_test
                     on_clients_processed self)) (Raise e)).
  - split; [reflexivity|]. cbn [snd].
    destruct Hs as [-> | ->]; reflexivity.
  - rewrite <- Hf. apply surjective_pairing.
  - exact Hne.
Qed.

Lemma process_reports_model (trainer_test : dict tensor -> R)
    (on_clients_processed : Server.server -> result unit)
    (self : Server.server) (w : dict tensor) :
  aggregated_weights self = Ok w ->
  Server.self_model
    (snd (Server._process_reports trainer_test on_clients_processed self))
  = w.
Proof.
  intros Ha. destruct (estimate_ok w) as [t Ht].
  unfold Server._process_reports. rewrite coroutine_state.
  rewrite (process_reports_body_run trainer_test on_clients_processed
             self w t Ha Ht).
  cbv zeta. destruct (Rle_dec _ t); [reflexivity|].
  destruct (Server.do_test self) as [[|]|]; try reflexivity.
  destruct (Server.get_accuracy_mean_std (Server.self_updates self));
    reflexivity.
Qed.

(** When the stop test holds, the body raises [StopIteration] with the new
    weights loaded, and the caller that awaits the coroutine receives
    [RuntimeError]. *)
Lemma process_reports_stops (trainer_test : dict tensor -> R)
    (on_clients_processed : Server.server -> result unit)
    (self : Server.server) (w : dict tensor) (t : R) :
  aggregated_weights self = Ok w ->
  Server.estimate w = Ok t ->
  IZR (Server.self_current_round self) <= t ->
  Server._process_reports trainer_test on_clients_processed self
  = (Raise RuntimeError,
     Server.set_model
       (Server.set_total_samples self
          (total_samples_of (Server.self_updates self))) w).
Proof.
  intros Ha Ht Hle. unfold Server._process_reports.
  apply coroutine_converts.
  rewrite (process_reports_body_run trainer_test on_clients_processed
             self w t Ha Ht).
  cbv zeta. destruct (Rle_dec _ t); [reflexivity|contradiction].
Qed.

(** *** Reports that disagree with the first *)

(** Every step of a loop that ends without exception ran without exception,
    from a state that an invariant of the body holds of. *)
Lemma for_each_ok_steps {A S : Type} (body : S -> A -> result S)
    (P : S -> Prop) :
  (forall s x s', P s -> body s x = Ok s' -> P s') ->
  forall (l : list A) (s s' : S),
  P s -> for_each body l s = Ok s' ->
  P s' /\ forall x, In x l -> exists s1 s2, P s1 /\ body s1 x = Ok s2.
Proof.
  intros Hbody. induction l as [|y l IH]; intros s s' Hs Hrun; simpl in Hrun.
  - inversion Hrun; subst. split; [assumption|]. intros x [].
  - destruct (body s y) as [s1|] eqn:E; [|discriminate]. cbn [bind] in Hrun.
    destruct (IH s1 s' (Hbody _ _ _ Hs E) Hrun) as [Hs' Hsteps].
    split; [assumption|]. intros x [->|Hin]; [eauto|auto].
Qed.

Lemma In_enumerate_from {A : Type} (l : list A) (x : A) (start : nat) :
  In x l -> exists i, In (i, x) (enumerate_from start l).
Proof.
  revert start. induction l as [|y l IH]; intros start; [intros []|].
  intros [->|Hin].
  - exists start. left. reflexivity.
  - destruct (IH (S start) Hin) as [i Hi]. exists i. right. exact Hi.
Qed.

Lemma accumulate_update_schema (total : N) (updates : list Update)
    (avg avg' : dict tensor) (iu : nat * dict tensor) :
  Server.accumulate_update total updates avg iu = Ok avg' ->
  schema avg' = schema avg.
Proof.
  unfold Server.accumulate_update.
  destruct (list_index updates (fst iu)); [|discriminate]. cbn [bind].
  apply for_each_accumulate_schema.
Qed.

(** If [aggregate_deltas] returns, every item of every delta found in the
    first delta a tensor under its name that it could be added into. *)
Lemma aggregate_deltas_ok_agree (updates : list Update)
    (first : dict tensor) (rest : list (dict tensor)) (self : Server.server)
    (avg : dict tensor) :
  fst (Server.aggregate_deltas updates (first :: rest) self) = Ok avg ->
  schema avg = schema first
  /\ forall d name t, In d (first :: rest) -> In (name, t) d ->
       exists t0, dict_get first name = Some t0
                  /\ adds_into (shape t0) (shape t) = true.
Proof.
  intros Hrun.
  change (for_each
            (Server.accumulate_update (total_samples_of updates) updates)
            (enumerate (first :: rest))
            (map (fun item => (fst item, zeros (shape (snd item)))) first)
          = Ok avg) in Hrun.
  apply (for_each_ok_steps _ (fun a => schema a = schema first)) in Hrun.
  - destruct Hrun as [Hs Hsteps]. split; [exact Hs|].
    intros d name t Hd Hin.
    destruct (In_enumerate_from _ _ 0%nat Hd) as [i Hi].
    destruct (Hsteps _ Hi) as (a1 & a2 & Ha1 & Hstep).
    unfold Server.accumulate_update in Hstep. cbn [fst snd] in Hstep.
    destruct (list_index updates i) as [u|]; [|discriminate].
    cbn [bind] in Hstep.
    apply (for_each_ok_steps _ (fun a => schema a = schema first)) in Hstep.
    + destruct Hstep as [_ Hitems].
      destruct (Hitems _ Hin) as (b1 & b2 & Hb1 & Hacc).
      apply accumulate_inv in Hacc as (_ & cur & new & Hcur & Hsh & _).
      cbn [fst snd] in *.
      pose proof (dict_get_schema b1 name) as H1.
      rewrite Hb1, dict_get_schema, Hcur in H1.
      destruct (dict_get first name) as [t0|]; [|discriminate].
      exists t0. split; [reflexivity|]. simpl in H1.
      injection H1 as H1. rewrite <- H1 in Hsh. exact Hsh.
    + intros s x s' Hs1 Hx. rewrite (accumulate_schema _ _ _ _ _ Hx).
      exact Hs1.
    + exact Ha1.
  - intros s x s' Hs Hx. rewrite (accumulate_update_schema _ _ _ _ _ Hx).
    exact Hs.
  - apply schema_zeros_like.
Qed.

(** ** The window of the stop test *)

Lemma estimate_value (updated_weights : dict tensor) :
  Server.estimate updated_weights
  = match Server.s_average updated_weights with
    | Some delta_g =>
        if Rlt_dec (0.432 / 3.3) delta_g
        then Ok (ln ((delta_g - 0.432 / 3.3) / 59) / ln 0.9835)
        else Ok (-1)
    | None => Ok (-1)
    end.
Proof.
  unfold Server.estimate. cbv zeta.
  destruct (Server.s_average updated_weights) as [delta_g|]; [|reflexivity].
  cbn [option_map]. unfold Server.stopping_time.
  replace (4 * 1.0 * (0.04 * 0.2 + 0.1) / (0.3 * (8 + 3 * 1)))
    with (0.432 / 3.3) by lra.
  replace (1.0 / 0.3 * 18 - 1) with 59 by lra.
  replace (1 - 0.04 * 0.3 * (1 + 3 * 1 / 8)) with 0.9835 by lra.
  destruct (Rlt_dec 0 (delta_g - 0.432 / 3.3)) as [Hn|Hn];
    destruct (Rlt_dec (0.432 / 3.3) delta_g) as [Hx|Hx]; try lra;
    [|reflexivity].
  destruct (Rlt_dec 0 59) as [_|H]; [|lra].
  destruct (Rlt_dec 0 0.9835) as [_|H]; [|lra].
  destruct (Req_dec_T 0.9835 1) as [H|_]; [lra|].
  unfold float_truediv. destruct (Req_dec_T 59 0) as [H|_]; [lra|].
  cbn [bind]. apply math_log_ok; lra.
Qed.

Lemma log_window (arg lam : R) (round : nat) :
  0 < arg -> 0 < lam < 1 ->
  (INR round <= ln arg / ln lam <-> arg <= lam ^ round).
Proof.
  intros Ha Hl.
  assert (Hln : ln lam < 0).
  { rewrite <- ln_1. apply ln_increasing; lra. }
  assert (Hp : 0 < lam ^ round) by (apply pow_lt; lra).
  assert (Hq : ln arg / ln lam = (- ln arg) / (- ln lam)) by (field; lra).
  rewrite Hq. split.
  - intros H.
    apply (Rmult_le_compat_r (- ln lam)) in H; [|lra].
    unfold Rdiv in H. rewrite Rmult_assoc, Rinv_l, Rmult_1_r in H by lra.
    assert (Hle : ln arg <= ln (lam ^ round)).
    { rewrite ln_pow by lra. lra. }
    destruct Hle as [Hlt|Heq].
    + left. apply ln_lt_inv; assumption.
    + right. apply ln_inv; assumption.
  - intros H.
    assert (Hle : ln arg <= ln (lam ^ round)).
    { destruct H as [Hlt|Heq]; [left; apply ln_increasing; assumption|].
      rewrite Heq. right. reflexivity. }
    rewrite ln_pow in Hle by lra.
    apply (Rmult_le_reg_r (- ln lam)); [lra|].
    unfold Rdiv. rewrite Rmult_assoc, Rinv_l, Rmult_1_r by lra. lra.
Qed.

Lemma estimate_window (updated_weights : dict tensor) (round : nat) :
  exists t,
    Server.estimate updated_weights = Ok t
    /\ (INR round <= t
        <-> exists delta_g,
              Server.s_average updated_weights = Some delta_g
              /\ 0.432 / 3.3 < delta_g
              /\ delta_g - 0.432 / 3.3 <= 59 * 0.9835 ^ round).
Proof.
  rewrite estimate_value.
  pose proof (pos_INR round) as Hr.
  destruct (Server.s_average updated_weights) as [delta_g|].
  - destruct (Rlt_dec (0.432 / 3.3) delta_g) as [Hx|Hx].
    + eexists. split; [reflexivity|].
      assert (Ha : 0 < (delta_g - 0.432 / 3.3) / 59)
        by (apply Rdiv_lt_0_compat; lra).
      rewrite (log_window _ 0.9835 round Ha) by lra.
      split.
      * intros H. exists delta_g. split; [reflexivity|]. split; [exact Hx|].
        lra.
      * intros (d & Hd & _ & H). injection Hd as <-. lra.
    + exists (-1). split; [reflexivity|]. split; [lra|].
      intros (d & Hd & H & _). injection Hd as <-. contradiction.
  - exists (-1). split; [reflexivity|]. split; [lra|].
    intros (d & Hd & _). discriminate Hd.
Qed.

Lemma scenario_weights :
  aggregated_weights scenario_server
  = Ok [("w"%string, Tensor [2%nat] [4.0; 1.0])].
Proof.
  cbv -[Rplus Rmult Rdiv IZR Rinv Rminus Q2R]. repeat f_equal; lra.
Qed.

Lemma scenario_drift :
  exists delta_g,
    Server.s_average [("w"%string, Tensor [2%nat] [4.0; 1.0])] = Some delta_g
    /\ 4 <= delta_g <= 5.
Proof.
  eexists. split; [reflexivity|].
  cbv -[Rplus Rmult Rdiv IZR Rinv Rminus Q2R sqrt Rle Rlt].
  replace (0 + 4.0 * 4.0 + 1.0 * 1.0) with 17 by lra.
  assert (H4 : sqrt (4 * 4) <= sqrt 17) by (apply sqrt_le_1_alt; lra).
  assert (H5 : sqrt 17 <= sqrt (5 * 5)) by (apply sqrt_le_1_alt; lra).
  rewrite sqrt_square in H4, H5 by lra. lra.
Qed.

(** In the aggregation scenario the stop test holds: the new weights have
    a mean norm between 4 and 5, and the round is round 1. *)
Lemma scenario_stop_time :
  exists t,
    Server.estimate [("w"%string, Tensor [2%nat] [4.0; 1.0])] = Ok t
    /\ 0 <= t /\ IZR (Server.self_current_round scenario_server) <= t.
Proof.
  destruct (estimate_window [("w"%string, Tensor [2%nat] [4.0; 1.0])] 1)
    as [t [Ht Hw]].
  exists t. split; [exact Ht|].
  assert (H1 : INR 1 <= t).
  { apply Hw. destruct scenario_drift as [d [Hd Hb]].
    exists d. split; [exact Hd|]. simpl. lra. }
  simpl in H1. split; [lra|exact H1].
Qed.

(** * The claims *)

(** C3: the estimator sets [t] to the logarithm of [numerator / denominator]
    in base [lambda_value] when [numerator > 0], [denominator > 0],
    [lambda_value > 0] and [lambda_value <> 1], and to the sentinel [-1]
    otherwise; it never raises, neither on arbitrary values of the three
    quantities nor with the constants of [_process_reports] on any weights. *)
Theorem estimator_log_or_sentinel :
  (forall (numerator : option R) (denominator lambda_value : R),
     exists t,
       Server.stopping_time numerator denominator lambda_value = Ok t
       /\ t_spec numerator denominator lambda_value t)
  /\ (forall updated_weights : dict tensor,
        exists t,
          Server.estimate updated_weights = Ok t
          /\ t_spec
               (option_map
                  (fun delta_g =>
                     delta_g - 4 * 1.0 * (0.04 * 0.2 + 0.1) / (0.3 * (8 + 3 * 1)))
                  (Server.s_average updated_weights))
               (1.0 / 0.3 * 18 - 1)
               (1 - 0.04 * 0.3 * (1 + 3 * 1 / 8)) t).
Proof.
  split.
  - exact stopping_time_sound.
  - intros w. unfold Server.estimate. cbv zeta. apply stopping_time_sound.
Qed.

(** C2: in a round numbered from 0 upwards, the statement
    [raise StopIteration] is reached exactly when [t >= 0] and
    [t >= current_round], and never on the sentinel [-1].  But
    [_process_reports] is a coroutine: when the test holds, the caller that
    awaits it receives [RuntimeError], with the new weights already loaded,
    which the Round Coordinator takes as a round-level error; no result of
    [_process_reports] is a stop recommendation. *)
Theorem stop_recommendation (trainer_test : dict tensor -> R)
    (on_clients_processed : Server.server -> result unit)
    (self : Server.server) (t : R) :
  (0 <= Server.self_current_round self)%Z ->
  (fst (Server.check_stop t self) = Raise StopIteration
   <-> 0 <= t /\ IZR (Server.self_current_round self) <= t)
  /\ (~ (0 <= t /\ IZR (Server.self_current_round self) <= t) ->
      Server.check_stop t self = (Ok tt, self))
  /\ Server.check_stop (-1) self = (Ok tt, self)
  /\ (forall w,
        aggregated_weights self = Ok w ->
        (exists t', Server.estimate w = Ok t'
                    /\ 0 <= t' /\ IZR (Server.self_current_round self) <= t') ->
        fst (Server._process_reports trainer_test on_clients_processed self)
        = Raise RuntimeError
        /\ Server.self_model
             (snd (Server._process_reports trainer_test on_clients_processed
                                           self)) = w
        /\ forall total_rounds target_reached,
             deciding total_rounds target_reached
                      (Server._process_reports trainer_test
                                               on_clients_processed self)
             = RoundError RuntimeError)
  /\ (forall total_rounds target_reached,
        deciding total_rounds target_reached
                 (Server._process_reports trainer_test on_clients_processed
                                          self)
        <> Terminate StopRecommended).
Proof.
  intros Hround. apply IZR_le in Hround.
  split; [|split; [|split; [|split]]].
  - rewrite check_stop_run. destruct (Rle_dec _ t) as [H|H]; simpl.
    + split; [intros _; split; lra|reflexivity].
    + split; [discriminate|]. intros [_ H']. contradiction.
  - intros Hn. rewrite check_stop_run.
    destruct (Rle_dec _ t) as [H|H]; [|reflexivity].
    exfalso. apply Hn. split; lra.
  - rewrite check_stop_run. destruct (Rle_dec _ (-1)) as [H|H]; [lra|reflexivity].
  - intros w Ha (t' & Ht & _ & Hle).
    rewrite (process_reports_stops trainer_test on_clients_processed self w t'
               Ha Ht Hle).
    split; [reflexivity|]. split; reflexivity.
  - intros total_rounds target_reached H.
    pose proof (coroutine_no_stop
                  (Server._process_reports_body trainer_test
                                                on_clients_processed) self)
      as Hns.
    unfold deciding in H.
    change (Server.coroutine
              (Server._process_reports_body trainer_test on_clients_processed)
              self)
      with (Server._process_reports trainer_test on_clients_processed self)
      in Hns.
    destruct (fst (Server._process_reports trainer_test on_clients_processed
                                           self)) as [u|e].
    + destruct (total_rounds <=? _)%Z; [discriminate H|].
      destruct target_reached; discriminate H.
    + destruct e; try discriminate H. apply Hns. reflexivity.
Qed.

Lemma stop_recommendation_witness :
  fst (Server._process_reports (fun _ => 0) (fun _ => Ok tt) scenario_server)
  = Raise RuntimeError
  /\ Server.self_model
       (snd (Server._process_reports (fun _ => 0) (fun _ => Ok tt)
                                     scenario_server))
     = [("w"%string, Tensor [2%nat] [4.0; 1.0])]
  /\ forall total_rounds target_reached,
       deciding total_rounds target_reached
                (Server._process_reports (fun _ => 0) (fun _ => Ok tt)
                                         scenario_server)
       = RoundError RuntimeError.
Proof.
  apply (proj1 (proj2 (proj2 (proj2
           (stop_recommendation (fun _ => 0) (fun _ => Ok tt)
                                scenario_server 0 ltac:(simpl; lia)))))).
  - exact scenario_weights.
  - exact scenario_stop_time.
Defined.

(** C6: on a batch with a positive total of samples, the accuracy summary is
    the weighted mean, and the square root of the weighted variance around
    it; two reports with 2 samples each and accuracies 0.8 and 0.6 give the
    mean 0.7 and the standard deviation 0.1. *)
Theorem accuracy_mean_std_weighted :
  (forall updates : list Update,
     updates <> [] ->
     (0 < total_samples_of updates)%N ->
     Server.get_accuracy_mean_std updates
     = Ok (mean_spec updates, sqrt (variance_spec updates)))
  /\ Server.get_accuracy_mean_std scenario_accuracies = Ok (0.7, 0.1).
Proof.
  split.
  - intros updates _ Hpos. apply get_accuracy_mean_std_ok. lia.
  - rewrite get_accuracy_mean_std_ok by discriminate.
    assert (Hm : mean_spec scenario_accuracies = 0.7).
    { cbv -[Rplus Rmult Rdiv IZR Rinv Rminus Q2R]. lra. }
    assert (Hv : variance_spec scenario_accuracies = 0.1 * 0.1).
    { unfold variance_spec. rewrite Hm.
      cbv -[Rplus Rmult Rdiv IZR Rinv Rminus Q2R]. lra. }
    rewrite Hm, Hv, sqrt_square by lra. reflexivity.
Qed.

Lemma accuracy_mean_std_weighted_witness :
  Server.get_accuracy_mean_std scenario_accuracies
  = Ok (mean_spec scenario_accuracies,
        sqrt (variance_spec scenario_accuracies)).
Proof.
  apply (proj1 accuracy_mean_std_weighted scenario_accuracies).
  - discriminate.
  - reflexivity.
Defined.

Lemma delta_aggregation_weighted_average_witness :
  exists avg updated,
    fst (Server.aggregate_deltas scenario_updates scenario_deltas
                                 scenario_server) = Ok avg
    /\ Algorithm.update_weights scenario_baseline avg = Ok updated
    /\ (forall name k,
          elem avg name k
          = avg_delta_spec scenario_updates scenario_deltas name k)
    /\ (forall name k,
          elem updated name k = elem scenario_baseline name k + elem avg name k)
    /\ schema updated = schema scenario_baseline.
Proof.
  apply (proj1 delta_aggregation_weighted_average scenario_server
               scenario_baseline scenario_updates scenario_deltas).
  - discriminate.
  - reflexivity.
  - reflexivity.
  - reflexivity.
  - repeat constructor.
Defined.

(** C7: on a valid batch (a well-formed baseline, every payload well formed
    and of the names and shapes of the baseline, a positive total of
    samples), what [aggregate_deltas] returns has the names and the shapes of
    the baseline, and the weights that [_process_reports] aggregates and loads
    have exactly the names and the shapes of the baseline, in its order. *)
Theorem aggregation_preserves_schema (trainer_test : dict tensor -> R)
    (on_clients_processed : Server.server -> result unit)
    (self : Server.server) :
  Server.self_updates self <> [] ->
  (0 < total_samples_of (Server.self_updates self))%N ->
  dict_wf (Server.self_model self) = true ->
  Forall (fun update =>
            dict_wf (payload update) = true
            /\ same_schema (payload update) (Server.self_model self) = true)
         (Server.self_updates self) ->
  exists deltas avg updated,
    Algorithm.compute_weight_deltas
      (Server.self_model self) (map payload (Server.self_updates self))
    = Ok deltas
    /\ fst (Server.aggregate_deltas (Server.self_updates self) deltas self)
       = Ok avg
    /\ same_schema avg (Server.self_model self) = true
    /\ aggregated_weights self = Ok updated
    /\ schema updated = schema (Server.self_model self)
    /\ same_schema updated (Server.self_model self) = true
    /\ Server.self_model (snd (Server._process_reports trainer_test on_clients_processed
        self))
       = updated.
Proof.
  intros Hne Hpos Hwb Hall.
  destruct (compute_weight_deltas_ok (Server.self_model self)
              (map payload (Server.self_updates self)) Hwb)
    as (deltas & Hcd & Hlen & Hd & _).
  { apply Forall_map. exact Hall. }
  rewrite length_map in Hlen.
  destruct (aggregate_and_update self (Server.self_model self)
              (Server.self_updates self) deltas Hne Hlen Hpos Hwb Hd)
    as (avg & updated & Hagg & Hup & _ & _ & Hs & _).
  assert (Ha : aggregated_weights self = Ok updated).
  { unfold aggregated_weights. rewrite Hcd. cbn [bind]. rewrite Hagg.
    cbn [bind]. exact Hup. }
  exists deltas, avg, updated.
  split; [exact Hcd|]. split; [exact Hagg|]. split.
  { destruct deltas as [|first rest];
      [destruct (Server.self_updates self); [contradiction|discriminate]|].
    destruct (aggregate_deltas_ok_agree _ _ _ _ _ Hagg) as [Hsa _].
    inversion Hd as [|? ? [_ Hfirst] _]; subst.
    rewrite (same_schema_via_schema avg (Server.self_model self)
               first (Server.self_model self) Hsa eq_refl).
    exact Hfirst. }
  split; [exact Ha|]. split; [exact Hs|]. split.
  - rewrite (same_schema_via_schema updated (Server.self_model self)
               (Server.self_model self) (Server.self_model self) Hs eq_refl).
    unfold same_schema. rewrite andb_diag.
    unfold sub_schema. apply forallb_forall. intros item Hin.
    unfold dict_wf in Hwb. apply andb_prop in Hwb as [Hu _].
    destruct item as [k t]. cbn [fst snd].
    rewrite (unique_keys_In_get _ _ _ Hu Hin). apply shape_eqb_refl.
  - apply process_reports_model. exact Ha.
Qed.

Lemma aggregation_preserves_schema_witness :
  exists deltas avg updated,
    Algorithm.compute_weight_deltas
      (Server.self_model scenario_server)
      (map payload (Server.self_updates scenario_server))
    = Ok deltas
    /\ fst (Server.aggregate_deltas (Server.self_updates scenario_server)
                                    deltas scenario_server)
       = Ok avg
    /\ same_schema avg (Server.self_model scenario_server) = true
    /\ aggregated_weights scenario_server = Ok updated
    /\ schema updated = schema (Server.self_model scenario_server)
    /\ same_schema updated (Server.self_model scenario_server) = true
    /\ Server.self_model
         (snd (Server._process_reports (fun _ => 0) (fun _ => Ok tt)
         scenario_server))
       = updated.
Proof.
  apply (aggregation_preserves_schema (fun _ => 0) (fun _ => Ok tt)
           scenario_server).
  - discriminate.
  - reflexivity.
  - reflexivity.
  - repeat constructor.
Defined.

(** *** Failures of the aggregation *)

Lemma aggregate_deltas_empty (deltas : list (dict tensor))
    (self : Server.server) :
  fst (Server.aggregate_deltas [] deltas self) = Raise IndexError.
Proof. destruct deltas as [|first rest]; reflexivity. Qed.

Lemma aggregate_deltas_zero_total (updates : list Update)
    (first : dict tensor) (rest : list (dict tensor)) (self : Server.server) :
  updates <> [] -> total_samples_of updates = 0%N -> first <> [] ->
  fst (Server.aggregate_deltas updates (first :: rest) self)
  = Raise ZeroDivisionError.
Proof.
  intros Hu Ht Hf.
  change (fst (Server.aggregate_deltas updates (first :: rest) self))
    with (for_each
            (Server.accumulate_update (total_samples_of updates) updates)
            (enumerate (first :: rest))
            (map (fun item => (fst item, zeros (shape (snd item)))) first)).
  rewrite Ht. destruct updates as [|u updates]; [contradiction|].
  destruct first as [|[n d] first]; [contradiction|].
  cbn [enumerate enumerate_from for_each].
  unfold Server.accumulate_update at 1. cbn [fst snd list_index nth_error bind].
  cbn [for_each]. unfold Server.accumulate at 1, getitem.
  cbn [map fst snd dict_get]. rewrite String.eqb_refl. reflexivity.
Qed.

(** C4, as the code has it: without reports the aggregation raises
    [IndexError]; with reports, no sample in total and a first delta of at
    least one parameter it raises [ZeroDivisionError]; whenever the
    aggregation raises, [_process_reports] raises the same exception and the
    weights of the model are those from before the round. *)
Theorem aggregation_failures (trainer_test : dict tensor -> R)
    (on_clients_processed : Server.server -> result unit)
    (self : Server.server) :
  (forall deltas, fst (Server.aggregate_deltas [] deltas self) = Raise IndexError)
  /\ (forall updates first rest,
        updates <> [] -> total_samples_of updates = 0%N -> first <> [] ->
        fst (Server.aggregate_deltas updates (first :: rest) self)
        = Raise ZeroDivisionError)
  /\ (Server.self_updates self = [] ->
      fst (Server._process_reports trainer_test on_clients_processed
        self) = Raise IndexError
      /\ Server.self_model (snd (Server._process_reports trainer_test on_clients_processed
        self))
         = Server.self_model self)
  /\ (forall first rest,
        Server.self_updates self <> [] ->
        total_samples_of (Server.self_updates self) = 0%N ->
        Algorithm.compute_weight_deltas
          (Server.self_model self) (map payload (Server.self_updates self))
        = Ok (first :: rest) ->
        first <> [] ->
        fst (Server._process_reports trainer_test on_clients_processed
        self)
        = Raise ZeroDivisionError
        /\ Server.self_model (snd (Server._process_reports trainer_test on_clients_processed
        self))
           = Server.self_model self)
  /\ (forall e,
        aggregated_weights self = Raise e ->
        fst (Server._process_reports trainer_test on_clients_processed
        self) = Raise e
        /\ Server.self_model (snd (Server._process_reports trainer_test on_clients_processed
        self))
           = Server.self_model self).
Proof.
  split; [|split; [|split; [|split]]].
  - intros deltas. apply aggregate_deltas_empty.
  - intros. apply aggregate_deltas_zero_total; assumption.
  - intros He. apply process_reports_failure.
    unfold aggregated_weights. rewrite He. reflexivity.
  - intros first rest Hne Ht Hcd Hf. apply process_reports_failure.
    unfold aggregated_weights. rewrite Hcd. cbn [bind].
    rewrite aggregate_deltas_zero_total by assumption. reflexivity.
  - intros e. apply process_reports_failure.
Qed.

Lemma aggregation_failures_witness :
  fst (Server._process_reports (fun _ => 0) (fun _ => Ok tt)
         zero_total_server)
  = Raise ZeroDivisionError
  /\ Server.self_model
       (snd (Server._process_reports (fun _ => 0) (fun _ => Ok tt)
         zero_total_server))
     = Server.self_model zero_total_server.
Proof.
  apply (proj1 (proj2 (proj2 (proj2
           (aggregation_failures (fun _ => 0) (fun _ => Ok tt)
              zero_total_server))))
           [("w"%string,
             Tensor [1%nat] (zip_with Rminus [1.0] [1.0]))] []).
  - discriminate.
  - reflexivity.
  - reflexivity.
  - discriminate.
Defined.

(** C4, as the specification states it, fails: a batch of one report, no
    sample in total, and a model without parameters is aggregated without any
    exception. *)
Lemma zero_total_without_failure :
  zero_total_updates <> []
  /\ total_samples_of zero_total_updates = 0%N
  /\ fst (Server.aggregate_deltas zero_total_updates zero_total_deltas
                                  scenario_server) = Ok [].
Proof. split; [discriminate|]. split; reflexivity. Qed.

(** C5, as the code has it: a report whose delta names a parameter that the
    first delta lacks, or holds under a name a tensor that cannot be added
    into the tensor the first delta has there (its shape does not broadcast
    to that shape), is not set aside: the whole aggregation raises and
    returns no update. *)
Theorem mismatched_report_aborts (updates : list Update)
    (first : dict tensor) (rest : list (dict tensor)) (self : Server.server)
    (d : dict tensor) (name : string) (t : tensor) :
  In d (first :: rest) ->
  In (name, t) d ->
  (dict_get first name = None
   \/ exists t0, dict_get first name = Some t0
                 /\ adds_into (shape t0) (shape t) = false) ->
  exists e,
    fst (Server.aggregate_deltas updates (first :: rest) self) = Raise e.
Proof.
  intros Hd Hin Hbad.
  destruct (fst (Server.aggregate_deltas updates (first :: rest) self))
    as [avg|e] eqn:Hrun; [|exists e; reflexivity].
  exfalso.
  destruct (aggregate_deltas_ok_agree _ _ _ _ _ Hrun) as [_ Hagree].
  destruct (Hagree d name t Hd Hin) as (t0 & Hget & Hsh).
  destruct Hbad as [Hnone|(t1 & Hget1 & Hne)]; congruence.
Qed.

Lemma mismatched_report_aborts_witness :
  exists e,
    fst (Server.aggregate_deltas mismatch_updates mismatch_deltas
                                 scenario_server) = Raise e.
Proof.
  apply (mismatched_report_aborts mismatch_updates
           [("w"%string, Tensor [1%nat] [1.0])]
           [[("v"%string, Tensor [1%nat] [5.0])]] scenario_server
           [("v"%string, Tensor [1%nat] [5.0])]
           "v"%string (Tensor [1%nat] [5.0])).
  - right. left. reflexivity.
  - left. reflexivity.
  - left. reflexivity.
Defined.

(** C5, as the specification states it, fails.  With a second delta that
    names an unknown parameter the aggregation raises [KeyError], where the
    batch without that client is aggregated; with a second delta that lacks
    a parameter, the client still counts in [total_samples] and the result
    ([1.0]) is not that of the batch without the client ([4.0]); with a
    second delta of shape [1] where the first has shape [2], the value is
    broadcast and added to both elements ([6.25; 6.25]), where the batch
    without the client gives [1.0; 1.0]; with a second delta of shape [3]
    the aggregation raises [RuntimeError]. *)
Lemma mismatched_report_not_excluded :
  fst (Server.aggregate_deltas mismatch_updates mismatch_deltas scenario_server)
  = Raise KeyError
  /\ fst (Server.aggregate_deltas mismatch_updates mismatch_deltas
                                  scenario_server)
     <> fst (Server.aggregate_deltas (firstn 1 mismatch_updates)
                                     (firstn 1 mismatch_deltas) scenario_server)
  /\ fst (Server.aggregate_deltas missing_updates missing_deltas scenario_server)
     = Ok [("w"%string, Tensor [1%nat] [1.0])]
  /\ fst (Server.aggregate_deltas (firstn 1 missing_updates)
                                  (firstn 1 missing_deltas) scenario_server)
     = Ok [("w"%string, Tensor [1%nat] [4.0])]
  /\ fst (Server.aggregate_deltas missing_updates missing_deltas scenario_server)
     <> fst (Server.aggregate_deltas (firstn 1 missing_updates)
                                     (firstn 1 missing_deltas) scenario_server)
  /\ fst (Server.aggregate_deltas broadcast_updates broadcast_deltas
                                  scenario_server)
     = Ok [("w"%string, Tensor [2%nat] [6.25; 6.25])]
  /\ fst (Server.aggregate_deltas (firstn 1 broadcast_updates)
                                  (firstn 1 broadcast_deltas) scenario_server)
     = Ok [("w"%string, Tensor [2%nat] [1.0; 1.0])]
  /\ fst (Server.aggregate_deltas broadcast_updates broadcast_deltas
                                  scenario_server)
     <> fst (Server.aggregate_deltas (firstn 1 broadcast_updates)
                                     (firstn 1 broadcast_deltas)
                                     scenario_server)
  /\ fst (Server.aggregate_deltas broadcast_updates shape_deltas
                                  scenario_server)
     = Raise RuntimeError.
Proof.
  assert (H3 : fst (Server.aggregate_deltas broadcast_updates broadcast_deltas
                                            scenario_server)
               = Ok [("w"%string, Tensor [2%nat] [6.25; 6.25])])
    by (cbv -[Rplus Rmult Rdiv IZR Rinv Rminus Q2R]; repeat f_equal; lra).
  assert (H4 : fst (Server.aggregate_deltas (firstn 1 broadcast_updates)
                      (firstn 1 broadcast_deltas) scenario_server)
               = Ok [("w"%string, Tensor [2%nat] [1.0; 1.0])])
    by (cbv -[Rplus Rmult Rdiv IZR Rinv Rminus Q2R]; repeat f_equal; lra).
  assert (H1 : fst (Server.aggregate_deltas missing_updates missing_deltas
                                            scenario_server)
               = Ok [("w"%string, Tensor [1%nat] [1.0])])
    by (cbv -[Rplus Rmult Rdiv IZR Rinv Rminus Q2R]; repeat f_equal; lra).
  assert (H2 : fst (Server.aggregate_deltas (firstn 1 missing_updates)
                      (firstn 1 missing_deltas) scenario_server)
               = Ok [("w"%string, Tensor [1%nat] [4.0])])
    by (cbv -[Rplus Rmult Rdiv IZR Rinv Rminus Q2R]; repeat f_equal; lra).
  split; [reflexivity|]. split; [discriminate|].
  split; [exact H1|]. split; [exact H2|].
  split; [rewrite H1, H2; intros H; inversion H; lra|].
  split; [exact H3|]. split; [exact H4|].
  split; [rewrite H3, H4; intros H; inversion H; lra|].
  cbv -[Rplus Rmult Rdiv IZR Rinv Rminus Q2R]. reflexivity.
Qed.

(** ** The frame of the aggregation on tensor objects *)

Section Frames.

Variable n : nat.

Lemma frames_ret {A : Type} (a : A) (Q : A -> Prop) :
  Q a -> Obj.frames n (Obj.ret a) Q.
Proof.
  intros HQ h Hn. simpl. split; [assumption|]. split; [reflexivity|].
  intros a' H. inversion H; subst. assumption.
Qed.

Lemma frames_lift {A : Type} (c : result A) (Q : A -> Prop) :
  (forall a, c = Ok a -> Q a) -> Obj.frames n (Obj.lift c) Q.
Proof.
  intros HQ h Hn. simpl. split; [assumption|]. split; [reflexivity|].
  exact HQ.
Qed.

Lemma frames_bind {A B : Type} (c : Obj.H A) (k : A -> Obj.H B)
    (P : A -> Prop) (Q : B -> Prop) :
  Obj.frames n c P -> (forall a, P a -> Obj.frames n (k a) Q) ->
  Obj.frames n (Obj.bind c k) Q.
Proof.
  intros Hc Hk h Hn. unfold Obj.bind.
  destruct (Hc h Hn) as (Hlen & Hfirst & HP).
  destruct (c h) as [[a|e] h1]; cbn [fst snd] in *.
  - destruct (Hk a (HP a eq_refl) h1 Hlen) as (Hlen' & Hfirst' & HQ).
    split; [assumption|]. split; [congruence|assumption].
  - split; [assumption|]. split; [assumption|]. intros b H. discriminate.
Qed.

Lemma frames_weaken {A : Type} (c : Obj.H A) (P Q : A -> Prop) :
  Obj.frames n c P -> (forall a, P a -> Q a) -> Obj.frames n c Q.
Proof.
  intros Hc HPQ h Hn. destruct (Hc h Hn) as (H1 & H2 & H3).
  split; [assumption|]. split; [assumption|]. intros a Ha. auto.
Qed.

Lemma frames_new (t : tensor) :
  Obj.frames n (Obj.new t) (fun r => (n <= r)%nat).
Proof.
  intros h Hn. unfold Obj.new. cbn [fst snd].
  split; [rewrite length_app; lia|]. split.
  - rewrite firstn_app. replace (n - List.length h)%nat with 0%nat by lia.
    simpl. apply app_nil_r.
  - intros r H. inversion H; subst. assumption.
Qed.

Lemma frames_load (r : Obj.ref) :
  Obj.frames n (Obj.load r) (fun _ => True).
Proof.
  intros h Hn. unfold Obj.load. cbn [fst snd]. auto.
Qed.

Lemma replace_at_length (h : Obj.store) (r : Obj.ref) (t : tensor) :
  List.length (Obj.replace_at h r t) = List.length h.
Proof.
  revert r. induction h as [|x h IH]; intros [|r]; simpl; auto.
Qed.

Lemma firstn_replace_at (h : Obj.store) (r : Obj.ref) (t : tensor) (m : nat) :
  (m <= r)%nat -> firstn m (Obj.replace_at h r t) = firstn m h.
Proof.
  revert r m. induction h as [|x h IH]; intros r m Hm; [destruct r; reflexivity|].
  destruct m as [|m]; [reflexivity|].
  destruct r as [|r]; [lia|]. simpl. rewrite IH by lia. reflexivity.
Qed.

Lemma frames_write (r : Obj.ref) (t : tensor) :
  (n <= r)%nat -> Obj.frames n (Obj.write r t) (fun _ => True).
Proof.
  intros Hr h Hn. unfold Obj.write. cbn [fst snd].
  split; [rewrite replace_at_length; assumption|].
  split; [apply firstn_replace_at; assumption|auto].
Qed.

Lemma frames_for_each {A S : Type} (body : S -> A -> Obj.H S)
    (Q : S -> Prop) (l : list A) (s : S) :
  (forall s x, Q s -> Obj.frames n (body s x) Q) ->
  Q s -> Obj.frames n (Obj.for_each body l s) Q.
Proof.
  intros Hb. revert s. induction l as [|x l IH]; intros s Hs; simpl.
  - apply frames_ret. assumption.
  - apply frames_bind with (P := Q); [apply Hb; assumption|exact IH].
Qed.

Lemma frames_map_H {A B : Type} (f : A -> Obj.H B) (P : B -> Prop)
    (l : list A) :
  (forall x, Obj.frames n (f x) P) ->
  Obj.frames n (Obj.map_H f l) (Forall P).
Proof.
  intros Hf. induction l as [|x l IH]; simpl.
  - apply frames_ret. constructor.
  - apply frames_bind with (P := P); [apply Hf|]. intros y Hy.
    apply frames_bind with (P := Forall P); [exact IH|]. intros ys Hys.
    apply frames_ret. constructor; assumption.
Qed.

(** The objects the arithmetic makes are new. *)
Lemma frames_zeros_like (r : Obj.ref) :
  Obj.frames n (Obj.zeros_like r) (fun z => (n <= z)%nat).
Proof.
  unfold Obj.zeros_like.
  apply frames_bind with (P := fun _ => True); [apply frames_load|].
  intros t _. apply frames_new.
Qed.

Lemma frames_mul (r : Obj.ref) (c : R) :
  Obj.frames n (Obj.mul r c) (fun z => (n <= z)%nat).
Proof.
  unfold Obj.mul.
  apply frames_bind with (P := fun _ => True); [apply frames_load|].
  intros t _. apply frames_new.
Qed.

Lemma frames_add (a b : Obj.ref) :
  Obj.frames n (Obj.add a b) (fun z => (n <= z)%nat).
Proof.
  unfold Obj.add.
  apply frames_bind with (P := fun _ => True); [apply frames_load|].
  intros x _.
  apply frames_bind with (P := fun _ => True); [apply frames_load|].
  intros y _.
  apply frames_bind with (P := fun _ => True); [apply frames_lift; auto|].
  intros s _. apply frames_new.
Qed.

Lemma frames_sub (a b : Obj.ref) :
  Obj.frames n (Obj.sub a b) (fun z => (n <= z)%nat).
Proof.
  unfold Obj.sub.
  apply frames_bind with (P := fun _ => True); [apply frames_load|].
  intros x _.
  apply frames_bind with (P := fun _ => True); [apply frames_load|].
  intros y _.
  apply frames_bind with (P := fun _ => True); [apply frames_lift; auto|].
  intros s _. apply frames_new.
Qed.

(** [a += b] writes into [a] only: it keeps the old objects when [a] is new. *)
Lemma frames_iadd (a b : Obj.ref) :
  (n <= a)%nat -> Obj.frames n (Obj.iadd a b) (fun _ => True).
Proof.
  intros Ha. unfold Obj.iadd.
  apply frames_bind with (P := fun _ => True); [apply frames_load|].
  intros x _.
  apply frames_bind with (P := fun _ => True); [apply frames_load|].
  intros y _.
  apply frames_bind with (P := fun _ => True); [apply frames_lift; auto|].
  intros s _. apply frames_write. assumption.
Qed.

(** The invariant of the loops: [avg_update] holds new objects only. *)


Lemma all_new_get (d : dict Obj.ref) (k : string) (r : Obj.ref) :
  Obj.all_new n d -> getitem d k = Ok r -> (n <= r)%nat.
Proof.
  intros Hd. unfold getitem. destruct (dict_get d k) as [v|] eqn:E;
    [|discriminate].
  intros H. inversion H; subst. apply dict_get_In in E.
  unfold Obj.all_new in Hd. rewrite Forall_forall in Hd. exact (Hd _ E).
Qed.

Lemma all_new_setitem (d : dict Obj.ref) (k : string) (r : Obj.ref) :
  Obj.all_new n d -> (n <= r)%nat -> Obj.all_new n (setitem d k r).
Proof.
  intros Hd Hr. induction d as [|[k' v'] d IH]; simpl.
  - constructor; [assumption|constructor].
  - inversion Hd as [|? ? H1 H2]; subst.
    destruct (String.eqb k' k); constructor; try assumption.
    apply IH. assumption.
Qed.

Lemma frames_accumulate (total ns : N) (avg : dict Obj.ref)
    (item : string * Obj.ref) :
  Obj.all_new n avg -> Obj.frames n (Obj.accumulate total ns avg item) (Obj.all_new n).
Proof.
  intros Havg. unfold Obj.accumulate.
  apply frames_bind with (P := fun target => (n <= target)%nat).
  { apply frames_lift. intros r. apply all_new_get. assumption. }
  intros target Ht.
  apply frames_bind with (P := fun _ => True); [apply frames_lift; auto|].
  intros w _.
  apply frames_bind with (P := fun _ => True).
  { eapply frames_weaken; [apply frames_mul|auto]. }
  intros scaled _.
  apply frames_bind with (P := fun _ => True); [apply frames_iadd; assumption|].
  intros _ _. apply frames_ret. apply all_new_setitem; assumption.
Qed.

Lemma frames_aggregate_loops (total : N) (updates : list Obj.Update)
    (deltas : list (dict Obj.ref)) :
  Obj.frames n (Obj.aggregate_loops total updates deltas) (Obj.all_new n).
Proof.
  unfold Obj.aggregate_loops.
  apply frames_bind with (P := fun _ => True); [apply frames_lift; auto|].
  intros first _.
  apply frames_bind with (P := Obj.all_new n).
  { apply frames_map_H. intros item.
    apply frames_bind with (P := fun z => (n <= z)%nat);
      [apply frames_zeros_like|].
    intros z Hz. apply frames_ret. exact Hz. }
  intros avg Havg.
  apply frames_for_each; [|assumption].
  intros s iu Hs. unfold Obj.accumulate_update.
  apply frames_bind with (P := fun _ => True); [apply frames_lift; auto|].
  intros u _. apply frames_for_each; [|assumption].
  intros s' item Hs'. apply frames_accumulate. assumption.
Qed.

End Frames.

Section LegacyFrames.

Variable n : nat.

Lemma list_set_new (l l' : list Obj.ref) (j : nat) (r : Obj.ref) :
  Forall (fun x => (n <= x)%nat) l -> (n <= r)%nat ->
  FedAvgServer.list_set l j r = Ok l' -> Forall (fun x => (n <= x)%nat) l'.
Proof.
  intros Hl Hr. revert j l'. induction Hl as [|x l Hx Hl IH]; intros j l' H.
  - destruct j; discriminate H.
  - destruct j as [|j].
    + inversion H; subst. constructor; assumption.
    + change (bind (FedAvgServer.list_set l j r) (fun l'' => Ok (x :: l''))
              = Ok l') in H.
      destruct (FedAvgServer.list_set l j r) as [l''|] eqn:E;
        [|discriminate H].
      inversion H; subst. constructor; [assumption|].
      exact (IH j l'' E).
Qed.

Lemma list_index_new (l : list Obj.ref) (j : nat) (r : Obj.ref) :
  Forall (fun x => (n <= x)%nat) l -> list_index l j = Ok r -> (n <= r)%nat.
Proof.
  intros Hl. unfold list_index. destruct (nth_error l j) as [x|] eqn:E;
    [|discriminate].
  intros H. inversion H; subst. apply nth_error_In in E.
  rewrite Forall_forall in Hl. exact (Hl _ E).
Qed.

Lemma frames_legacy_accumulate (total ns : N) (avg : list Obj.ref)
    (jd : nat * (string * Obj.ref)) :
  Forall (fun x => (n <= x)%nat) avg ->
  Obj.frames n (ObjFedAvgServer.accumulate total ns avg jd)
             (Forall (fun x => (n <= x)%nat)).
Proof.
  intros Havg. unfold ObjFedAvgServer.accumulate.
  apply frames_bind with (P := fun target => (n <= target)%nat).
  { apply frames_lift. intros r. apply list_index_new. assumption. }
  intros target Ht.
  apply frames_bind with (P := fun _ => True); [apply frames_lift; auto|].
  intros w _.
  apply frames_bind with (P := fun _ => True).
  { eapply frames_weaken; [apply frames_mul|auto]. }
  intros scaled _.
  apply frames_bind with (P := fun _ => True); [apply frames_iadd; assumption|].
  intros _ _. apply frames_lift. intros l'.
  apply list_set_new; assumption.
Qed.

Lemma frames_compute_weight_updates (model : dict Obj.ref)
    (weights_received : list (dict Obj.ref)) :
  Obj.frames n (ObjFedAvgServer.compute_weight_updates model weights_received)
             (fun _ => True).
Proof.
  unfold ObjFedAvgServer.compute_weight_updates. cbv zeta.
  eapply frames_weaken; [|auto].
  apply frames_map_H with (P := fun _ => True). intros weight.
  apply frames_for_each; [|exact I]. intros update item _.
  apply frames_bind with (P := fun _ => True); [apply frames_lift; auto|].
  intros baseline _.
  apply frames_bind with (P := fun _ => True).
  { eapply frames_weaken; [apply frames_sub|auto]. }
  intros delta _. apply frames_ret. exact I.
Qed.

End LegacyFrames.

(** The legacy method keeps the old tensor objects and the model, and
    assigns [self.total_samples] once the updates are computed. *)
Lemma federated_averaging_frame (self : ObjFedAvgServer.server)
    (reports : list ObjFedAvgServer.Report) (h : Obj.store) :
  firstn (List.length h)
         (snd (ObjFedAvgServer.federated_averaging self reports h)) = h
  /\ ObjFedAvgServer.self_model
       (snd (fst (ObjFedAvgServer.federated_averaging self reports h)))
     = ObjFedAvgServer.self_model self.
Proof.
  unfold ObjFedAvgServer.federated_averaging.
  destruct (frames_compute_weight_updates (List.length h)
              (ObjFedAvgServer.self_model self)
              (map ObjFedAvgServer.weights reports) h (le_n _))
    as (Hlen & Hfirst & _).
  rewrite firstn_all in Hfirst.
  destruct (ObjFedAvgServer.compute_weight_updates _ _ h) as [[updates|e] h1];
    cbn [fst snd] in *; [|split; [assumption|reflexivity]].
  split; [|reflexivity].
  rewrite <- Hfirst at 2. cbv zeta.
  cbn [ObjFedAvgServer.self_total_samples ObjFedAvgServer.self_model].
  match goal with
  | |- firstn _ (snd (?c h1)) = _ =>
      assert (Hc : Obj.frames (List.length h) c (fun _ => True))
  end.
  { apply frames_bind with (P := fun _ => True); [apply frames_lift; auto|].
    intros first _.
    apply frames_bind with (P := Forall (fun x => (List.length h <= x)%nat)).
    { apply frames_map_H. intros nx. apply frames_zeros_like. }
    intros avg Havg.
    apply frames_bind with (P := Forall (fun x => (List.length h <= x)%nat)).
    { apply frames_for_each; [|assumption]. intros s iu Hs.
      unfold ObjFedAvgServer.accumulate_update.
      apply frames_bind with (P := fun _ => True); [apply frames_lift; auto|].
      intros r _. apply frames_for_each; [|assumption].
      intros s' jd Hs'. apply frames_legacy_accumulate. assumption. }
    intros avg' _. apply frames_for_each; [|exact I].
    intros updated ik _.
    apply frames_bind with (P := fun _ => True); [apply frames_lift; auto|].
    intros nw _.
    apply frames_bind with (P := fun _ => True); [apply frames_lift; auto|].
    intros a _.
    apply frames_bind with (P := fun _ => True).
    { unfold ObjFedAvgServer.str_add. apply frames_lift. auto. }
    intros w _. apply frames_ret. exact I. }
  destruct (Hc h1 Hlen) as (_ & H & _). exact H.
Qed.

(** C8, as the code has it: [aggregate_deltas] writes into no tensor object
    that existed before the call (the baseline, the payloads and the deltas
    keep their values: the objects it changes in place are the new tensors of
    [avg_update]), returns new objects only, and assigns one attribute of the
    server, [self.total_samples]. *)
Theorem aggregation_frame (updates : list Obj.Update)
    (deltas_received : list (dict Obj.ref)) (self : Obj.server)
    (h : Obj.store) :
  firstn (List.length h)
         (snd (Obj.aggregate_deltas updates deltas_received self h)) = h
  /\ snd (fst (Obj.aggregate_deltas updates deltas_received self h))
     = Obj.set_total_samples self
         (int_sum (map (fun update => num_samples (Obj.report update)) updates))
  /\ (forall avg_update,
        fst (fst (Obj.aggregate_deltas updates deltas_received self h))
        = Ok avg_update ->
        Obj.all_new (List.length h) avg_update)
  /\ forall (value_updates : list Update) (value_deltas : list (dict tensor))
            (value_self : Server.server),
       snd (Server.aggregate_deltas value_updates value_deltas value_self)
       = Server.set_total_samples value_self (total_samples_of value_updates).
Proof.
  unfold Obj.aggregate_deltas. cbv zeta. cbn [fst snd].
  destruct (frames_aggregate_loops (List.length h)
              (Obj.self_total_samples
                 (Obj.set_total_samples self
                    (int_sum (map (fun update => num_samples (Obj.report update))
                                  updates))))
              updates deltas_received h (le_n _)) as (_ & Hfirst & Hnew).
  rewrite firstn_all in Hfirst.
  split; [exact Hfirst|]. split; [reflexivity|]. split; [exact Hnew|].
  intros. reflexivity.
Qed.

(** C8, as the specification states it, fails: the aggregation of the
    scenario changes the attribute [total_samples] of the server from 0 to
    4. *)
Lemma aggregation_assigns_total_samples :
  Server.self_total_samples scenario_server = 0%N
  /\ Server.self_total_samples
       (snd (Server.aggregate_deltas scenario_updates scenario_deltas
                                     scenario_server)) = 4%N
  /\ snd (Server.aggregate_deltas scenario_updates scenario_deltas
                                  scenario_server) <> scenario_server.
Proof.
  split; [reflexivity|]. split; [reflexivity|].
  intros H. apply (f_equal Server.self_total_samples) in H. discriminate H.
Qed.

(** ** [FedAvgServer] *)

Lemma accuracy_averaging_loop (total : N) (l : list FedAvgServer.Report)
    (acc : R) :
  total <> 0%N ->
  for_each
    (fun accuracy report =>
       w <- int_truediv (FedAvgServer.num_samples report) total ;;
       Ok (accuracy + FedAvgServer.accuracy report * w))
    l acc
  = Ok (fold_left
          (fun a r => a + FedAvgServer.accuracy r
                          * (IZR (Z.of_N (FedAvgServer.num_samples r))
                             / IZR (Z.of_N total)))
          l acc).
Proof.
  intros Ht. revert acc. induction l as [|r l IH]; intros acc; [reflexivity|].
  simpl. rewrite int_truediv_ok by assumption. simpl. apply IH.
Qed.

(** [accuracy_averaging] is the weighted mean of section 4.3. *)
Lemma accuracy_averaging_ok (reports : list FedAvgServer.Report) :
  int_sum (map FedAvgServer.num_samples reports) <> 0%N ->
  FedAvgServer.accuracy_averaging reports
  = Ok (fold_left
          (fun a r =>
             a + FedAvgServer.accuracy r
                 * (IZR (Z.of_N (FedAvgServer.num_samples r))
                    / IZR (Z.of_N (int_sum (map FedAvgServer.num_samples
                                                reports)))))
          reports 0).
Proof.
  intros Ht. unfold FedAvgServer.accuracy_averaging. cbv zeta.
  apply accuracy_averaging_loop. assumption.
Qed.

(** [federated_averaging] on the scenario of section 8: the averaging loops
    run, and the last loop takes the name [w] apart as [(name, weight)],
    which raises [ValueError]. *)
Lemma legacy_scenario_aggregation :
  fst (FedAvgServer.federated_averaging legacy_scenario_server
                                        legacy_scenario_reports)
  = Raise ValueError.
Proof.
  cbv -[Rplus Rmult Rdiv IZR Rinv Rminus Q2R]. reflexivity.
Qed.

(** The last loop of [federated_averaging] raises on the first name. *)
Lemma last_loop_raises (avg_update : list tensor) (key : string)
    (rest : list string) (start : nat) (acc : list (string * tensor)) :
  exists e,
    for_each
      (fun updated_weights ik =>
         nw <- FedAvgServer.unpack_pair (snd ik) ;;
         avg <- list_index avg_update (fst ik) ;;
         w <- FedAvgServer.str_add (snd nw) avg ;;
         Ok (updated_weights ++ [(fst nw, w)]))
      (enumerate_from start (key :: rest)) acc
    = Raise e
    /\ (e = ValueError \/ e = IndexError \/ e = TypeError).
Proof.
  cbn [enumerate_from for_each fst snd].
  destruct (FedAvgServer.unpack_pair key) as [nw|e] eqn:Eu.
  - cbn [bind]. destruct (list_index avg_update start) as [a|e] eqn:Ei.
    + exists TypeError. split; [reflexivity|tauto].
    + exists e. split; [reflexivity|]. unfold list_index in Ei.
      destruct (nth_error avg_update start); inversion Ei. tauto.
  - exists e. split; [reflexivity|]. unfold FedAvgServer.unpack_pair in Eu.
    destruct key as [|c1 [|c2 [|c3 key]]]; inversion Eu; tauto.
Qed.

(** [federated_averaging] returns for a model without parameters only, and
    then returns no weights. *)
Lemma federated_averaging_returns (self : FedAvgServer.server)
    (reports : list FedAvgServer.Report) (updated : list (string * tensor)) :
  fst (FedAvgServer.federated_averaging self reports) = Ok updated ->
  FedAvgServer.self_model self = [] /\ updated = [].
Proof.
  unfold FedAvgServer.federated_averaging.
  destruct (FedAvgServer.extract_client_updates self reports) as [updates|];
    [|discriminate].
  cbn [fst FedAvgServer.self_model FedAvgServer.self_total_samples].
  destruct (list_index updates 0) as [first|]; [|discriminate]. cbn [bind].
  destruct (for_each _ (enumerate updates) _) as [avg|]; [|discriminate].
  cbn [bind]. unfold Trainer.extract_weights, enumerate.
  destruct (FedAvgServer.self_model self) as [|[key t] model].
  - simpl. intros H. inversion H. split; reflexivity.
  - cbn [keys map fst]. intros H.
    destruct (last_loop_raises avg key (map fst model) 0 []) as [e [He _]].
    rewrite He in H. discriminate H.
Qed.

(** [federated_averaging] keeps the model and assigns [total_samples]. *)
Lemma federated_averaging_state (self : FedAvgServer.server)
    (reports : list FedAvgServer.Report) :
  FedAvgServer.self_model (snd (FedAvgServer.federated_averaging self reports))
  = FedAvgServer.self_model self.
Proof.
  unfold FedAvgServer.federated_averaging.
  destruct (FedAvgServer.extract_client_updates self reports); reflexivity.
Qed.

(** The scenario of section 8 on tensor objects: the average lands in a new
    object, at address 3, and the three old objects keep their values. *)
Lemma scenario_on_objects :
  exists h',
    Obj.aggregate_deltas scenario_obj_updates scenario_delta_refs
                         scenario_obj_server scenario_store
    = (Ok [("w"%string, 3%nat)],
       Obj.set_total_samples scenario_obj_server 4, h')
    /\ firstn 3 h' = scenario_store
    /\ Obj.deref h' [("w"%string, 3%nat)]
       = Ok [("w"%string, Tensor [2%nat] [3.0; 0.0])].
Proof.
  eexists. split; [|split].
  - cbv -[Rplus Rmult Rdiv IZR Rinv Rminus Q2R]. reflexivity.
  - reflexivity.
  - cbv -[Rplus Rmult Rdiv IZR Rinv Rminus Q2R]. repeat f_equal; lra.
Qed.

(** ** The aggregation on tensor objects computes the values of
    [Server.aggregate_deltas] *)

Lemma deref_cons (h : Obj.store) (k : string) (r : Obj.ref)
    (d : dict Obj.ref) :
  Obj.deref h ((k, r) :: d)
  = (t <- list_index h r ;; dv <- Obj.deref h d ;; Ok ((k, t) :: dv)).
Proof.
  unfold Obj.deref. cbn [map_result fst snd].
  destruct (list_index h r); reflexivity.
Qed.

Lemma values_of_deref (h : Obj.store) (d : dict Obj.ref) (dv : dict tensor) :
  values_of h d dv <-> Obj.deref h d = Ok dv.
Proof.
  unfold values_of. split.
  - induction 1 as [|[k r] [k' t] d dv [Hk Hr] _ IH]; [reflexivity|].
    cbn [fst snd] in *. subst k'. rewrite deref_cons.
    unfold list_index. rewrite Hr. cbn [bind]. rewrite IH. reflexivity.
  - revert dv. induction d as [|[k r] d IH]; intros dv H.
    + inversion H. constructor.
    + rewrite deref_cons in H. unfold list_index in H.
      destruct (nth_error h r) as [t|] eqn:Hr; [|discriminate H].
      cbn [bind] in H.
      destruct (Obj.deref h d) as [dv'|]; [|discriminate H].
      cbn [bind] in H. inversion H; subst.
      constructor; [split; [reflexivity|exact Hr]|]. apply IH. reflexivity.
Qed.

Lemma values_of_get (h : Obj.store) (d : dict Obj.ref) (dv : dict tensor)
    (k : string) :
  values_of h d dv ->
  match dict_get d k with
  | Some r => exists t, nth_error h r = Some t /\ dict_get dv k = Some t
  | None => dict_get dv k = None
  end.
Proof.
  induction 1 as [|[k1 r] [k2 t] d dv [Hk Hr] _ IH]; [reflexivity|].
  cbn [fst snd] in *. subst k2. simpl.
  destruct (String.eqb k1 k); [|exact IH]. exists t. split; [exact Hr|reflexivity].
Qed.

Lemma values_of_app (h h2 : Obj.store) (d : dict Obj.ref) (dv : dict tensor) :
  values_of h d dv -> values_of (h ++ h2) d dv.
Proof.
  unfold values_of. intros H. eapply Forall2_impl; [|exact H].
  intros ir iv [Hk Hr]. split; [exact Hk|].
  rewrite nth_error_app1; [exact Hr|].
  apply nth_error_Some. congruence.
Qed.

Lemma nth_error_replace_at_eq (h : Obj.store) (r : Obj.ref) (t : tensor) :
  (r < List.length h)%nat -> nth_error (Obj.replace_at h r t) r = Some t.
Proof.
  revert r. induction h as [|x h IH]; intros [|r] Hr; simpl in *; try lia.
  - reflexivity.
  - apply IH. lia.
Qed.

Lemma nth_error_replace_at_neq (h : Obj.store) (r r' : Obj.ref) (t : tensor) :
  r' <> r -> nth_error (Obj.replace_at h r t) r' = nth_error h r'.
Proof.
  revert r r'. induction h as [|x h IH]; intros [|r] [|r'] Hne; simpl;
    try reflexivity; try congruence.
  apply IH. congruence.
Qed.

Lemma values_of_replace_other (h : Obj.store) (d : dict Obj.ref)
    (dv : dict tensor) (r : Obj.ref) (t : tensor) :
  ~ In r (map snd d) -> values_of h d dv ->
  values_of (Obj.replace_at h r t) d dv.
Proof.
  intros Hnot H. induction H as [|[k r'] iv d dv [Hk Hr] _ IH];
    [constructor|].
  cbn [map snd fst] in *. constructor.
  - split; [exact Hk|]. cbn [snd].
    rewrite nth_error_replace_at_neq; [exact Hr|]. intros E. apply Hnot.
    left. exact E.
  - apply IH. intros Hin. apply Hnot. right. exact Hin.
Qed.

Lemma dict_get_In_refs (d : dict Obj.ref) (k : string) (r : Obj.ref) :
  dict_get d k = Some r -> In r (map snd d).
Proof.
  intros H. apply dict_get_In in H. apply (in_map snd) in H. exact H.
Qed.

(** Writing into the object that [d] holds under [k] is [dv[k] = t]. *)
Lemma values_of_replace (h : Obj.store) (d : dict Obj.ref) (dv : dict tensor)
    (k : string) (r : Obj.ref) (t : tensor) :
  NoDup (map snd d) -> values_of h d dv -> dict_get d k = Some r ->
  values_of (Obj.replace_at h r t) d (setitem dv k t).
Proof.
  intros Hnd H. revert Hnd.
  induction H as [|[k1 r1] [k2 t2] d dv [Hk Hr] Hrest IH]; intros Hnd Hget;
    [discriminate Hget|].
  cbn [fst snd] in *. subst k2. cbn [map snd] in Hnd.
  inversion Hnd as [|? ? Hnotin Hnd']; subst.
  simpl in Hget. simpl setitem.
  destruct (String.eqb_spec k1 k) as [E|E].
  - inversion Hget; subst. constructor.
    + split; [reflexivity|]. cbn [snd]. apply nth_error_replace_at_eq.
      apply nth_error_Some. congruence.
    + apply values_of_replace_other; assumption.
  - constructor.
    + split; [reflexivity|]. cbn [snd].
      rewrite nth_error_replace_at_neq; [exact Hr|].
      intros E'. subst r1. apply Hnotin. exact (dict_get_In_refs _ _ _ Hget).
    + apply IH; assumption.
Qed.

Lemma setitem_same {V : Type} (d : dict V) (k : string) (v : V) :
  dict_get d k = Some v -> setitem d k v = d.
Proof.
  induction d as [|[k' v'] d IH]; simpl; [discriminate|].
  destruct (String.eqb k' k).
  - intros H. inversion H. reflexivity.
  - intros H. rewrite IH by assumption. reflexivity.
Qed.

Lemma nth_error_old (h0 h : Obj.store) (r : Obj.ref) (t : tensor) :
  firstn (List.length h0) h = h0 -> nth_error h0 r = Some t ->
  nth_error h r = Some t.
Proof.
  intros Hf Hr. rewrite <- Hf in Hr.
  assert (Hlt : (r < List.length h0)%nat).
  { apply nth_error_Some. rewrite <- Hf at 1. congruence. }
  rewrite nth_error_firstn in Hr.
  destruct (Nat.ltb_spec r (List.length h0)); [exact Hr|lia].
Qed.

Lemma old_length (h0 h : Obj.store) :
  firstn (List.length h0) h = h0 -> (List.length h0 <= List.length h)%nat.
Proof.
  intros Hf. rewrite <- Hf at 1. rewrite length_firstn. lia.
Qed.

Lemma firstn_old_app (h0 h h2 : Obj.store) :
  firstn (List.length h0) h = h0 -> firstn (List.length h0) (h ++ h2) = h0.
Proof.
  intros Hf. pose proof (old_length h0 h Hf) as Hl.
  rewrite firstn_app. replace (List.length h0 - List.length h)%nat with 0%nat
    by lia.
  simpl. rewrite app_nil_r. exact Hf.
Qed.

Ltac run_store :=
  unfold Obj.accumulate, Obj.mul, Obj.iadd, Obj.zeros_like, Obj.bind,
    Obj.lift, Obj.load, Obj.new, Obj.write, Obj.ret;
  cbn [fst snd].

(** One [avg_update[name] += delta * w] on objects and on values. *)
Lemma accumulate_refines (total ns : N) (h0 h1 : Obj.store)
    (avg : dict Obj.ref) (avg_v : dict tensor) (name : string)
    (dref : Obj.ref) (delta : tensor) :
  represents h0 h1 avg avg_v ->
  nth_error h0 dref = Some delta ->
  match Server.accumulate total ns avg_v (name, delta) with
  | Ok avg_v' =>
      exists h2,
        Obj.accumulate total ns avg (name, dref) h1 = (Ok avg, h2)
        /\ represents h0 h2 avg avg_v'
  | Raise e =>
      exists h2,
        Obj.accumulate total ns avg (name, dref) h1 = (Raise e, h2)
        /\ firstn (List.length h0) h2 = h0
  end.
Proof.
  intros (Hf & Hv & Hnd & Hnew) Hd.
  pose proof (values_of_get h1 avg avg_v name Hv) as Hget.
  unfold Server.accumulate. run_store. unfold getitem.
  destruct (dict_get avg name) as [target|] eqn:Ht.
  - destruct Hget as (cur & Hcur & Hgv). rewrite Hgv. cbn [bind].
    destruct (int_truediv ns total) as [w|e]; cbn [bind];
      [|exists h1; split; [reflexivity|exact Hf]].
    unfold list_index. rewrite (nth_error_old h0 h1 dref delta Hf Hd).
    assert (Hlt : (target < List.length h1)%nat)
      by (apply nth_error_Some; congruence).
    rewrite nth_error_app1 by exact Hlt. rewrite Hcur.
    rewrite nth_error_app2 by lia. rewrite Nat.sub_diag. cbn [nth_error].
    destruct (tensor_iadd cur (tensor_scale delta w)) as [sum|e]; cbn [bind].
    + eexists. split.
      * rewrite (setitem_same avg name target Ht). reflexivity.
      * split; [|split; [|split]]; try assumption.
        -- rewrite firstn_replace_at.
           ++ apply firstn_old_app. exact Hf.
           ++ apply (all_new_get _ avg name target Hnew).
              unfold getitem. rewrite Ht. reflexivity.
        -- apply values_of_replace; [exact Hnd| |exact Ht].
           apply values_of_app. exact Hv.
    + eexists. split; [reflexivity|]. apply firstn_old_app. exact Hf.
  - rewrite Hget. cbn [bind]. exists h1. split; [reflexivity|exact Hf].
Qed.

Lemma obj_for_each_cons {A S : Type} (body : S -> A -> Obj.H S) (x : A)
    (l : list A) (s : S) (h : Obj.store) :
  Obj.for_each body (x :: l) s h
  = match body s x h with
    | (Ok s', h') => Obj.for_each body l s' h'
    | (Raise e, h') => (Raise e, h')
    end.
Proof. reflexivity. Qed.

Lemma obj_for_each_ok {A S : Type} (body : S -> A -> Obj.H S) (x : A)
    (l : list A) (s s' : S) (h h' : Obj.store) :
  body s x h = (Ok s', h') ->
  Obj.for_each body (x :: l) s h = Obj.for_each body l s' h'.
Proof. intros H. rewrite obj_for_each_cons, H. reflexivity. Qed.

Lemma obj_for_each_raise {A S : Type} (body : S -> A -> Obj.H S) (x : A)
    (l : list A) (s : S) (e : exn) (h h' : Obj.store) :
  body s x h = (Raise e, h') ->
  Obj.for_each body (x :: l) s h = (Raise e, h').
Proof. intros H. rewrite obj_for_each_cons, H. reflexivity. Qed.

Lemma accumulate_items_refines (total ns : N) (h0 : Obj.store)
    (items : dict Obj.ref) (items_v : dict tensor) :
  values_of h0 items items_v ->
  forall (h1 : Obj.store) (avg : dict Obj.ref) (avg_v : dict tensor),
  represents h0 h1 avg avg_v ->
  match for_each (Server.accumulate total ns) items_v avg_v with
  | Ok avg_v' =>
      exists h2,
        Obj.for_each (Obj.accumulate total ns) items avg h1 = (Ok avg, h2)
        /\ represents h0 h2 avg avg_v'
  | Raise e =>
      exists h2,
        Obj.for_each (Obj.accumulate total ns) items avg h1 = (Raise e, h2)
        /\ firstn (List.length h0) h2 = h0
  end.
Proof.
  induction 1 as [|[k r] [k' t] items items_v [Hk Hr] _ IH];
    intros h1 avg avg_v Hrep.
  - simpl. exists h1. split; [reflexivity|exact Hrep].
  - cbn [fst snd] in *. subst k'. cbn [for_each].
    pose proof (accumulate_refines total ns h0 h1 avg avg_v k r t Hrep Hr)
      as Hstep.
    destruct (Server.accumulate total ns avg_v (k, t)) as [avg_v1|e];
      cbn [bind].
    + destruct Hstep as (h2 & Hrun & Hrep2).
      rewrite (obj_for_each_ok _ _ _ _ _ _ _ Hrun). apply IH. exact Hrep2.
    + destruct Hstep as (h2 & Hrun & Hf).
      rewrite (obj_for_each_raise _ _ _ _ _ _ _ Hrun).
      exists h2. split; [reflexivity|exact Hf].
Qed.

Lemma list_index_reports (updates : list Obj.Update)
    (updates_v : list Update) (i : nat) :
  map Obj.report updates = map report updates_v ->
  match list_index updates_v i with
  | Ok u_v => exists u, list_index updates i = Ok u
                        /\ Obj.report u = report u_v
  | Raise e => list_index updates i = Raise e
  end.
Proof.
  intros Hmap. unfold list_index.
  pose proof (f_equal (fun l => nth_error l i) Hmap) as H. cbv beta in H.
  rewrite !nth_error_map in H.
  destruct (nth_error updates i) as [u|], (nth_error updates_v i) as [u_v|];
    simpl in H; try discriminate H.
  - exists u. split; [reflexivity|]. congruence.
  - reflexivity.
Qed.

Lemma accumulate_updates_refines (total : N) (h0 : Obj.store)
    (updates : list Obj.Update) (updates_v : list Update)
    (deltas : list (dict Obj.ref)) (deltas_v : list (dict tensor)) :
  map Obj.report updates = map report updates_v ->
  Forall2 (values_of h0) deltas deltas_v ->
  forall (start : nat) (h1 : Obj.store) (avg : dict Obj.ref)
         (avg_v : dict tensor),
  represents h0 h1 avg avg_v ->
  match for_each (Server.accumulate_update total updates_v)
                 (enumerate_from start deltas_v) avg_v with
  | Ok avg_v' =>
      exists h2,
        Obj.for_each (Obj.accumulate_update total updates)
                     (enumerate_from start deltas) avg h1 = (Ok avg, h2)
        /\ represents h0 h2 avg avg_v'
  | Raise e =>
      exists h2,
        Obj.for_each (Obj.accumulate_update total updates)
                     (enumerate_from start deltas) avg h1 = (Raise e, h2)
        /\ firstn (List.length h0) h2 = h0
  end.
Proof.
  intros Hmap. induction 1 as [|d d_v deltas deltas_v Hd _ IH];
    intros start h1 avg avg_v Hrep.
  - simpl. exists h1. split; [reflexivity|exact Hrep].
  - cbn [enumerate_from for_each].
    unfold Server.accumulate_update at 1. cbn [fst snd].
    assert (Hobj : forall u,
               list_index updates start = Ok u ->
               Obj.accumulate_update total updates avg (start, d) h1
               = Obj.for_each
                   (Obj.accumulate total (num_samples (Obj.report u)))
                   d avg h1).
    { intros u Hu. unfold Obj.accumulate_update, Obj.bind, Obj.lift.
      cbn [fst snd]. rewrite Hu. reflexivity. }
    assert (Hobj' : forall e,
               list_index updates start = Raise e ->
               Obj.accumulate_update total updates avg (start, d) h1
               = (Raise e, h1)).
    { intros e Hu. unfold Obj.accumulate_update, Obj.bind, Obj.lift.
      cbn [fst snd]. rewrite Hu. reflexivity. }
    pose proof (list_index_reports updates updates_v start Hmap) as Hidx.
    destruct (list_index updates_v start) as [u_v|e]; cbn [bind].
    + destruct Hidx as (u & Hu & Hrepu).
      pose proof (accumulate_items_refines total (num_samples (report u_v))
                    h0 d d_v Hd h1 avg avg_v Hrep) as Hin.
      destruct (for_each (Server.accumulate total _) d_v avg_v)
        as [avg_v1|e]; cbn [bind].
      * destruct Hin as (h2 & Hrun & Hrep2).
        rewrite (obj_for_each_ok _ _ _ _ _ _ _
                   (eq_trans (Hobj u Hu) (eq_trans
                      (f_equal (fun n => Obj.for_each (Obj.accumulate total n)
                                           d avg h1)
                               (f_equal num_samples Hrepu)) Hrun))).
        apply IH. exact Hrep2.
      * destruct Hin as (h2 & Hrun & Hf).
        rewrite (obj_for_each_raise _ _ _ _ _ _ _
                   (eq_trans (Hobj u Hu) (eq_trans
                      (f_equal (fun n => Obj.for_each (Obj.accumulate total n)
                                           d avg h1)
                               (f_equal num_samples Hrepu)) Hrun))).
        exists h2. split; [reflexivity|exact Hf].
    + rewrite (obj_for_each_raise _ _ _ _ _ _ _ (Hobj' e Hidx)).
      exists h1. split; [reflexivity|]. apply Hrep.
Qed.

Lemma obj_bind_ok {A B : Type} (c : Obj.H A) (k : A -> Obj.H B) (a : A)
    (h h' : Obj.store) :
  c h = (Ok a, h') -> Obj.bind c k h = k a h'.
Proof. intros H. unfold Obj.bind. rewrite H. reflexivity. Qed.

Lemma obj_map_H_ok {A B : Type} (f : A -> Obj.H B) (x : A) (l : list A)
    (y : B) (ys : list B) (h h' h'' : Obj.store) :
  f x h = (Ok y, h') -> Obj.map_H f l h' = (Ok ys, h'') ->
  Obj.map_H f (x :: l) h = (Ok (y :: ys), h'').
Proof.
  intros H1 H2. cbn [Obj.map_H]. unfold Obj.bind. rewrite H1, H2.
  reflexivity.
Qed.

Lemma zeros_like_refines (h0 : Obj.store) (first : dict Obj.ref)
    (first_v : dict tensor) :
  values_of h0 first first_v ->
  forall h1 : Obj.store,
  firstn (List.length h0) h1 = h0 ->
  exists avg h2,
    Obj.map_H (fun item => Obj.bind (Obj.zeros_like (snd item))
                             (fun z => Obj.ret (fst item, z)))
              first h1
    = (Ok avg, h1 ++ h2)
    /\ values_of (h1 ++ h2) avg
         (map (fun item => (fst item, zeros (shape (snd item)))) first_v)
    /\ map snd avg = seq (List.length h1) (List.length first).
Proof.
  induction 1 as [|[k r] [k' t] first first_v [Hk Hr] _ IH]; intros h1 Hf.
  - exists [], []. rewrite app_nil_r. repeat split. constructor.
  - cbn [fst snd] in *. subst k'.
    destruct (IH (h1 ++ [zeros (shape t)]) (firstn_old_app _ _ _ Hf))
      as (avg & h2 & Hrun & Hv & Hrefs).
    exists ((k, List.length h1) :: avg), (zeros (shape t) :: h2).
    split; [|split].
    + rewrite <- app_assoc in Hrun. cbn [app] in Hrun.
      apply (obj_map_H_ok _ _ _ _ _ h1 (h1 ++ [zeros (shape t)]));
        [|exact Hrun].
      run_store. unfold list_index.
      rewrite (nth_error_old h0 h1 r t Hf Hr). reflexivity.
    + rewrite <- app_assoc in Hv. cbn [app] in Hv. cbn [map fst snd].
      constructor; [|exact Hv]. split; [reflexivity|]. cbn [snd].
      rewrite nth_error_app2 by lia. rewrite Nat.sub_diag. reflexivity.
    + cbn [map snd List.length seq]. rewrite Hrefs, length_app. cbn [List.length].
      rewrite Nat.add_1_r. reflexivity.
Qed.

(** On a store in which every address of the deltas is alive, the
    aggregation on tensor objects raises what [Server.aggregate_deltas]
    raises, and otherwise returns objects that hold the values it returns. *)
Theorem aggregate_deltas_refines (updates : list Obj.Update)
    (updates_v : list Update) (deltas : list (dict Obj.ref))
    (deltas_v : list (dict tensor)) (self : Obj.server)
    (self_v : Server.server) (h : Obj.store) :
  map Obj.report updates = map report updates_v ->
  Forall2 (values_of h) deltas deltas_v ->
  match fst (Server.aggregate_deltas updates_v deltas_v self_v) with
  | Ok avg_v =>
      exists avg,
        fst (fst (Obj.aggregate_deltas updates deltas self h)) = Ok avg
        /\ Obj.deref (snd (Obj.aggregate_deltas updates deltas self h)) avg
           = Ok avg_v
  | Raise e => fst (fst (Obj.aggregate_deltas updates deltas self h)) = Raise e
  end.
Proof.
  intros Hmap Hd.
  assert (Htotal : int_sum (map (fun u => num_samples (Obj.report u)) updates)
                   = total_samples_of updates_v).
  { unfold total_samples_of. rewrite <- (map_map Obj.report num_samples), Hmap,
      map_map. reflexivity. }
  change (fst (Server.aggregate_deltas updates_v deltas_v self_v))
    with (first <- list_index deltas_v 0 ;;
          for_each
            (Server.accumulate_update (total_samples_of updates_v) updates_v)
            (enumerate deltas_v)
            (map (fun item => (fst item, zeros (shape (snd item)))) first)).
  change (Obj.aggregate_deltas updates deltas self h)
    with (fst (Obj.aggregate_loops
                 (int_sum (map (fun u => num_samples (Obj.report u)) updates))
                 updates deltas h),
          Obj.set_total_samples self
            (int_sum (map (fun u => num_samples (Obj.report u)) updates)),
          snd (Obj.aggregate_loops
                 (int_sum (map (fun u => num_samples (Obj.report u)) updates))
                 updates deltas h)).
  cbn [fst snd]. rewrite Htotal.
  destruct Hd as [|first first_v deltas deltas_v Hfirst Hrest];
    [reflexivity|].
  cbn [list_index nth_error bind].
  destruct (zeros_like_refines h first first_v Hfirst h (firstn_all h))
    as (avg & h2 & Hrun & Hv & Hrefs).
  assert (Hagg : Obj.aggregate_loops (total_samples_of updates_v) updates
                   (first :: deltas) h
                 = Obj.for_each
                     (Obj.accumulate_update (total_samples_of updates_v)
                                            updates)
                     (enumerate (first :: deltas)) avg (h ++ h2)).
  { unfold Obj.aggregate_loops.
    rewrite (obj_bind_ok _ _ first h h eq_refl).
    rewrite (obj_bind_ok _ _ avg h (h ++ h2) Hrun). reflexivity. }
  rewrite Hagg.
  assert (Hrep : represents h (h ++ h2) avg
                   (map (fun item => (fst item, zeros (shape (snd item))))
                        first_v)).
  { split; [apply firstn_old_app; apply firstn_all|].
    split; [exact Hv|]. split; [rewrite Hrefs; apply seq_NoDup|].
    unfold Obj.all_new. apply Forall_forall. intros item Hin.
    assert (Hin' : In (snd item) (seq (List.length h) (List.length first)))
      by (rewrite <- Hrefs; apply in_map; exact Hin).
    apply in_seq in Hin'. lia. }
  pose proof (accumulate_updates_refines (total_samples_of updates_v) h
                updates updates_v (first :: deltas) (first_v :: deltas_v)
                Hmap (Forall2_cons _ _ Hfirst Hrest) 0%nat (h ++ h2) avg _ Hrep)
    as Hloop.
  unfold enumerate.
  destruct (for_each _ (enumerate_from 0 (first_v :: deltas_v)) _)
    as [avg_v|e].
  - destruct Hloop as (h3 & Hrun3 & Hrep3). rewrite Hrun3. cbn [fst snd].
    exists avg. split; [reflexivity|].
    apply values_of_deref. apply Hrep3.
  - destruct Hloop as (h3 & Hrun3 & _). rewrite Hrun3. reflexivity.
Qed.

(** ** The weights of the clients *)

Lemma sub_schema_refl (d : dict tensor) :
  unique_keys d = true -> sub_schema d d = true.
Proof.
  intros Hu. unfold sub_schema. apply forallb_forall. intros [name t] Hin.
  cbn [fst snd]. rewrite (unique_keys_In_get d name t Hu Hin).
  apply shape_eqb_refl.
Qed.

Lemma consensus_sum (d : dict tensor) (name : string) (k : nat) (T : R)
    (updates : list Update) (deltas : list (dict tensor)) (acc : R) :
  List.length deltas = List.length updates ->
  Forall (fun d' => d' = d) deltas ->
  fold_left
    (fun acc ud =>
       acc + elem (snd ud) name k
             * (IZR (Z.of_N (num_samples (report (fst ud)))) / T))
    (combine updates deltas) acc
  = acc + elem d name k
          * fold_right Rplus 0
              (map (fun u => IZR (Z.of_N (num_samples (report u))) / T)
                   updates).
Proof.
  revert deltas acc. induction updates as [|u updates IH];
    intros [|d' deltas] acc Hlen Hall; try discriminate Hlen.
  - simpl. lra.
  - inversion Hall; subst. injection Hlen as Hlen.
    cbn [combine fold_left map fold_right fst snd].
    rewrite (IH deltas _ Hlen) by assumption. lra.
Qed.

(** Deltas that are all [d] are averaged to [d]: the weights sum to 1. *)
Lemma aggregate_consensus (updates : list Update)
    (deltas_received : list (dict tensor)) (d : dict tensor)
    (self : Server.server) :
  deltas_received <> [] ->
  List.length deltas_received = List.length updates ->
  (0 < total_samples_of updates)%N ->
  dict_wf d = true ->
  Forall (fun d' => d' = d) deltas_received ->
  exists avg_update,
    fst (Server.aggregate_deltas updates deltas_received self) = Ok avg_update
    /\ schema avg_update = schema d
    /\ forall name k, elem avg_update name k = elem d name k.
Proof.
  intros Hne Hlen Hpos Hwf Hall.
  destruct deltas_received as [|first rest]; [contradiction|].
  assert (first = d) by (inversion Hall; assumption). subst first.
  assert (Ht : total_samples_of updates <> 0%N) by lia.
  destruct (aggregate_deltas_ok updates d rest self) as (avg & Hrun & Hs & _ & He).
  - symmetry. exact Hlen.
  - exact Ht.
  - eapply Forall_impl; [|exact Hall]. intros d' ->.
    split; [exact Hwf|]. apply sub_schema_refl.
    unfold dict_wf in Hwf. apply andb_prop in Hwf. apply Hwf.
  - exists avg. split; [exact Hrun|]. split; [exact Hs|].
    intros name k. rewrite He. unfold avg_delta_spec, aggregation_weight.
    rewrite (consensus_sum d name k _ updates (d :: rest) 0 Hlen Hall).
    rewrite sum_weights. fold (total_samples_of updates).
    assert (0 < IZR (Z.of_N (total_samples_of updates))) by (apply IZR_lt; lia).
    field. lra.
Qed.

Lemma total_samples_with_accuracy (a : R) (updates : list Update) :
  total_samples_of (map (with_accuracy a) updates) = total_samples_of updates.
Proof. unfold total_samples_of. rewrite map_map. reflexivity. Qed.

(** C9: for a batch whose sample counts add up to a positive total, the
    weights [num_samples_i / total_samples] that the code computes are the
    aggregation weights, and they sum to exactly 1: the mean that
    [get_accuracy_mean_std] returns of accuracies that are all 1 is 1, and
    the average that [aggregate_deltas] returns of deltas that are all [d] is
    [d] (over the real numbers). *)
Theorem aggregation_weights_sum_to_one (updates : list Update) :
  (0 < total_samples_of updates)%N ->
  map_result
    (fun update =>
       int_truediv (num_samples (report update)) (total_samples_of updates))
    updates
  = Ok (map (aggregation_weight updates) updates)
  /\ float_sum (map (aggregation_weight updates) updates) = 1
  /\ Server.get_accuracy_mean_std (map (with_accuracy 1) updates) = Ok (1, 0)
  /\ forall (self : Server.server) (d : dict tensor),
       dict_wf d = true ->
       exists avg_update,
         fst (Server.aggregate_deltas updates (map (fun _ => d) updates) self)
         = Ok avg_update
         /\ schema avg_update = schema d
         /\ forall name k, elem avg_update name k = elem d name k.
Proof.
  intros Hpos. split; [|split; [|split]].
  - apply client_weights_ok. lia.
  - rewrite float_sum_fold_right. unfold aggregation_weight.
    rewrite sum_weights. fold (total_samples_of updates).
    apply Rdiv_diag. apply not_0_IZR. lia.
  - destruct (accuracy_in_range (map (with_accuracy 1) updates) 1 1)
      as (mean & std & Hms & Hm & Hs).
    + rewrite total_samples_with_accuracy. exact Hpos.
    + apply Forall_forall. intros u Hu. apply in_map_iff in Hu as [u0 [<- _]].
      simpl. lra.
    + rewrite Hms. f_equal. f_equal; lra.
  - intros self d Hwf. apply aggregate_consensus.
    + destruct updates; [discriminate Hpos|discriminate].
    + apply length_map.
    + exact Hpos.
    + exact Hwf.
    + apply Forall_forall. intros d' Hd. apply in_map_iff in Hd as [u [<- _]].
      reflexivity.
Qed.

Lemma aggregation_weights_sum_to_one_witness :
  float_sum (map (aggregation_weight scenario_updates) scenario_updates) = 1
  /\ Server.get_accuracy_mean_std (map (with_accuracy 1) scenario_updates)
     = Ok (1, 0).
Proof.
  pose proof (aggregation_weights_sum_to_one scenario_updates
                ltac:(reflexivity)) as (_ & H1 & H2 & _).
  split; assumption.
Defined.

(** * Further properties of the code *)

(** ** [max] and the round timings *)

Lemma float_max_scan (l : list R) (m : R) :
  let r := fold_left (fun m y => if Rlt_dec m y then y else m) l m in
  (r = m \/ In r l) /\ m <= r /\ forall y, In y l -> y <= r.
Proof.
  revert m. induction l as [|x l IH]; intros m; simpl.
  - split; [left; reflexivity|]. split; [lra|]. intros y [].
  - destruct (Rlt_dec m x) as [Hlt|Hge].
    + destruct (IH x) as [Hin [Hle Hall]]. simpl in Hin, Hle, Hall.
      split; [right; destruct Hin as [->|Hin]; [left; reflexivity|right; exact Hin]|].
      split; [lra|].
      intros y [<-|Hy]; [exact Hle|apply Hall; exact Hy].
    + destruct (IH m) as [Hin [Hle Hall]]. simpl in Hin, Hle, Hall.
      split; [destruct Hin as [->|Hin]; [left; reflexivity|right; right; exact Hin]|].
      split; [exact Hle|].
      intros y [<-|Hy]; [lra|apply Hall; exact Hy].
Qed.

Lemma float_max_ok (l : list R) :
  l <> [] ->
  exists m, float_max l = Ok m /\ In m l /\ forall y, In y l -> y <= m.
Proof.
  destruct l as [|x l]; [intros H; contradiction|]. intros _.
  destruct (float_max_scan l x) as [Hin [Hle Hall]]. simpl in Hin, Hle, Hall.
  eexists. split; [reflexivity|]. split.
  - destruct Hin as [->|Hin]; [left; reflexivity|right; exact Hin].
  - intros y [<-|Hy]; [exact Hle|apply Hall; exact Hy].
Qed.

Lemma float_max_map_ok {A : Type} (f : A -> R) (l : list A) :
  l <> [] ->
  exists m, float_max (map f l) = Ok m
            /\ (exists a, In a l /\ m = f a)
            /\ forall a, In a l -> f a <= m.
Proof.
  intros Hne.
  destruct (float_max_ok (map f l)) as [m [Hm [Hin Hall]]].
  - destruct l; [contradiction|discriminate].
  - exists m. split; [exact Hm|]. split.
    + apply in_map_iff in Hin. destruct Hin as [a [<- Ha]]. exists a. auto.
    + intros a Ha. apply Hall. apply in_map. exact Ha.
Qed.

(** ** [Server.get_logged_items] *)

Lemma get_logged_items_ok (self : Logged.server) :
  Logged.self_updates self <> [] ->
  exists processing comm round_time,
    float_max (map Logged.processing_time (Logged.self_updates self))
    = Ok processing
    /\ float_max (map Logged.comm_time (Logged.self_updates self)) = Ok comm
    /\ float_max (map (fun report =>
                         Logged.training_time report
                         + Logged.processing_time report
                         + Logged.comm_time report)
                      (Logged.self_updates self)) = Ok round_time
    /\ Logged.get_logged_items self
       = Ok [("round"%string, IZR (Logged.self_current_round self));
             ("accuracy"%string, Logged.self_accuracy self);
             ("accuracy_std"%string, Logged.self_accuracy_std self);
             ("elapsed_time"%string,
              Logged.self_wall_time self - Logged.self_initial_wall_time self);
             ("processing_time"%string, processing);
             ("comm_time"%string, comm);
             ("round_time"%string, round_time);
             ("comm_overhead"%string, Logged.self_comm_overhead self)].
Proof.
  intros Hne.
  destruct (float_max_map_ok Logged.processing_time _ Hne) as [p [Hp _]].
  destruct (float_max_map_ok Logged.comm_time _ Hne) as [c [Hc _]].
  destruct (float_max_map_ok
              (fun report => Logged.training_time report
                             + Logged.processing_time report
                             + Logged.comm_time report) _ Hne)
    as [r [Hr _]].
  exists p, c, r. repeat split; try assumption.
  unfold Logged.get_logged_items. cbv zeta.
  rewrite Hp, Hc, Hr. reflexivity.
Qed.

(** X1: [get_logged_items] raises [ValueError] exactly when [self.updates] is
    empty, and it raises nothing else: with at least one update it returns
    the eight items, in the order of the source. *)
Theorem logged_items_need_an_update (self : Logged.server) :
  (Logged.self_updates self = []
   <-> Logged.get_logged_items self = Raise ValueError)
  /\ (Logged.self_updates self <> []
      <-> exists items,
            Logged.get_logged_items self = Ok items
            /\ keys items
               = ["round"; "accuracy"; "accuracy_std"; "elapsed_time";
                  "processing_time"; "comm_time"; "round_time";
                  "comm_overhead"]%string).
Proof.
  assert (Hempty : Logged.self_updates self = [] ->
                   Logged.get_logged_items self = Raise ValueError).
  { intros H. unfold Logged.get_logged_items. rewrite H. reflexivity. }
  assert (Hfull : Logged.self_updates self <> [] ->
                  exists items,
                    Logged.get_logged_items self = Ok items
                    /\ keys items
                       = ["round"; "accuracy"; "accuracy_std"; "elapsed_time";
                          "processing_time"; "comm_time"; "round_time";
                          "comm_overhead"]%string).
  { intros H. destruct (get_logged_items_ok self H) as [p [c [r [_ [_ [_ Hi]]]]]].
    eexists. split; [exact Hi|reflexivity]. }
  split; split.
  - exact Hempty.
  - intros H. destruct (Logged.self_updates self) eqn:E; [reflexivity|].
    destruct Hfull as [items [Hi _]]; [discriminate|]. congruence.
  - exact Hfull.
  - intros [items [Hi _]] H. rewrite (Hempty H) in Hi. discriminate.
Qed.

(** X2: the logged [round_time] is the total of one of the clients, no
    client's total exceeds it, and when no timing is negative the logged
    [processing_time] and [comm_time] are at most the [round_time]. *)
Theorem logged_round_time_dominates (self : Logged.server) :
  Logged.self_updates self <> [] ->
  exists items processing comm round_time,
    Logged.get_logged_items self = Ok items
    /\ getitem items "processing_time" = Ok processing
    /\ getitem items "comm_time" = Ok comm
    /\ getitem items "round_time" = Ok round_time
    /\ (exists report,
          In report (Logged.self_updates self)
          /\ round_time = Logged.training_time report
                          + Logged.processing_time report
                          + Logged.comm_time report)
    /\ (forall report,
          In report (Logged.self_updates self) ->
          Logged.training_time report + Logged.processing_time report
          + Logged.comm_time report <= round_time)
    /\ (Forall (fun report => 0 <= Logged.training_time report
                              /\ 0 <= Logged.processing_time report
                              /\ 0 <= Logged.comm_time report)
               (Logged.self_updates self) ->
        processing <= round_time /\ comm <= round_time).
Proof.
  intros Hne.
  destruct (get_logged_items_ok self Hne) as [p [c [r [Hp [Hc [Hr Hi]]]]]].
  destruct (float_max_map_ok Logged.processing_time _ Hne)
    as [p' [Hp' [[up [Hup Hpe]] _]]].
  destruct (float_max_map_ok Logged.comm_time _ Hne)
    as [c' [Hc' [[uc [Huc Hce]] _]]].
  destruct (float_max_map_ok
              (fun report => Logged.training_time report
                             + Logged.processing_time report
                             + Logged.comm_time report) _ Hne)
    as [r' [Hr' [Hat Hall]]].
  assert (p' = p) by congruence. assert (c' = c) by congruence.
  assert (r' = r) by congruence. subst p' c' r'.
  eexists. exists p, c, r. split; [exact Hi|].
  split; [reflexivity|]. split; [reflexivity|]. split; [reflexivity|].
  split; [exact Hat|]. split; [exact Hall|].
  intros Hpos. rewrite Forall_forall in Hpos.
  pose proof (Hpos _ Hup) as [? [? ?]]. pose proof (Hall _ Hup).
  pose proof (Hpos _ Huc) as [? [? ?]]. pose proof (Hall _ Huc).
  simpl in *. split; lra.
Qed.

Lemma logged_round_time_dominates_witness :
  exists items processing comm round_time,
    Logged.get_logged_items logged_scenario = Ok items
    /\ getitem items "processing_time" = Ok processing
    /\ getitem items "comm_time" = Ok comm
    /\ getitem items "round_time" = Ok round_time
    /\ (exists report,
          In report (Logged.self_updates logged_scenario)
          /\ round_time = Logged.training_time report
                          + Logged.processing_time report
                          + Logged.comm_time report)
    /\ (forall report,
          In report (Logged.self_updates logged_scenario) ->
          Logged.training_time report + Logged.processing_time report
          + Logged.comm_time report <= round_time)
    /\ (Forall (fun report => 0 <= Logged.training_time report
                              /\ 0 <= Logged.processing_time report
                              /\ 0 <= Logged.comm_time report)
               (Logged.self_updates logged_scenario) ->
        processing <= round_time /\ comm <= round_time).
Proof.
  apply (logged_round_time_dominates logged_scenario). discriminate.
Defined.

(** ** The round timings of [FedAvgServer] *)

Lemma computing_times_ok (reports : list FedAvgTimes.Timings) :
  reports <> [] ->
  exists communication training round_time,
    FedAvgTimes.computing_communication_time reports = Ok communication
    /\ FedAvgTimes.computing_training_time reports = Ok training
    /\ FedAvgTimes.computing_round_time reports = Ok round_time
    /\ (exists c t r,
          In c reports /\ In t reports /\ In r reports
          /\ communication = FedAvgTimes.first_communication_time c
                             + FedAvgTimes.second_communication_time c
          /\ training = FedAvgTimes.training_time t
          /\ round_time = FedAvgTimes.first_communication_time r
                          + FedAvgTimes.training_time r
                          + FedAvgTimes.second_communication_time r)
    /\ forall report, In report reports ->
         FedAvgTimes.first_communication_time report
         + FedAvgTimes.second_communication_time report <= communication
         /\ FedAvgTimes.training_time report <= training
         /\ FedAvgTimes.first_communication_time report
            + FedAvgTimes.training_time report
            + FedAvgTimes.second_communication_time report <= round_time.
Proof.
  intros Hne.
  unfold FedAvgTimes.computing_communication_time,
    FedAvgTimes.computing_training_time, FedAvgTimes.computing_round_time.
  destruct (float_max_map_ok
              (fun report => FedAvgTimes.first_communication_time report
                             + FedAvgTimes.second_communication_time report)
              _ Hne) as [c [Hc [[uc [Huc Hce]] Hcall]]].
  destruct (float_max_map_ok FedAvgTimes.training_time _ Hne)
    as [t [Ht [[ut [Hut Hte]] Htall]]].
  destruct (float_max_map_ok
              (fun report => FedAvgTimes.first_communication_time report
                             + FedAvgTimes.training_time report
                             + FedAvgTimes.second_communication_time report)
              _ Hne) as [r [Hr [[ur [Hur Hre]] Hrall]]].
  exists c, t, r. split; [exact Hc|]. split; [exact Ht|]. split; [exact Hr|].
  split.
  - exists uc, ut, ur. repeat split; assumption.
  - intros report Hin. repeat split; auto.
Qed.

(** X3: the three timing summaries of [FedAvgServer] raise [ValueError] on an
    empty list of reports and return otherwise; each is the value of one of
    the reports and bounds that of every report, and when no timing is
    negative the communication time and the training time are at most the
    round time. *)
Theorem legacy_round_time_dominates (reports : list FedAvgTimes.Timings) :
  match reports with
  | [] =>
      FedAvgTimes.computing_communication_time reports = Raise ValueError
      /\ FedAvgTimes.computing_training_time reports = Raise ValueError
      /\ FedAvgTimes.computing_round_time reports = Raise ValueError
  | _ =>
      exists communication training round_time,
        FedAvgTimes.computing_communication_time reports = Ok communication
        /\ FedAvgTimes.computing_training_time reports = Ok training
        /\ FedAvgTimes.computing_round_time reports = Ok round_time
        /\ (forall report, In report reports ->
              FedAvgTimes.first_communication_time report
              + FedAvgTimes.second_communication_time report <= communication
              /\ FedAvgTimes.training_time report <= training
              /\ FedAvgTimes.first_communication_time report
                 + FedAvgTimes.training_time report
                 + FedAvgTimes.second_communication_time report <= round_time)
        /\ (exists report,
              In report reports
              /\ round_time = FedAvgTimes.first_communication_time report
                              + FedAvgTimes.training_time report
                              + FedAvgTimes.second_communication_time report)
        /\ (Forall (fun report =>
                      0 <= FedAvgTimes.first_communication_time report
                      /\ 0 <= FedAvgTimes.second_communication_time report
                      /\ 0 <= FedAvgTimes.training_time report) reports ->
            communication <= round_time /\ training <= round_time)
  end.
Proof.
  destruct reports as [|r0 reports]; [repeat split|].
  destruct (computing_times_ok (r0 :: reports))
    as [c [t [r [Hc [Ht [Hr [[uc [ut [ur [Huc [Hut [Hur [Ec [Et Er]]]]]]]] Hall]]]]]]];
    [discriminate|].
  exists c, t, r. split; [exact Hc|]. split; [exact Ht|]. split; [exact Hr|].
  split; [exact Hall|]. split; [exists ur; auto|].
  intros Hpos. rewrite Forall_forall in Hpos.
  pose proof (Hpos _ Huc) as [? [? ?]]. pose proof (Hall _ Huc) as [_ [_ ?]].
  pose proof (Hpos _ Hut) as [? [? ?]]. pose proof (Hall _ Hut) as [_ [_ ?]].
  split; lra.
Qed.

(** ** [FedAvgServer.wrap_up_processing_reports] *)

Lemma wrap_up_loop (d : dict R) (reports : list FedAvgTimes.Timings)
    (current_round : Z) (accuracy c t r : R) (recorded_items : list string) :
  FedAvgTimes.computing_communication_time reports = Ok c ->
  FedAvgTimes.computing_training_time reports = Ok t ->
  FedAvgTimes.computing_round_time reports = Ok r ->
  forall new_row : list R,
  for_each
    (fun new_row item =>
       communication_time <- FedAvgTimes.computing_communication_time reports ;;
       training <- FedAvgTimes.computing_training_time reports ;;
       round_time <- FedAvgTimes.computing_round_time reports ;;
       item_value <- getitem [("round"%string, IZR current_round);
                              ("accuracy"%string, accuracy * 100);
                              ("communication_time"%string, communication_time);
                              ("training_time"%string, training);
                              ("round_time"%string, round_time)] item ;;
       Ok (new_row ++ [item_value]))
    recorded_items new_row
  = (values <- map_result
                 (getitem [("round"%string, IZR current_round);
                           ("accuracy"%string, accuracy * 100);
                           ("communication_time"%string, c);
                           ("training_time"%string, t);
                           ("round_time"%string, r)]) recorded_items ;;
     Ok (new_row ++ values)).
Proof.
  intros Hc Ht Hr. induction recorded_items as [|item items IH]; intros new_row.
  - simpl. rewrite app_nil_r. reflexivity.
  - cbn [for_each map_result]. set (rest := for_each _ items).
    rewrite Hc, Ht, Hr. cbn [bind].
    destruct (getitem _ item) as [v|e]; [|reflexivity].
    cbn [bind]. subst rest. rewrite IH.
    destruct (map_result _ items) as [vs|e]; [|reflexivity].
    cbn [bind]. rewrite <- app_assoc. reflexivity.
Qed.

(** X4: the row that [wrap_up_processing_reports] writes.  Without a recorded
    item the row is empty; with one and no report the method raises
    [ValueError], whatever the item is, for each lookup first computes the
    three timings; with reports the row holds the value of every recorded
    item, in order, and the first item that is none of the five names raises
    [KeyError]. *)
Theorem wrap_up_row (recorded_items : list string) (current_round : Z)
    (accuracy : R) (reports : list FedAvgTimes.Timings) :
  match recorded_items, reports with
  | [], _ =>
      FedAvgTimes.wrap_up_processing_reports
        recorded_items current_round accuracy reports = Ok []
  | _ :: _, [] =>
      FedAvgTimes.wrap_up_processing_reports
        recorded_items current_round accuracy reports = Raise ValueError
  | _ :: _, _ :: _ =>
      exists communication training round_time,
        FedAvgTimes.computing_communication_time reports = Ok communication
        /\ FedAvgTimes.computing_training_time reports = Ok training
        /\ FedAvgTimes.computing_round_time reports = Ok round_time
        /\ FedAvgTimes.wrap_up_processing_reports
             recorded_items current_round accuracy reports
           = map_result
               (getitem [("round"%string, IZR current_round);
                         ("accuracy"%string, accuracy * 100);
                         ("communication_time"%string, communication);
                         ("training_time"%string, training);
                         ("round_time"%string, round_time)])
               recorded_items
  end.
Proof.
  destruct recorded_items as [|item items]; [reflexivity|].
  destruct reports as [|r0 reports]; [reflexivity|].
  destruct (computing_times_ok (r0 :: reports))
    as [c [t [r [Hc [Ht [Hr _]]]]]]; [discriminate|].
  exists c, t, r. split; [exact Hc|]. split; [exact Ht|]. split; [exact Hr|].
  unfold FedAvgTimes.wrap_up_processing_reports.
  rewrite (wrap_up_loop [] _ current_round accuracy c t r (item :: items) Hc Ht Hr).
  destruct (map_result _ (item :: items)); reflexivity.
Qed.

(** ** [Trainer.test_process] *)

Section TestProcessProperties.

Variable example : Type.
Variable predict : list example -> list Z.

Lemma count_equal_le (predicted labels : list Z) :
  (TrainerTest.count_equal predicted labels
   <= N.of_nat (List.length labels))%N.
Proof.
  revert labels. induction predicted as [|p predicted IH]; intros [|l labels];
    simpl TrainerTest.count_equal; try lia.
  specialize (IH labels). cbn [List.length].
  destruct (Z.eqb p l); lia.
Qed.

Lemma count_equal_all (predicted labels : list Z) :
  List.length predicted = List.length labels ->
  (TrainerTest.count_equal predicted labels = N.of_nat (List.length labels)
   <-> predicted = labels).
Proof.
  revert labels. induction predicted as [|p predicted IH]; intros [|l labels] Hlen;
    try discriminate Hlen.
  - split; reflexivity.
  - injection Hlen as Hlen. specialize (IH labels Hlen).
    pose proof (count_equal_le predicted labels) as Hle.
    simpl TrainerTest.count_equal. cbn [List.length].
    destruct (Z.eqb_spec p l) as [->|Hne]; cbv iota.
    + split.
      * intros H. f_equal. apply IH. lia.
      * intros H. injection H as H. apply IH in H. lia.
    + split; [lia|]. intros H. injection H as H _. contradiction.
Qed.

Lemma count_batches_loop (test_loader : list (list example * list Z))
    (ct : N * N) :
  fold_left
    (fun ct batch =>
       let predicted := predict (fst batch) in
       let total := (snd ct + N.of_nat (List.length (snd batch)))%N in
       let correct :=
         (fst ct + TrainerTest.count_equal predicted (snd batch))%N in
       (correct, total))
    test_loader ct
  = ((fst ct + correct_of predict test_loader)%N, (snd ct + total_of test_loader)%N).
Proof.
  revert ct. induction test_loader as [|batch rest IH]; intros [c t].
  - simpl. f_equal; lia.
  - cbn [fold_left]. rewrite IH. cbn [fst snd correct_of total_of].
    f_equal; lia.
Qed.

Lemma count_batches_ok (test_loader : list (list example * list Z)) :
  TrainerTest.count_batches example predict test_loader
  = (correct_of predict test_loader, total_of test_loader).
Proof.
  unfold TrainerTest.count_batches. rewrite count_batches_loop. reflexivity.
Qed.

Lemma correct_le_total (test_loader : list (list example * list Z)) :
  (correct_of predict test_loader <= total_of test_loader)%N.
Proof.
  induction test_loader as [|batch rest IH]; simpl; [lia|].
  pose proof (count_equal_le (predict (fst batch)) (snd batch)). lia.
Qed.

Lemma total_of_zero (test_loader : list (list example * list Z)) :
  total_of test_loader = 0%N
  <-> Forall (fun batch => snd batch = []) test_loader.
Proof.
  induction test_loader as [|batch rest IH]; cbn [total_of].
  - split; [constructor|reflexivity].
  - split.
    + intros H. constructor.
      * destruct (snd batch); [reflexivity|cbn [List.length] in H; lia].
      * apply IH. lia.
    + intros H. inversion H as [|? ? Hb Hr]; subst.
      rewrite Hb. cbn [List.length]. apply IH in Hr. lia.
Qed.

Lemma correct_all (test_loader : list (list example * list Z)) :
  Forall (fun batch =>
            List.length (predict (fst batch)) = List.length (snd batch))
         test_loader ->
  (correct_of predict test_loader = total_of test_loader
   <-> Forall (fun batch => predict (fst batch) = snd batch) test_loader).
Proof.
  induction test_loader as [|batch rest IH]; intros Hlen; simpl.
  - split; [constructor|reflexivity].
  - inversion Hlen as [|? ? Hb Hr]; subst. specialize (IH Hr).
    pose proof (count_equal_le (predict (fst batch)) (snd batch)) as H1.
    pose proof (correct_le_total rest) as H2.
    pose proof (count_equal_all _ _ Hb) as H3.
    split.
    + intros H. constructor; [apply H3; lia|apply IH; lia].
    + intros H. inversion H as [|? ? Hb' Hr']; subst.
      apply H3 in Hb'. apply IH in Hr'. lia.
Qed.

Lemma test_process_ok (test_loader : list (list example * list Z)) :
  TrainerTest.test_process example predict test_loader
  = int_truediv (correct_of predict test_loader) (total_of test_loader).
Proof.
  unfold TrainerTest.test_process. cbv zeta.
  rewrite count_batches_ok. reflexivity.
Qed.

(** X5: [test_process] raises [ZeroDivisionError] exactly when no batch holds
    a label (an empty test set), raises nothing else, and otherwise the
    accuracy it saves lies between 0 and 1. *)
Theorem test_accuracy_range (test_loader : list (list example * list Z)) :
  match TrainerTest.test_process example predict test_loader with
  | Ok accuracy =>
      0 <= accuracy <= 1
      /\ Exists (fun batch => snd batch <> []) test_loader
  | Raise e =>
      e = ZeroDivisionError
      /\ Forall (fun batch => snd batch = []) test_loader
  end.
Proof.
  rewrite test_process_ok. unfold int_truediv.
  destruct (N.eqb_spec (total_of test_loader) 0) as [H0|Hne].
  - split; [reflexivity|]. apply total_of_zero. exact H0.
  - pose proof (correct_le_total test_loader) as Hle.
    assert (Ht : 0 < IZR (Z.of_N (total_of test_loader)))
      by (apply IZR_lt; lia).
    assert (Hc : 0 <= IZR (Z.of_N (correct_of predict test_loader)))
      by (apply IZR_le; lia).
    assert (Hct : IZR (Z.of_N (correct_of predict test_loader))
                  <= IZR (Z.of_N (total_of test_loader)))
      by (apply IZR_le; lia).
    split.
    + split.
      * apply Rmult_le_pos; [exact Hc|].
        apply Rlt_le, Rinv_0_lt_compat. exact Ht.
      * apply Rmult_le_reg_r with (r := IZR (Z.of_N (total_of test_loader)));
          [exact Ht|].
        unfold Rdiv. rewrite Rmult_assoc, Rinv_l by lra. lra.
    + apply Exists_exists.
      destruct (Forall_Exists_dec (fun batch : list example * list Z =>
                                     snd batch = [])
                  (fun batch => match snd batch as l
                                      return {l = []} + {l <> []} with
                                | [] => left eq_refl
                                | _ :: _ => right (fun H => nil_cons (eq_sym H))
                                end) test_loader) as [Hall|Hex].
      * apply total_of_zero in Hall. contradiction.
      * apply Exists_exists in Hex. exact Hex.
Qed.

(** X6: when the model gives one prediction per label and the test set is
    not empty, the accuracy is 1 exactly when every prediction of every batch
    is the label. *)
Theorem test_accuracy_one (test_loader : list (list example * list Z)) :
  Forall (fun batch =>
            List.length (predict (fst batch)) = List.length (snd batch))
         test_loader ->
  Exists (fun batch => snd batch <> []) test_loader ->
  (TrainerTest.test_process example predict test_loader = Ok 1
   <-> Forall (fun batch => predict (fst batch) = snd batch) test_loader).
Proof.
  intros Hlen Hex. rewrite test_process_ok.
  assert (Hne : total_of test_loader <> 0%N).
  { intros H0. apply total_of_zero in H0. apply Exists_exists in Hex.
    destruct Hex as [batch [Hin Hb]]. rewrite Forall_forall in H0.
    apply Hb, H0, Hin. }
  rewrite int_truediv_ok by exact Hne.
  rewrite <- (correct_all test_loader Hlen).
  assert (Ht : 0 < IZR (Z.of_N (total_of test_loader)))
    by (apply IZR_lt; lia).
  split.
  - intros H. injection H as H.
    apply (Rmult_eq_compat_r (IZR (Z.of_N (total_of test_loader)))) in H.
    unfold Rdiv in H. rewrite Rmult_assoc, Rinv_l, Rmult_1_r, Rmult_1_l in H by lra.
    apply eq_IZR in H. lia.
  - intros ->. f_equal. unfold Rdiv. apply Rinv_r. lra.
Qed.

End TestProcessProperties.

Lemma count_equal_app (p1 p2 l1 l2 : list Z) :
  List.length p1 = List.length l1 ->
  TrainerTest.count_equal (p1 ++ p2) (l1 ++ l2)
  = (TrainerTest.count_equal p1 l1 + TrainerTest.count_equal p2 l2)%N.
Proof.
  revert l1. induction p1 as [|p p1 IH]; intros [|l l1] Hlen;
    try discriminate Hlen; [reflexivity|].
  injection Hlen as Hlen. cbn [app TrainerTest.count_equal].
  rewrite (IH l1 Hlen). lia.
Qed.

(** X7: for a model that labels every example on its own, the accuracy of
    [test_process] does not depend on how the test set is cut into batches:
    it is the accuracy on the single batch of all examples. *)
Theorem test_accuracy_batching (example : Type) (classify : example -> Z)
    (test_loader : list (list example * list Z)) :
  Forall (fun batch => List.length (fst batch) = List.length (snd batch))
         test_loader ->
  TrainerTest.test_process example (map classify) test_loader
  = TrainerTest.test_process example (map classify)
      [(List.concat (map fst test_loader), List.concat (map snd test_loader))].
Proof.
  intros Hlen. rewrite !test_process_ok. cbn [correct_of total_of fst snd].
  rewrite !N.add_0_r. f_equal.
  - induction Hlen as [|batch rest Hb Hr IH]; [reflexivity|].
    cbn [correct_of map List.concat]. rewrite map_app, count_equal_app, IH.
    + reflexivity.
    + rewrite length_map. exact Hb.
  - induction test_loader as [|batch rest IH]; [reflexivity|].
    inversion Hlen; subst.
    cbn [total_of map List.concat]. rewrite length_app, IH by assumption. lia.
Qed.

Lemma test_accuracy_batching_witness :
  TrainerTest.test_process nat (map Z.of_nat) echo_test_set
  = TrainerTest.test_process nat (map Z.of_nat)
      [(List.concat (map fst echo_test_set), List.concat (map snd echo_test_set))].
Proof.
  apply (test_accuracy_batching nat Z.of_nat echo_test_set).
  repeat constructor.
Defined.

Lemma test_accuracy_one_witness :
  TrainerTest.test_process nat echo_model echo_test_set = Ok 1
  <-> Forall (fun batch => echo_model (fst batch) = snd batch) echo_test_set.
Proof.
  apply (test_accuracy_one nat echo_model echo_test_set).
  - repeat constructor.
  - constructor. discriminate.
Defined.

(** ** [Server.init_trainer] *)

Section InitTrainerProperties.

Variables Model TrainerT AlgorithmT : Type.
Variable from_trainers : option Model -> TrainerT.
Variable from_algorithms : option TrainerT -> AlgorithmT.

(** X8: after [init_trainer] the server has a trainer and an algorithm; a
    model, trainer or algorithm that was already set is kept, and the custom
    classes are left as they were. *)
Theorem init_trainer_sets_components
    (self : ServerInit.server Model TrainerT AlgorithmT) :
  ServerInit.trainer
    (ServerInit.init_trainer from_trainers from_algorithms self) <> None
  /\ ServerInit.algorithm
       (ServerInit.init_trainer from_trainers from_algorithms self) <> None
  /\ (ServerInit.model self <> None ->
      ServerInit.model
        (ServerInit.init_trainer from_trainers from_algorithms self)
      = ServerInit.model self)
  /\ (ServerInit.trainer self <> None ->
      ServerInit.trainer
        (ServerInit.init_trainer from_trainers from_algorithms self)
      = ServerInit.trainer self)
  /\ (ServerInit.algorithm self <> None ->
      ServerInit.algorithm
        (ServerInit.init_trainer from_trainers from_algorithms self)
      = ServerInit.algorithm self)
  /\ ServerInit.custom_model
       (ServerInit.init_trainer from_trainers from_algorithms self)
     = ServerInit.custom_model self
  /\ ServerInit.custom_trainer
       (ServerInit.init_trainer from_trainers from_algorithms self)
     = ServerInit.custom_trainer self
  /\ ServerInit.custom_algorithm
       (ServerInit.init_trainer from_trainers from_algorithms self)
     = ServerInit.custom_algorithm self.
Proof.
  destruct self as [cm m ca a ct t]. unfold ServerInit.init_trainer.
  cbn. repeat split.
  - destruct t, ct; discriminate.
  - destruct a, ca; discriminate.
  - destruct m; [reflexivity|]. intros H. contradiction.
  - destruct t; [reflexivity|]. intros H. contradiction.
  - destruct a; [reflexivity|]. intros H. contradiction.
Qed.

(** X9: a server without a model takes the custom model; a trainer that
    [init_trainer] creates is built on the model the server then holds, and
    an algorithm that it creates on the trainer the server then holds; the
    custom class is used when there is one, the registry otherwise. *)
Theorem init_trainer_wiring
    (self : ServerInit.server Model TrainerT AlgorithmT) :
  (ServerInit.model self = None ->
   ServerInit.model
     (ServerInit.init_trainer from_trainers from_algorithms self)
   = ServerInit.custom_model self)
  /\ (ServerInit.trainer self = None ->
      ServerInit.trainer
        (ServerInit.init_trainer from_trainers from_algorithms self)
      = Some (match ServerInit.custom_trainer self with
              | Some custom => custom
              | None => from_trainers
              end (ServerInit.model
                     (ServerInit.init_trainer from_trainers from_algorithms
                                              self))))
  /\ (ServerInit.algorithm self = None ->
      ServerInit.algorithm
        (ServerInit.init_trainer from_trainers from_algorithms self)
      = Some (match ServerInit.custom_algorithm self with
              | Some custom => custom
              | None => from_algorithms
              end (ServerInit.trainer
                     (ServerInit.init_trainer from_trainers from_algorithms
                                              self)))).
Proof.
  destruct self as [cm m ca a ct t]. unfold ServerInit.init_trainer.
  cbn. repeat split; intros ->.
  - destruct cm; reflexivity.
  - destruct ct; reflexivity.
  - destruct ca; reflexivity.
Qed.

(** X10: [init_trainer] is idempotent: a second call changes nothing. *)
Theorem init_trainer_idempotent
    (self : ServerInit.server Model TrainerT AlgorithmT) :
  ServerInit.init_trainer from_trainers from_algorithms
    (ServerInit.init_trainer from_trainers from_algorithms self)
  = ServerInit.init_trainer from_trainers from_algorithms self.
Proof.
  destruct self as [cm m ca a ct t]. unfold ServerInit.init_trainer.
  cbn. destruct m, cm, t, ct, a, ca; reflexivity.
Qed.

End InitTrainerProperties.

(** ** [Server.get_accuracy_mean_std] and [FedAvgServer.accuracy_averaging] *)

(** X11: [get_accuracy_mean_std] on every input: [(0, 0)] without updates,
    [ZeroDivisionError] when there are updates and their samples sum to zero,
    and the weighted mean and standard deviation otherwise. *)
Theorem accuracy_mean_std_total (updates : list Update) :
  Server.get_accuracy_mean_std updates
  = match updates with
    | [] => Ok (0, 0)
    | _ :: _ =>
        if (total_samples_of updates =? 0)%N then Raise ZeroDivisionError
        else Ok (mean_spec updates, sqrt (variance_spec updates))
    end.
Proof.
  destruct updates as [|u l].
  - unfold Server.get_accuracy_mean_std. cbn. unfold float_sum. cbn.
    rewrite sqrt_0. reflexivity.
  - destruct (N.eqb_spec (total_samples_of (u :: l)) 0) as [H0|Hne].
    + apply get_accuracy_mean_std_zero; [discriminate|exact H0].
    + apply get_accuracy_mean_std_ok. exact Hne.
Qed.

(** X12: with a positive total of samples, a mean of accuracies that all lie
    between [lo] and [hi] lies between [lo] and [hi], and the standard
    deviation is between 0 and [hi - lo]. *)
Theorem accuracy_mean_std_bounds (updates : list Update) (lo hi : R) :
  (0 < total_samples_of updates)%N ->
  Forall (fun update => lo <= accuracy (report update) <= hi) updates ->
  exists mean std,
    Server.get_accuracy_mean_std updates = Ok (mean, std)
    /\ lo <= mean <= hi
    /\ 0 <= std <= hi - lo.
Proof.
  intros Hpos Hall. apply accuracy_in_range; assumption.
Qed.

Lemma accuracy_mean_std_bounds_witness :
  exists mean std,
    Server.get_accuracy_mean_std scenario_accuracies = Ok (mean, std)
    /\ 0.6 <= mean <= 0.8
    /\ 0 <= std <= 0.8 - 0.6.
Proof.
  apply (accuracy_mean_std_bounds scenario_accuracies 0.6 0.8).
  - reflexivity.
  - repeat constructor; cbv -[Rle Q2R Rplus Rmult Rinv IZR Rdiv]; lra.
Defined.

(** X13: clients that all report the accuracy [a] give the mean [a] and the
    standard deviation 0, whatever their numbers of samples. *)
Theorem accuracy_mean_std_consensus (updates : list Update) (a : R) :
  (0 < total_samples_of updates)%N ->
  Forall (fun update => accuracy (report update) = a) updates ->
  Server.get_accuracy_mean_std updates = Ok (a, 0).
Proof.
  intros Hpos Hall.
  destruct (accuracy_in_range updates a a Hpos) as [m [s [Hms [Hm Hs]]]].
  - rewrite Forall_forall in *. intros u Hu. rewrite (Hall u Hu). lra.
  - rewrite Hms. f_equal. f_equal; lra.
Qed.

Lemma accuracy_mean_std_consensus_witness :
  Server.get_accuracy_mean_std
    [mkUpdate (mkReport 2 0.5) []; mkUpdate (mkReport 5 0.5) []]
  = Ok (0.5, 0).
Proof.
  apply (accuracy_mean_std_consensus
           [mkUpdate (mkReport 2 0.5) []; mkUpdate (mkReport 5 0.5) []] 0.5).
  - reflexivity.
  - repeat constructor.
Defined.

Lemma fold_left_map_sum {A : Type} (g : A -> R) (l : list A) (acc : R) :
  fold_left (fun a r => a + g r) l acc = fold_left Rplus (map g l) acc.
Proof.
  revert acc. induction l as [|x l IH]; intros acc; [reflexivity|].
  simpl. apply IH.
Qed.

(** X14: [accuracy_averaging] of [servers/fedavg.py] returns the mean that
    [get_accuracy_mean_std] computes on the same reports, and raises what it
    raises: 0 without reports, [ZeroDivisionError] when the samples of the
    reports sum to zero. *)
Theorem accuracy_averaging_is_mean (reports : list FedAvgServer.Report) :
  FedAvgServer.accuracy_averaging reports
  = (ms <- Server.get_accuracy_mean_std (map as_update reports) ;;
     Ok (fst ms)).
Proof.
  assert (Hsum : int_sum (map FedAvgServer.num_samples reports)
                 = total_samples_of (map as_update reports)).
  { unfold total_samples_of. rewrite map_map. reflexivity. }
  destruct reports as [|r l].
  - cbn [map]. rewrite get_accuracy_mean_std_nil. reflexivity.
  - destruct (N.eq_dec (total_samples_of (map as_update (r :: l))) 0)
      as [H0|Hne].
    + rewrite get_accuracy_mean_std_zero by (try discriminate; exact H0).
      unfold FedAvgServer.accuracy_averaging. cbv zeta.
      rewrite Hsum, H0. reflexivity.
    + rewrite get_accuracy_mean_std_ok by exact Hne.
      rewrite accuracy_averaging_ok by (rewrite Hsum; exact Hne).
      cbn [bind fst]. f_equal. rewrite Hsum.
      rewrite (fold_left_map_sum
                 (fun r0 => FedAvgServer.accuracy r0
                            * (IZR (Z.of_N (FedAvgServer.num_samples r0))
                               / IZR (Z.of_N (total_samples_of
                                                (map as_update (r :: l))))))).
      unfold mean_spec. rewrite <- float_sum_fold_right. unfold float_sum.
      rewrite map_map. reflexivity.
Qed.

(** ** When [aggregate_deltas] returns *)

Lemma accumulate_run (total ns : N) (avg : dict tensor) (name : string)
    (t : tensor) (sh : list nat) :
  total <> 0%N ->
  dict_get (schema avg) name = Some sh ->
  adds_into sh (shape t) = true ->
  exists avg',
    Server.accumulate total ns avg (name, t) = Ok avg'
    /\ schema avg' = schema avg.
Proof.
  intros Ht Hget Hadd. destruct (schema_get _ _ _ Hget) as [cur [Hcur Hsh]].
  unfold Server.accumulate, getitem. cbn [fst snd]. rewrite Hcur. cbn [bind].
  rewrite int_truediv_ok by exact Ht. cbn [bind].
  unfold tensor_iadd. cbn [tensor_scale shape]. rewrite Hsh, Hadd.
  cbn [bind]. eexists. split; [reflexivity|].
  apply (schema_setitem avg name cur); [exact Hcur|]. simpl. congruence.
Qed.

Lemma accumulate_items_run (total ns : N) (items : list (string * tensor)) :
  total <> 0%N \/ items = [] ->
  forall avg : dict tensor,
  (forall name t, In (name, t) items ->
     exists sh, dict_get (schema avg) name = Some sh
                /\ adds_into sh (shape t) = true) ->
  exists avg',
    for_each (Server.accumulate total ns) items avg = Ok avg'
    /\ schema avg' = schema avg.
Proof.
  intros Ht. induction items as [|[name t] items IH]; intros avg Hall.
  - exists avg. split; reflexivity.
  - destruct Ht as [Ht|Ht]; [|discriminate Ht].
    destruct (Hall name t (or_introl eq_refl)) as [sh [Hsh Hadd]].
    destruct (accumulate_run total ns avg name t sh Ht Hsh Hadd)
      as [avg1 [H1 Hs1]].
    destruct (IH (or_introl Ht) avg1) as [avg' [Hrun Hs']].
    { intros n0 t0 Hin. rewrite Hs1. apply Hall. right. exact Hin. }
    exists avg'. cbn [for_each]. rewrite H1. cbn [bind].
    split; [exact Hrun|]. congruence.
Qed.

Lemma accumulate_updates_run (total : N) (S0 : list (string * list nat)) :
  forall (drest : list (dict tensor)) (urest upre : list Update)
         (avg : dict tensor),
  (List.length drest <= List.length urest)%nat ->
  Forall (fun d => (total <> 0%N \/ d = [])
                   /\ forall name t, In (name, t) d ->
                        exists sh, dict_get S0 name = Some sh
                                   /\ adds_into sh (shape t) = true) drest ->
  schema avg = S0 ->
  exists avg',
    for_each (Server.accumulate_update total (upre ++ urest))
             (enumerate_from (List.length upre) drest) avg = Ok avg'
    /\ schema avg' = S0.
Proof.
  induction drest as [|d drest IH]; intros urest upre avg Hlen Hall Hs.
  - exists avg. split; [reflexivity|exact Hs].
  - destruct urest as [|u urest]; [simpl in Hlen; lia|].
    inversion Hall as [|? ? [Ht Hd] Hall']; subst.
    destruct (accumulate_items_run total (num_samples (report u)) d Ht avg)
      as [avg1 [H1 Hs1]]; [exact Hd|].
    destruct (IH urest (upre ++ [u]) avg1) as [avg' [Hrun Hs']].
    + simpl in Hlen. lia.
    + exact Hall'.
    + exact Hs1.
    + exists avg'. split; [|exact Hs'].
      cbn [enumerate_from for_each]. unfold Server.accumulate_update at 1.
      cbn [fst snd]. rewrite list_index_app. cbn [bind]. rewrite H1.
      cbn [bind]. rewrite <- app_assoc, length_app, Nat.add_1_r in Hrun.
      exact Hrun.
Qed.

Lemma accumulate_updates_length (total : N) :
  forall (drest : list (dict tensor)) (urest upre : list Update)
         (avg avg' : dict tensor),
  for_each (Server.accumulate_update total (upre ++ urest))
           (enumerate_from (List.length upre) drest) avg = Ok avg' ->
  (List.length drest <= List.length urest)%nat.
Proof.
  induction drest as [|d drest IH]; intros urest upre avg avg' Hrun.
  - simpl. lia.
  - cbn [enumerate_from for_each] in Hrun.
    unfold Server.accumulate_update at 1 in Hrun. cbn [fst snd] in Hrun.
    destruct urest as [|u urest].
    + unfold list_index in Hrun. rewrite app_nil_r in Hrun.
      rewrite (proj2 (nth_error_None upre (List.length upre))) in Hrun by lia.
      discriminate Hrun.
    + rewrite list_index_app in Hrun. cbn [bind] in Hrun.
      destruct (for_each _ d avg) as [avg1|]; [|discriminate Hrun].
      cbn [bind] in Hrun.
      specialize (IH urest (upre ++ [u]) avg1 avg').
      rewrite <- app_assoc, length_app, Nat.add_1_r in IH.
      specialize (IH Hrun). simpl. lia.
Qed.

(** If [aggregate_deltas] returns, every item of every delta was added with
    a division by a total that is not zero. *)
Lemma aggregate_deltas_ok_total (updates : list Update)
    (first : dict tensor) (rest : list (dict tensor)) (self : Server.server)
    (avg : dict tensor) :
  fst (Server.aggregate_deltas updates (first :: rest) self) = Ok avg ->
  forall d item, In d (first :: rest) -> In item d ->
    total_samples_of updates <> 0%N.
Proof.
  intros Hrun.
  change (for_each
            (Server.accumulate_update (total_samples_of updates) updates)
            (enumerate (first :: rest))
            (map (fun item => (fst item, zeros (shape (snd item)))) first)
          = Ok avg) in Hrun.
  apply (for_each_ok_steps _ (fun _ => True)) in Hrun; [|auto|exact I].
  destruct Hrun as [_ Hsteps]. intros d item Hd Hin.
  destruct (In_enumerate_from _ _ 0%nat Hd) as [i Hi].
  destruct (Hsteps _ Hi) as (a1 & a2 & _ & Hstep).
  unfold Server.accumulate_update in Hstep. cbn [fst snd] in Hstep.
  destruct (list_index updates i) as [u|]; [|discriminate].
  cbn [bind] in Hstep.
  apply (for_each_ok_steps _ (fun _ => True)) in Hstep; [|auto|exact I].
  destruct Hstep as [_ Hitems].
  destruct (Hitems _ Hin) as (b1 & b2 & _ & Hacc).
  apply accumulate_inv in Hacc as [Ht _]. exact Ht.
Qed.

(** X15: [aggregate_deltas] returns exactly when there is a first delta,
    there are at least as many updates as deltas, every tensor of every delta
    has in the first delta a tensor of its name that it can be added into
    (its shape broadcasts to the shape of that tensor), and the samples do
    not sum to zero unless every delta is empty; in every other case it
    raises. *)
Theorem aggregate_deltas_returns_iff (updates : list Update)
    (deltas_received : list (dict tensor)) (self : Server.server) :
  (exists avg_update,
     fst (Server.aggregate_deltas updates deltas_received self)
     = Ok avg_update)
  <-> exists first rest,
        deltas_received = first :: rest
        /\ (List.length deltas_received <= List.length updates)%nat
        /\ (forall d name t, In d deltas_received -> In (name, t) d ->
              exists t0, dict_get first name = Some t0
                         /\ adds_into (shape t0) (shape t) = true)
        /\ (total_samples_of updates <> 0%N
            \/ Forall (fun d => d = []) deltas_received).
Proof.
  split.
  - intros [avg Hrun]. destruct deltas_received as [|first rest].
    { discriminate Hrun. }
    exists first, rest. split; [reflexivity|]. split; [|split].
    + change (for_each
                (Server.accumulate_update (total_samples_of updates)
                                          ([] ++ updates))
                (enumerate_from (List.length (@nil Update)) (first :: rest))
                (map (fun item => (fst item, zeros (shape (snd item)))) first)
              = Ok avg) in Hrun.
      apply accumulate_updates_length in Hrun. exact Hrun.
    + apply (aggregate_deltas_ok_agree _ _ _ _ _ Hrun).
    + destruct (N.eq_dec (total_samples_of updates) 0) as [H0|Hne];
        [right|left; exact Hne].
      apply Forall_forall. intros d Hd. destruct d as [|item d]; [reflexivity|].
      exfalso.
      apply (aggregate_deltas_ok_total _ _ _ _ _ Hrun (item :: d) item Hd);
        [left; reflexivity|exact H0].
  - intros (first & rest & -> & Hlen & Hagree & Ht).
    destruct (accumulate_updates_run (total_samples_of updates) (schema first)
                (first :: rest) updates []
                (map (fun item => (fst item, zeros (shape (snd item)))) first))
      as [avg [Hrun _]].
    + exact Hlen.
    + apply Forall_forall. intros d Hd. split.
      * destruct Ht as [Ht|Ht]; [left; exact Ht|right].
        rewrite Forall_forall in Ht. apply Ht, Hd.
      * intros name t Hin. destruct (Hagree d name t Hd Hin) as [t0 [H0 Hsh]].
        exists (shape t0). rewrite dict_get_schema, H0. split; [reflexivity|].
        exact Hsh.
    + apply schema_zeros_like.
    + exists avg. exact Hrun.
Qed.

(** ** What [aggregate_deltas] returns *)

Lemma accumulate_updates_value (total : N) (S0 : list (string * list nat)) :
  forall (drest : list (dict tensor)) (urest upre : list Update)
         (avg : dict tensor),
  (List.length drest <= List.length urest)%nat ->
  Forall (fun d => dict_wf d = true
                   /\ (total <> 0%N \/ d = [])
                   /\ forall item, In item d ->
                        dict_get S0 (fst item) = Some (shape (snd item)))
         drest ->
  schema avg = S0 ->
  forallb (fun item => tensor_wf (snd item)) avg = true ->
  exists avg',
    for_each (Server.accumulate_update total (upre ++ urest))
             (enumerate_from (List.length upre) drest) avg = Ok avg'
    /\ schema avg' = S0
    /\ forallb (fun item => tensor_wf (snd item)) avg' = true
    /\ forall name k,
         elem avg' name k
         = fold_left
             (fun acc ud =>
                acc + elem (snd ud) name k
                      * (IZR (Z.of_N (num_samples (report (fst ud))))
                         / IZR (Z.of_N total)))
             (combine urest drest) (elem avg name k).
Proof.
  induction drest as [|d drest IH]; intros urest upre avg Hlen Hall Hs Hw.
  - exists avg. destruct urest; repeat split; assumption.
  - destruct urest as [|u urest]; [simpl in Hlen; lia|].
    inversion Hall as [|? ? [Hwf [Ht Hd]] Hall']; subst.
    assert (H1 : exists avg1,
               for_each (Server.accumulate total (num_samples (report u)))
                        d avg = Ok avg1
               /\ schema avg1 = schema avg
               /\ forallb (fun item => tensor_wf (snd item)) avg1 = true
               /\ forall name k,
                    elem avg1 name k
                    = elem avg name k
                      + elem d name k
                        * (IZR (Z.of_N (num_samples (report u)))
                           / IZR (Z.of_N total))).
    { destruct Ht as [Ht| ->].
      - unfold dict_wf in Hwf. apply andb_prop in Hwf as [Hu Hwd].
        apply accumulate_items_ok; assumption.
      - exists avg. split; [reflexivity|]. split; [reflexivity|].
        split; [exact Hw|]. intros name k. unfold elem at 3. simpl. lra. }
    destruct H1 as (avg1 & Hrun1 & Hs1 & Hw1 & He1).
    destruct (IH urest (upre ++ [u]) avg1) as (avg' & Hrun & Hs' & Hw' & He').
    + simpl in Hlen. lia.
    + exact Hall'.
    + exact Hs1.
    + exact Hw1.
    + exists avg'. split; [|split; [|split]]; try assumption.
      * cbn [enumerate_from for_each]. unfold Server.accumulate_update at 1.
        cbn [fst snd]. rewrite list_index_app. cbn [bind]. rewrite Hrun1.
        cbn [bind]. rewrite <- app_assoc, length_app, Nat.add_1_r in Hrun.
        exact Hrun.
      * intros name k. rewrite He'. cbn [combine fold_left fst snd].
        rewrite He1. reflexivity.
Qed.

Lemma aggregate_deltas_value (updates : list Update)
    (first : dict tensor) (rest : list (dict tensor)) (self : Server.server)
    (avg_update : dict tensor) :
  fst (Server.aggregate_deltas updates (first :: rest) self) = Ok avg_update ->
  Forall (fun d => dict_wf d = true /\ sub_schema d first = true)
         (first :: rest) ->
  forall name k,
    elem avg_update name k = avg_delta_spec updates (first :: rest) name k.
Proof.
  intros Hrun Hwf.
  pose proof (aggregate_deltas_ok_total _ _ _ _ _ Hrun) as Htotal.
  change (for_each
            (Server.accumulate_update (total_samples_of updates)
                                      ([] ++ updates))
            (enumerate_from (List.length (@nil Update)) (first :: rest))
            (map (fun item => (fst item, zeros (shape (snd item)))) first)
          = Ok avg_update) in Hrun.
  pose proof (accumulate_updates_length _ _ _ _ _ _ Hrun) as Hlen.
  destruct (accumulate_updates_value (total_samples_of updates) (schema first)
              (first :: rest) updates []
              (map (fun item => (fst item, zeros (shape (snd item)))) first))
    as (avg & Hrun' & _ & _ & He).
  - exact Hlen.
  - apply Forall_forall. intros d Hd. rewrite Forall_forall in Hwf.
    destruct (Hwf d Hd) as [Hd1 Hd2].
    split; [exact Hd1|]. split.
    + destruct d as [|item d]; [right; reflexivity|left].
      apply (Htotal (item :: d) item Hd). left. reflexivity.
    + apply sub_schema_lookup. exact Hd2.
  - apply schema_zeros_like.
  - apply zeros_like_wf.
  - rewrite Hrun in Hrun'. injection Hrun' as <-.
    intros name k. rewrite He, elem_zeros_like. reflexivity.
Qed.

(** X16: whenever [aggregate_deltas] returns on well-formed deltas whose
    tensors have the shapes of the tensors of their names in the first
    delta, every element of the result is the sum of the clients' elements
    weighted by [num_samples / total_samples], where a delta without the
    parameter adds nothing while its samples still count in [total_samples],
    and where the total counts the samples of all updates, also of those
    beyond the last delta. *)
Theorem aggregate_deltas_partial (updates : list Update)
    (first : dict tensor) (rest : list (dict tensor)) (self : Server.server)
    (avg_update : dict tensor) :
  fst (Server.aggregate_deltas updates (first :: rest) self) = Ok avg_update ->
  Forall (fun d => dict_wf d = true /\ sub_schema d first = true)
         (first :: rest) ->
  forall name k,
    elem avg_update name k
    = fold_left
        (fun acc ud =>
           acc + match dict_get (snd ud) name with
                 | Some delta => nth k (data delta) 0
                 | None => 0
                 end
                 * (IZR (Z.of_N (num_samples (report (fst ud))))
                    / IZR (Z.of_N (total_samples_of updates))))
        (combine updates (first :: rest)) 0.
Proof.
  intros Hrun Hwf name k.
  rewrite (aggregate_deltas_value _ _ _ _ _ Hrun Hwf). reflexivity.
Qed.

Lemma aggregate_deltas_partial_witness :
  elem [("w"%string, Tensor [1%nat] [1.0])] "w" 0
  = fold_left
      (fun acc ud =>
         acc + match dict_get (snd ud) "w" with
               | Some delta => nth 0 (data delta) 0
               | None => 0
               end
               * (IZR (Z.of_N (num_samples (report (fst ud))))
                  / IZR (Z.of_N (total_samples_of missing_updates))))
      (combine missing_updates missing_deltas) 0.
Proof.
  apply (aggregate_deltas_partial missing_updates
           [("w"%string, Tensor [1%nat] [4.0])] [[]] scenario_server).
  - cbv -[Rplus Rmult Rdiv IZR Rinv Rminus Q2R]. repeat f_equal. lra.
  - repeat constructor.
Defined.

(** ** Clients that agree *)

(** X17: when every client sends the same well-formed delta, one delta per
    update and a positive total of samples, [aggregate_deltas] returns that
    delta, element by element (in exact arithmetic). *)
Theorem aggregate_deltas_consensus (updates : list Update)
    (deltas_received : list (dict tensor)) (d : dict tensor)
    (self : Server.server) :
  deltas_received <> [] ->
  List.length deltas_received = List.length updates ->
  (0 < total_samples_of updates)%N ->
  dict_wf d = true ->
  Forall (fun d' => d' = d) deltas_received ->
  exists avg_update,
    fst (Server.aggregate_deltas updates deltas_received self) = Ok avg_update
    /\ schema avg_update = schema d
    /\ forall name k, elem avg_update name k = elem d name k.
Proof.
  intros Hne Hlen Hpos Hwf Hall.
  destruct (aggregate_consensus updates deltas_received d self)
    as (avg & Hrun & Hs & He); try assumption.
  exists avg. split; [exact Hrun|]. split; [exact Hs|exact He].
Qed.

Lemma aggregate_deltas_consensus_witness :
  exists avg_update,
    fst (Server.aggregate_deltas scenario_updates consensus_deltas
                                 scenario_server)
    = Ok avg_update
    /\ schema avg_update = schema consensus_delta
    /\ forall name k,
         elem avg_update name k = elem consensus_delta name k.
Proof.
  apply (aggregate_deltas_consensus scenario_updates consensus_deltas
                                    consensus_delta scenario_server).
  - discriminate.
  - reflexivity.
  - reflexivity.
  - reflexivity.
  - repeat constructor.
Defined.

(** ** The window of the stop signal *)

(** X18: the stop signal as a window on the mean norm [delta_g] of the new
    weights.  With the constants of the source ([x = 0.432 / 3.3],
    [lambda_value = 0.9835], [denominator = 59]) and a round that is not
    negative, [t >= current_round] holds exactly when
    [x < delta_g <= x + 59 * 0.9835 ^ current_round]: the window shrinks from
    round to round, and weights without parameters or with a mean norm of at
    most [x] never stop a round. *)
Theorem estimator_stop_window (updated_weights : dict tensor)
    (self : Server.server) :
  (0 <= Server.self_current_round self)%Z ->
  exists t,
    Server.estimate updated_weights = Ok t
    /\ (fst (Server.check_stop t self) = Raise StopIteration
        <-> exists delta_g,
              Server.s_average updated_weights = Some delta_g
              /\ 0.432 / 3.3 < delta_g
              /\ delta_g - 0.432 / 3.3
                 <= 59 * 0.9835 ^ Z.to_nat (Server.self_current_round self)).
Proof.
  intros Hround.
  destruct (estimate_window updated_weights
              (Z.to_nat (Server.self_current_round self))) as [t [Ht Hw]].
  exists t. split; [exact Ht|]. rewrite <- Hw.
  rewrite INR_IZR_INZ, Z2Nat.id by exact Hround.
  rewrite check_stop_run.
  destruct (Rle_dec (IZR (Server.self_current_round self)) t) as [Hle|Hgt].
  - split; [intros _; exact Hle|reflexivity].
  - split; [discriminate|contradiction].
Qed.

Lemma estimator_stop_window_witness :
  exists t,
    Server.estimate scenario_baseline = Ok t
    /\ (fst (Server.check_stop t scenario_server) = Raise StopIteration
        <-> exists delta_g,
              Server.s_average scenario_baseline = Some delta_g
              /\ 0.432 / 3.3 < delta_g
              /\ delta_g - 0.432 / 3.3
                 <= 59 * 0.9835
                         ^ Z.to_nat (Server.self_current_round scenario_server)).
Proof.
  apply (estimator_stop_window scenario_baseline scenario_server).
  discriminate.
Defined.

(** ** The state that [_process_reports] leaves *)

(** X19: when the stop test holds, the caller that awaits [_process_reports]
    receives [RuntimeError], and the aggregation has already happened: the
    model holds the new weights and [total_samples] the new total, while
    [accuracy] and [accuracy_std] keep the values of the round before, and
    the round and the updates are as they were. *)
Theorem stop_after_loading (trainer_test : dict tensor -> R)
    (on_clients_processed : Server.server -> result unit)
    (self : Server.server) (updated_weights : dict tensor) (t : R) :
  aggregated_weights self = Ok updated_weights ->
  Server.estimate updated_weights = Ok t ->
  IZR (Server.self_current_round self) <= t ->
  fst (Server._process_reports trainer_test on_clients_processed self)
  = Raise RuntimeError
  /\ Server.self_model
       (snd (Server._process_reports trainer_test on_clients_processed self))
     = updated_weights
  /\ Server.self_total_samples
       (snd (Server._process_reports trainer_test on_clients_processed self))
     = total_samples_of (Server.self_updates self)
  /\ Server.self_accuracy
       (snd (Server._process_reports trainer_test on_clients_processed self))
     = Server.self_accuracy self
  /\ Server.self_accuracy_std
       (snd (Server._process_reports trainer_test on_clients_processed self))
     = Server.self_accuracy_std self
  /\ Server.self_current_round
       (snd (Server._process_reports trainer_test on_clients_processed self))
     = Server.self_current_round self
  /\ Server.self_updates
       (snd (Server._process_reports trainer_test on_clients_processed self))
     = Server.self_updates self.
Proof.
  intros Ha Ht Hle.
  rewrite (process_reports_stops trainer_test on_clients_processed self
             updated_weights t Ha Ht Hle).
  repeat split.
Qed.

Lemma stop_after_loading_witness :
  fst (Server._process_reports (fun _ => 0) (fun _ => Ok tt) scenario_server)
  = Raise RuntimeError
  /\ Server.self_model
       (snd (Server._process_reports (fun _ => 0) (fun _ => Ok tt)
                                     scenario_server))
     = [("w"%string, Tensor [2%nat] [4.0; 1.0])]
  /\ Server.self_total_samples
       (snd (Server._process_reports (fun _ => 0) (fun _ => Ok tt)
                                     scenario_server))
     = total_samples_of (Server.self_updates scenario_server)
  /\ Server.self_accuracy
       (snd (Server._process_reports (fun _ => 0) (fun _ => Ok tt)
                                     scenario_server))
     = Server.self_accuracy scenario_server
  /\ Server.self_accuracy_std
       (snd (Server._process_reports (fun _ => 0) (fun _ => Ok tt)
                                     scenario_server))
     = Server.self_accuracy_std scenario_server
  /\ Server.self_current_round
       (snd (Server._process_reports (fun _ => 0) (fun _ => Ok tt)
                                     scenario_server))
     = Server.self_current_round scenario_server
  /\ Server.self_updates
       (snd (Server._process_reports (fun _ => 0) (fun _ => Ok tt)
                                     scenario_server))
     = Server.self_updates scenario_server.
Proof.
  destruct scenario_stop_time as (t & Ht & _ & Hle).
  apply (stop_after_loading (fun _ => 0) (fun _ => Ok tt) scenario_server
           [("w"%string, Tensor [2%nat] [4.0; 1.0])] t).
  - exact scenario_weights.
  - exact Ht.
  - exact Hle.
Defined.

(** A call that returns ran its body to the end. *)
Lemma coroutine_returns {A : Type} (body : Server.M A) (self : Server.server)
    (a : A) :
  fst (Server.coroutine body self) = Ok a ->
  Server.coroutine body self = body self /\ fst (body self) = Ok a.
Proof.
  unfold Server.coroutine. destruct (body self) as [[a'|[]] self'];
    cbn [fst]; intros H; try discriminate H; split; try reflexivity; exact H.
Qed.

Lemma process_reports_returns (trainer_test : dict tensor -> R)
    (on_clients_processed : Server.server -> result unit)
    (self : Server.server) :
  fst (Server._process_reports trainer_test on_clients_processed self)
  = Ok tt ->
  exists w t,
    aggregated_weights self = Ok w
    /\ Server.estimate w = Ok t
    /\ ~ IZR (Server.self_current_round self) <= t.
Proof.
  intros H. destruct (aggregated_weights self) as [w|e] eqn:Ha.
  - destruct (estimate_ok w) as [t Ht]. exists w, t.
    split; [reflexivity|]. split; [exact Ht|].
    apply coroutine_returns in H as [_ H].
    rewrite (process_reports_body_run trainer_test on_clients_processed
               self w t Ha Ht) in H.
    cbv zeta in H. destruct (Rle_dec _ t); [discriminate H|assumption].
  - destruct (process_reports_failure trainer_test on_clients_processed
                self e Ha) as [H1 _].
    rewrite H1 in H. discriminate H.
Qed.

(** X20: when [_process_reports] returns, the model holds the new weights
    and [total_samples] the new total.  A server that takes the accuracy from
    its clients holds the mean and the standard deviation of
    [get_accuracy_mean_std]; a server that tests the model itself holds the
    accuracy of the new weights, and its [accuracy_std] keeps the value of
    the round before.  The round and the updates are as they were. *)
Theorem completed_round_state (trainer_test : dict tensor -> R)
    (on_clients_processed : Server.server -> result unit)
    (self : Server.server) :
  fst (Server._process_reports trainer_test on_clients_processed self)
  = Ok tt ->
  exists updated_weights,
    aggregated_weights self = Ok updated_weights
    /\ Server.self_model
         (snd (Server._process_reports trainer_test on_clients_processed
                                       self))
       = updated_weights
    /\ Server.self_total_samples
         (snd (Server._process_reports trainer_test on_clients_processed
                                       self))
       = total_samples_of (Server.self_updates self)
    /\ match Server.do_test self with
       | Some false =>
           Server.get_accuracy_mean_std (Server.self_updates self)
           = Ok (Server.self_accuracy
                   (snd (Server._process_reports trainer_test
                           on_clients_processed self)),
                 Server.self_accuracy_std
                   (snd (Server._process_reports trainer_test
                           on_clients_processed self)))
       | _ =>
           Server.self_accuracy
             (snd (Server._process_reports trainer_test on_clients_processed
                                           self))
           = trainer_test updated_weights
           /\ Server.self_accuracy_std
                (snd (Server._process_reports trainer_test
                        on_clients_processed self))
              = Server.self_accuracy_std self
       end
    /\ Server.self_current_round
         (snd (Server._process_reports trainer_test on_clients_processed
                                       self))
       = Server.self_current_round self
    /\ Server.self_updates
         (snd (Server._process_reports trainer_test on_clients_processed
                                       self))
       = Server.self_updates self.
Proof.
  intros Hok.
  destruct (process_reports_returns trainer_test on_clients_processed self Hok)
    as (w & t & Ha & Ht & Hgt).
  exists w. split; [exact Ha|].
  apply coroutine_returns in Hok as [Hco Hok].
  unfold Server._process_reports. rewrite Hco. clear Hco.
  rewrite (process_reports_body_run trainer_test on_clients_processed
             self w t Ha Ht) in Hok |- *.
  cbv zeta in Hok |- *.
  destruct (Rle_dec _ t); [contradiction|].
  destruct (Server.do_test self) as [[|]|].
  - repeat split.
  - destruct (Server.get_accuracy_mean_std (Server.self_updates self))
      as [[m s]|e]; [|discriminate Hok].
    repeat split.
  - repeat split.
Qed.

Lemma quiet_weights :
  aggregated_weights quiet_server = Ok [("w"%string, Tensor [1%nat] [0])].
Proof.
  cbv -[Rplus Rmult Rdiv IZR Rinv Rminus Q2R]. repeat f_equal; lra.
Qed.

Lemma quiet_round_returns (trainer_test : dict tensor -> R) :
  fst (Server._process_reports trainer_test (fun _ => Ok tt) quiet_server)
  = Ok tt.
Proof.
  destruct (estimate_window [("w"%string, Tensor [1%nat] [0])] 1)
    as [t [Ht Hw]].
  unfold Server._process_reports.
  assert (Hbody : fst (Server._process_reports_body trainer_test
                         (fun _ => Ok tt) quiet_server) = Ok tt).
  { rewrite (process_reports_body_run trainer_test (fun _ => Ok tt)
               quiet_server _ t quiet_weights Ht).
    cbv zeta.
    destruct (Rle_dec (IZR (Server.self_current_round quiet_server)) t)
      as [Hle|_].
    - exfalso. change (INR 1 <= t) in Hle. apply Hw in Hle.
      destruct Hle as (d & Hd & Hx & _).
      cbv -[Rplus Rmult Rdiv IZR Rinv Rminus Q2R sqrt] in Hd.
      injection Hd as <-.
      replace (0 + 0 * 0) with 0 in Hx by lra. rewrite sqrt_0 in Hx. lra.
    - cbn [Server.do_test quiet_server].
      rewrite get_accuracy_mean_std_ok by (cbv; discriminate).
      reflexivity. }
  unfold Server.coroutine.
  destruct (Server._process_reports_body trainer_test (fun _ => Ok tt)
                                         quiet_server) as [r s].
  cbn [fst] in Hbody. subst r. reflexivity.
Qed.

Lemma completed_round_state_witness :
  exists updated_weights,
    aggregated_weights quiet_server = Ok updated_weights
    /\ Server.self_model
         (snd (Server._process_reports (fun _ => 0) (fun _ => Ok tt)
                                       quiet_server))
       = updated_weights
    /\ Server.self_total_samples
         (snd (Server._process_reports (fun _ => 0) (fun _ => Ok tt)
                                       quiet_server))
       = total_samples_of (Server.self_updates quiet_server)
    /\ match Server.do_test quiet_server with
       | Some false =>
           Server.get_accuracy_mean_std (Server.self_updates quiet_server)
           = Ok (Server.self_accuracy
                   (snd (Server._process_reports (fun _ => 0)
                           (fun _ => Ok tt) quiet_server)),
                 Server.self_accuracy_std
                   (snd (Server._process_reports (fun _ => 0)
                           (fun _ => Ok tt) quiet_server)))
       | _ =>
           Server.self_accuracy
             (snd (Server._process_reports (fun _ => 0) (fun _ => Ok tt)
                                           quiet_server))
           = (fun _ : dict tensor => 0) updated_weights
           /\ Server.self_accuracy_std
                (snd (Server._process_reports (fun _ => 0) (fun _ => Ok tt)
                                              quiet_server))
              = Server.self_accuracy_std quiet_server
       end
    /\ Server.self_current_round
         (snd (Server._process_reports (fun _ => 0) (fun _ => Ok tt)
                                       quiet_server))
       = Server.self_current_round quiet_server
    /\ Server.self_updates
         (snd (Server._process_reports (fun _ => 0) (fun _ => Ok tt)
                                       quiet_server))
       = Server.self_updates quiet_server.
Proof.
  apply (completed_round_state (fun _ => 0) (fun _ => Ok tt) quiet_server).
  apply quiet_round_returns.
Defined.

(** ** A round that raises *)

(** X26: a call of [_process_reports] that raises while what runs after the
    assignment of the accuracy returns (the logging and the handlers of
    [on_clients_processed]) leaves [accuracy] and [accuracy_std] as they
    were, and the round, the updates and the configuration too: until then
    the accuracy is assigned last. *)
Theorem raising_round_keeps_accuracy (trainer_test : dict tensor -> R)
    (on_clients_processed : Server.server -> result unit)
    (self : Server.server) (e : exn) :
  (forall done, on_clients_processed done = Ok tt) ->
  fst (Server._process_reports trainer_test on_clients_processed self)
  = Raise e ->
  Server.self_accuracy
    (snd (Server._process_reports trainer_test on_clients_processed self))
  = Server.self_accuracy self
  /\ Server.self_accuracy_std
       (snd (Server._process_reports trainer_test on_clients_processed self))
     = Server.self_accuracy_std self
  /\ Server.self_current_round
       (snd (Server._process_reports trainer_test on_clients_processed self))
     = Server.self_current_round self
  /\ Server.self_updates
       (snd (Server._process_reports trainer_test on_clients_processed self))
     = Server.self_updates self
  /\ Server.do_test
       (snd (Server._process_reports trainer_test on_clients_processed self))
     = Server.do_test self.
Proof.
  intros Hquiet Hraise. unfold Server._process_reports in *.
  rewrite coroutine_state.
  assert (Hbody : exists e', fst (Server._process_reports_body trainer_test
                                    on_clients_processed self) = Raise e').
  { unfold Server.coroutine in Hraise.
    destruct (Server._process_reports_body trainer_test on_clients_processed
                                            self) as [[u|e'] self'];
      [discriminate Hraise|]. exists e'. reflexivity. }
  destruct Hbody as [e' Hbody]. clear Hraise.
  destruct (aggregated_weights self) as [w|e0] eqn:Ha.
  - destruct (estimate_ok w) as [t Ht].
    rewrite (process_reports_body_run trainer_test on_clients_processed
               self w t Ha Ht) in Hbody |- *.
    cbv zeta in Hbody |- *.
    destruct (Rle_dec _ t); [repeat split|].
    destruct (Server.do_test self) as [[|]|] eqn:Ed;
      try (rewrite Hquiet in Hbody; discriminate Hbody).
    destruct (Server.get_accuracy_mean_std (Server.self_updates self));
      [rewrite Hquiet in Hbody; discriminate Hbody|].
    repeat split. exact Ed.
  - destruct (process_reports_body_failure trainer_test on_clients_processed
                self e0 Ha) as [_ [-> | ->]]; repeat split.
Qed.

Lemma zero_total_round_raises (trainer_test : dict tensor -> R) :
  fst (Server._process_reports trainer_test (fun _ => Ok tt)
                               zero_total_server)
  = Raise ZeroDivisionError.
Proof.
  apply process_reports_failure.
  cbv -[Rplus Rmult Rdiv IZR Rinv Rminus Q2R]. reflexivity.
Qed.

Lemma raising_round_keeps_accuracy_witness :
  Server.self_accuracy
    (snd (Server._process_reports (fun _ => 0) (fun _ => Ok tt)
                                  zero_total_server))
  = Server.self_accuracy zero_total_server
  /\ Server.self_accuracy_std
       (snd (Server._process_reports (fun _ => 0) (fun _ => Ok tt)
                                     zero_total_server))
     = Server.self_accuracy_std zero_total_server
  /\ Server.self_current_round
       (snd (Server._process_reports (fun _ => 0) (fun _ => Ok tt)
                                     zero_total_server))
     = Server.self_current_round zero_total_server
  /\ Server.self_updates
       (snd (Server._process_reports (fun _ => 0) (fun _ => Ok tt)
                                     zero_total_server))
     = Server.self_updates zero_total_server
  /\ Server.do_test
       (snd (Server._process_reports (fun _ => 0) (fun _ => Ok tt)
                                     zero_total_server))
     = Server.do_test zero_total_server.
Proof.
  apply (raising_round_keeps_accuracy (fun _ => 0) (fun _ => Ok tt)
           zero_total_server ZeroDivisionError).
  - reflexivity.
  - apply zero_total_round_raises.
Defined.

(** ** [Trainer.compute_weight_updates] *)

(** The inner loop of [compute_weight_updates]: it returns one delta per
    item of the client's weights, under the same name, of the shape that
    the shapes of the client's tensor and of the model's tensor broadcast
    to. *)
Lemma compute_update_items (baseline_weights : dict tensor) :
  forall (weight update out : list (string * tensor)),
  for_each
    (fun update item =>
       baseline <- getitem baseline_weights (fst item) ;;
       delta <- tensor_sub (snd item) baseline ;;
       Ok (update ++ [(fst item, delta)]))
    weight update = Ok out ->
  exists new,
    out = update ++ new
    /\ Forall2 (fun item d =>
                  fst d = fst item
                  /\ exists baseline,
                       dict_get baseline_weights (fst item) = Some baseline
                       /\ broadcast_shapes (shape (snd item)) (shape baseline)
                          = Some (shape (snd d)))
               weight new.
Proof.
  induction weight as [|[name t] weight IH]; intros update out H.
  - simpl in H. injection H as <-. exists []. rewrite app_nil_r.
    split; [reflexivity|constructor].
  - cbn [for_each fst snd] in H. unfold getitem in H.
    destruct (dict_get baseline_weights name) as [b|] eqn:Eb;
      [|discriminate H].
    cbn [bind] in H. unfold tensor_sub in H.
    destruct (broadcast_shapes (shape t) (shape b)) as [sh|] eqn:Es;
      [|discriminate H].
    cbn [bind] in H.
    destruct (IH _ _ H) as [new [-> Hall]].
    eexists. rewrite <- app_assoc. split; [reflexivity|].
    constructor; [|exact Hall]. cbn [fst snd]. split; [reflexivity|].
    exists b. split; [exact Eb|exact Es].
Qed.

Lemma compute_update_items_run (baseline_weights : dict tensor) :
  forall (weight update : list (string * tensor)),
  (forall name t, In (name, t) weight ->
     exists baseline, dict_get baseline_weights name = Some baseline
                      /\ broadcast_shapes (shape t) (shape baseline) <> None) ->
  exists out,
    for_each
      (fun update item =>
         baseline <- getitem baseline_weights (fst item) ;;
         delta <- tensor_sub (snd item) baseline ;;
         Ok (update ++ [(fst item, delta)]))
      weight update = Ok out.
Proof.
  induction weight as [|[name t] weight IH]; intros update Hall.
  - exists update. reflexivity.
  - destruct (Hall name t (or_introl eq_refl)) as [b [Hb Hs]].
    cbn [for_each fst snd]. unfold getitem. rewrite Hb. cbn [bind].
    unfold tensor_sub.
    destruct (broadcast_shapes (shape t) (shape b)) as [sh|];
      [|contradiction]. cbn [bind].
    apply IH. intros n0 t0 Hin. apply Hall. right. exact Hin.
Qed.

Lemma compute_weight_updates_inv (model : dict tensor)
    (weights_received : list (dict tensor))
    (updates : list (list (string * tensor))) :
  Trainer.compute_weight_updates model weights_received = Ok updates ->
  Forall2 (fun weight update =>
             Forall2 (fun item d =>
                        fst d = fst item
                        /\ exists baseline,
                             dict_get model (fst item) = Some baseline
                             /\ broadcast_shapes (shape (snd item))
                                                 (shape baseline)
                                = Some (shape (snd d)))
                     weight update)
          weights_received updates.
Proof.
  unfold Trainer.compute_weight_updates, Trainer.extract_weights. cbv zeta.
  revert updates. induction weights_received as [|w ws IH]; intros updates H.
  - simpl in H. injection H as <-. constructor.
  - cbn [map_result] in H.
    destruct (for_each _ w []) as [u|] eqn:Eu; [|discriminate H].
    cbn [bind] in H.
    match type of H with
    | context [map_result ?f ws] =>
        destruct (map_result f ws) as [us|] eqn:Eus; [|discriminate H]
    end.
    cbn [bind] in H. injection H as <-.
    constructor; [|apply IH; reflexivity].
    destruct (compute_update_items model w [] u Eu) as [new [-> Hall]].
    exact Hall.
Qed.

(** X21: [compute_weight_updates] returns exactly when every tensor of every
    client has in the model a tensor of its name whose shape broadcasts with
    its own; it then returns one update per client, and each update lists
    the client's parameters in the client's order, under their names, each
    delta of the shape that the two shapes broadcast to (the shape of the
    client's tensor when the two are equal). *)
Theorem compute_weight_updates_returns (model : dict tensor)
    (weights_received : list (dict tensor)) :
  ((exists updates,
      Trainer.compute_weight_updates model weights_received = Ok updates)
   <-> forall weight name t,
         In weight weights_received -> In (name, t) weight ->
         exists baseline,
           dict_get model name = Some baseline
           /\ broadcast_shapes (shape t) (shape baseline) <> None)
  /\ forall updates,
       Trainer.compute_weight_updates model weights_received = Ok updates ->
       Forall2 (fun weight update =>
                  Forall2 (fun item d =>
                             fst d = fst item
                             /\ exists baseline,
                                  dict_get model (fst item) = Some baseline
                                  /\ broadcast_shapes (shape (snd item))
                                                      (shape baseline)
                                     = Some (shape (snd d))
                                  /\ (shape (snd item) = shape baseline ->
                                      shape (snd d) = shape (snd item)))
                          weight update)
               weights_received updates.
Proof.
  split; [split|].
  - intros [updates H] weight name t Hw Hin.
    apply compute_weight_updates_inv in H.
    induction H as [|w u ws us Hwu Hrest IH]; [contradiction|].
    destruct Hw as [->|Hw]; [|apply IH; exact Hw].
    clear IH Hrest. induction Hwu as [|item d w' u' Hd Hrest IH];
      [contradiction|].
    destruct Hin as [->|Hin]; [|apply IH; exact Hin].
    destruct Hd as [_ [b [Hb Hs]]]. exists b. split; [exact Hb|].
    cbn [snd] in Hs. rewrite Hs. discriminate.
  - intros Hall. unfold Trainer.compute_weight_updates, Trainer.extract_weights.
    cbv zeta. induction weights_received as [|w ws IH].
    + exists []. reflexivity.
    + destruct (compute_update_items_run model w []) as [u Hu].
      { intros name t Hin. apply (Hall w); [left; reflexivity|exact Hin]. }
      destruct IH as [us Hus].
      { intros weight name t Hw. apply Hall. right. exact Hw. }
      exists (u :: us). cbn [map_result]. rewrite Hu. cbn [bind].
      rewrite Hus. reflexivity.
  - intros updates H. apply compute_weight_updates_inv in H.
    eapply Forall2_impl; [|exact H]. intros w u Hwu. cbv beta in Hwu.
    eapply Forall2_impl; [|exact Hwu]. intros item d [Hn [b [Hb Hs]]].
    split; [exact Hn|]. exists b. split; [exact Hb|]. split; [exact Hs|].
    intros Heq. rewrite Heq, broadcast_shapes_refl in Hs.
    injection Hs as Hs. congruence.
Qed.

(** ** What [federated_averaging] returns and leaves alone *)

(** X24: [federated_averaging] returns for a model without parameters only,
    and then returns no weights; for a model with a parameter it raises,
    whatever the reports are: the last loop enumerates the names of the
    [state_dict()] and takes each name apart as [(name, weight)].  On the
    scenario of section 8 the averaging loops run and the name [w] raises
    [ValueError]. *)
Theorem legacy_result_empty (self : FedAvgServer.server)
    (reports : list FedAvgServer.Report) :
  (forall updated_weights,
     fst (FedAvgServer.federated_averaging self reports) = Ok updated_weights ->
     FedAvgServer.self_model self = [] /\ updated_weights = [])
  /\ (FedAvgServer.self_model self <> [] ->
      exists e, fst (FedAvgServer.federated_averaging self reports) = Raise e)
  /\ fst (FedAvgServer.federated_averaging
            (FedAvgServer.mkServer 0 [])
            [FedAvgServer.mkReport 1 0 []]) = Ok []
  /\ fst (FedAvgServer.federated_averaging legacy_scenario_server
                                           legacy_scenario_reports)
     = Raise ValueError.
Proof.
  split; [|split; [|split]].
  - intros updated. apply federated_averaging_returns.
  - intros Hne.
    destruct (fst (FedAvgServer.federated_averaging self reports))
      as [updated|e] eqn:E; [|exists e; reflexivity].
    apply federated_averaging_returns in E as [E _]. contradiction.
  - reflexivity.
  - exact legacy_scenario_aggregation.
Qed.

(** X25: on tensor objects, [federated_averaging] writes only into tensors
    that it has created itself: every tensor that existed before the call,
    the model's and the clients', holds the same value afterwards, and the
    server holds the same model. *)
Theorem legacy_aggregation_frame (self : ObjFedAvgServer.server)
    (reports : list ObjFedAvgServer.Report) (h : Obj.store) :
  firstn (List.length h)
         (snd (ObjFedAvgServer.federated_averaging self reports h)) = h
  /\ ObjFedAvgServer.self_model
       (snd (fst (ObjFedAvgServer.federated_averaging self reports h)))
     = ObjFedAvgServer.self_model self.
Proof.
  apply federated_averaging_frame.
Qed.

(** ** The exceptions of the aggregation *)

Section RaisesOnly.

Variable allowed : list exn.

Lemma raises_only_ok {A : Type} (a : A) : raises_only allowed (Ok a).
Proof. intros e H. discriminate H. Qed.

Lemma raises_only_bind {A B : Type} (c : result A) (k : A -> result B) :
  raises_only allowed c -> (forall a, raises_only allowed (k a)) ->
  raises_only allowed (bind c k).
Proof.
  intros Hc Hk. destruct c as [a|e0]; simpl; [apply Hk|].
  intros e H. apply Hc. inversion H. reflexivity.
Qed.

Lemma raises_only_for_each {A S : Type} (body : S -> A -> result S)
    (l : list A) (s : S) :
  (forall s x, raises_only allowed (body s x)) ->
  raises_only allowed (for_each body l s).
Proof.
  intros Hb. revert s. induction l as [|x l IH]; intros s; simpl.
  - apply raises_only_ok.
  - apply raises_only_bind; [apply Hb|exact IH].
Qed.

Lemma raises_only_map_result {A B : Type} (f : A -> result B) (l : list A) :
  (forall x, raises_only allowed (f x)) ->
  raises_only allowed (map_result f l).
Proof.
  intros Hf. induction l as [|x l IH]; simpl.
  - apply raises_only_ok.
  - apply raises_only_bind; [apply Hf|]. intros y.
    apply raises_only_bind; [exact IH|]. intros ys. apply raises_only_ok.
Qed.

Lemma raises_only_getitem {V : Type} (d : dict V) (k : string) :
  In KeyError allowed -> raises_only allowed (getitem d k).
Proof.
  intros Hin e H. unfold getitem in H.
  destruct (dict_get d k); inversion H. exact Hin.
Qed.

Lemma raises_only_list_index {A : Type} (l : list A) (i : nat) :
  In IndexError allowed -> raises_only allowed (list_index l i).
Proof.
  intros Hin e H. unfold list_index in H.
  destruct (nth_error l i); inversion H. exact Hin.
Qed.

Lemma raises_only_list_set {A : Type} (l : list A) (i : nat) (v : A) :
  In IndexError allowed -> raises_only allowed (FedAvgServer.list_set l i v).
Proof.
  intros Hin. revert i. induction l as [|x l IH]; intros i e H.
  - inversion H. exact Hin.
  - destruct i as [|i]; simpl in H; [discriminate H|].
    destruct (FedAvgServer.list_set l i v) eqn:E; [discriminate H|].
    simpl in H. inversion H; subst. apply (IH i). exact E.
Qed.

Lemma raises_only_int_truediv (a b : N) :
  In ZeroDivisionError allowed -> raises_only allowed (int_truediv a b).
Proof.
  intros Hin e H. unfold int_truediv in H.
  destruct (b =? 0)%N; inversion H. exact Hin.
Qed.

Lemma raises_only_tensor_iadd (a b : tensor) :
  In RuntimeError allowed -> raises_only allowed (tensor_iadd a b).
Proof.
  intros Hin e H. unfold tensor_iadd in H.
  destruct (adds_into _ _); inversion H. exact Hin.
Qed.

Lemma raises_only_tensor_sub (a b : tensor) :
  In RuntimeError allowed -> raises_only allowed (tensor_sub a b).
Proof.
  intros Hin e H. unfold tensor_sub in H.
  destruct (broadcast_shapes _ _); inversion H. exact Hin.
Qed.

Lemma raises_only_unpack_pair (key : string) :
  In ValueError allowed -> raises_only allowed (FedAvgServer.unpack_pair key).
Proof.
  intros Hin e H. unfold FedAvgServer.unpack_pair in H.
  destruct key as [|c1 [|c2 [|c3 key]]]; inversion H; exact Hin.
Qed.

Lemma raises_only_str_add (weight : string) (avg : tensor) :
  In TypeError allowed -> raises_only allowed (FedAvgServer.str_add weight avg).
Proof. intros Hin e H. inversion H. exact Hin. Qed.

End RaisesOnly.

Ltac raises_only_steps :=
  repeat first
    [ apply raises_only_ok
    | apply raises_only_getitem; simpl; tauto
    | apply raises_only_list_index; simpl; tauto
    | apply raises_only_list_set; simpl; tauto
    | apply raises_only_int_truediv; simpl; tauto
    | apply raises_only_tensor_iadd; simpl; tauto
    | apply raises_only_tensor_sub; simpl; tauto
    | apply raises_only_unpack_pair; simpl; tauto
    | apply raises_only_str_add; simpl; tauto
    | apply raises_only_map_result; intros
    | apply raises_only_for_each; intros
    | apply raises_only_bind; [|intros] ].

(** X28: the exceptions of the aggregation.  [compute_weight_updates] raises
    nothing but [KeyError] (a name the model lacks) and [RuntimeError]
    (shapes that do not broadcast); [aggregate_deltas] raises nothing but
    [IndexError], [KeyError], [ZeroDivisionError] and [RuntimeError];
    [federated_averaging] raises these four, and [ValueError] or [TypeError]
    from its last loop.  None of the three raises [StopIteration]. *)
Theorem aggregation_exceptions :
  (forall model weights_received,
     raises_only [KeyError; RuntimeError]
       (Trainer.compute_weight_updates model weights_received))
  /\ (forall updates deltas_received self,
        raises_only [IndexError; KeyError; ZeroDivisionError; RuntimeError]
          (fst (Server.aggregate_deltas updates deltas_received self)))
  /\ (forall self reports,
        raises_only [IndexError; KeyError; ZeroDivisionError; RuntimeError;
                     ValueError; TypeError]
          (fst (FedAvgServer.federated_averaging self reports))).
Proof.
  assert (Hcompute : forall allowed model weights_received,
             In KeyError allowed -> In RuntimeError allowed ->
             raises_only allowed
               (Trainer.compute_weight_updates model weights_received)).
  { intros allowed model ws Hk Hr.
    unfold Trainer.compute_weight_updates. cbv zeta.
    apply raises_only_map_result. intros w.
    apply raises_only_for_each. intros update item.
    apply raises_only_bind; [apply raises_only_getitem; exact Hk|].
    intros b.
    apply raises_only_bind; [apply raises_only_tensor_sub; exact Hr|].
    intros d. apply raises_only_ok. }
  split; [|split].
  - intros model ws. apply Hcompute; simpl; tauto.
  - intros updates deltas self.
    change (raises_only
              [IndexError; KeyError; ZeroDivisionError; RuntimeError]
              (first <- list_index deltas 0 ;;
               for_each
                 (Server.accumulate_update (total_samples_of updates) updates)
                 (enumerate deltas)
                 (map (fun item => (fst item, zeros (shape (snd item))))
                      first))).
    unfold Server.accumulate_update, Server.accumulate. raises_only_steps.
  - intros self reports. unfold FedAvgServer.federated_averaging,
      FedAvgServer.extract_client_updates.
    pose proof (Hcompute
                  [IndexError; KeyError; ZeroDivisionError; RuntimeError;
                   ValueError; TypeError]
                  (FedAvgServer.self_model self)
                  (map FedAvgServer.weights reports)) as Hc.
    destruct (Trainer.compute_weight_updates _ _) as [updates|e0].
    + cbn [fst]. unfold FedAvgServer.accumulate_update,
        FedAvgServer.accumulate.
      raises_only_steps.
    + cbn [fst]. intros e H. inversion H; subst.
      apply (Hc ltac:(simpl; tauto) ltac:(simpl; tauto) e). reflexivity.
Qed.
